(** * FridgeChef: the user-supplied credential lifecycle

    A shallow embedding of
      - [backend/src/utils/encryption.js]        (the secret cipher),
      - [backend/src/utils/aiHelper.js]          (model registry, key validator),
      - [backend/src/models/User.js]             (the credential paths of the schema),
      - [backend/src/controllers/profileController.js] (credential manager),
      - [backend/src/controllers/recipeController.js]  (secret resolution for use),
    and the properties of the credential lifecycle proved over it.

    Conventions of the embedding.
      - A JavaScript string is a sequence of UTF-16 code units.  It is
        represented by a Rocq [string] that holds its code points in
        generalized UTF-8: each code point as the one to four bytes UTF-8 has
        for it, a surrogate that is not part of a pair included (the three
        bytes [ED A0..BF 80..BF]), and a surrogate pair as the four bytes of
        the code point it stands for.  The strings without such a lone
        surrogate are the well-formed UTF-8 sequences, [Utf8.well_formed].
      - A Node [Buffer] is a [list byte].  Encoding a string as ['utf8'] is
        [Utf8.encode], which puts U+FFFD for each lone surrogate; decoding a
        buffer as ['utf8'] is [Utf8.decode], which puts U+FFFD for what is not
        UTF-8.
      - A JavaScript exception is a [Throw] carrying the [message] of the
        [Error]; [try { .. } catch { throw new Error(m) }] maps every [Throw]
        of the body to [Throw m].
      - [node:crypto] and the HTTP calls to the AI providers are outside the
        repository: they are interfaces ([NodeCrypto], [ProviderApi]) whose
        operations have the shape of the calls the source makes.
      - [console.error] calls are not modelled. *)

From Stdlib Require Import Strings.String Strings.Ascii Strings.Byte.
From Stdlib Require Import NArith ZArith Lia List.
From stdpp Require Import base strings gmap list.
From stdpp Require Import pretty.

(* ===================================================================== *)
(** ** JavaScript values, completions and string primitives *)
(* ===================================================================== *)

Module Js.

(** The values of a request field, an environment variable or a stored
    document field that the handlers tell apart: absent, [null], a boolean
    or a string.  Numbers, arrays and objects are not modelled. *)
Inductive value : Type :=
| Undefined
| Null
| Bool (b : bool)
| Str (s : string).

(** [!!v] *)
Definition truthy (v : value) : bool :=
  match v with
  | Undefined | Null => false
  | Bool b => b
  | Str s => negb (String.eqb s EmptyString)
  end.

(** [typeof v === 'string'] *)
Definition is_string (v : value) : bool :=
  match v with Str _ => true | _ => false end.

(** A field that is a string, [null] or [undefined]. *)
Definition of_field (f : option string) : value :=
  match f with Some s => Str s | None => Null end.

(** [f || d] for a string-or-absent field [f] and a string default [d]. *)
Definition or_default (f : option string) (d : string) : string :=
  match f with
  | Some s => if String.eqb s EmptyString then d else s
  | None => d
  end.

(** The outcome of evaluating an expression or a function body. *)
Inductive completion (A : Type) : Type :=
| Return (a : A)
| Throw (message : string).
Arguments Return {A} a.
Arguments Throw {A} message.

Definition bind {A B} (c : completion A) (k : A -> completion B) : completion B :=
  match c with
  | Return a => k a
  | Throw m => Throw m
  end.

(** [try { c } catch (error) { throw new Error(m) }] *)
Definition rethrow_as {A} (m : string) (c : completion A) : completion A :=
  match c with
  | Return a => Return a
  | Throw _ => Throw m
  end.

(** [s.split(sep)] for a one-character separator. *)
Fixpoint split (sep : ascii) (s : string) : list string :=
  match s with
  | EmptyString => [EmptyString]
  | String c rest =>
      if Ascii.eqb c sep then EmptyString :: split sep rest
      else match split sep rest with
           | x :: xs => String c x :: xs
           | [] => [String c EmptyString]
           end
  end.

(** [hay.includes(needle)] *)
Fixpoint includes (needle hay : string) : bool :=
  String.prefix needle hay
  || match hay with
     | EmptyString => false
     | String _ rest => includes needle rest
     end.

(** [xs.includes(x)] on an array of strings. *)
Definition array_includes (xs : list string) (x : string) : bool :=
  existsb (String.eqb x) xs.

(** White space removed by [String.prototype.trim], by the bytes of its code
    points:
    U+0009..U+000D, U+0020; U+00A0; U+1680, U+2000..U+200A, U+2028, U+2029,
    U+202F, U+205F, U+3000, U+FEFF. *)
Definition ws1 (c : ascii) : bool :=
  let n := N_of_ascii c in
  ((9 <=? n) && (n <=? 13) || (n =? 32))%N.

Definition ws2 (c d : ascii) : bool :=
  ((N_of_ascii c =? 194) && (N_of_ascii d =? 160))%N.

Definition ws3 (c d e : ascii) : bool :=
  let c := N_of_ascii c in
  let d := N_of_ascii d in
  let e := N_of_ascii e in
  ((c =? 225) && (d =? 154) && (e =? 128)
   || (c =? 226) && (d =? 128)
      && ((128 <=? e) && (e <=? 138) || (e =? 168) || (e =? 169) || (e =? 175))
   || (c =? 226) && (d =? 129) && (e =? 159)
   || (c =? 227) && (d =? 128) && (e =? 128)
   || (c =? 239) && (d =? 187) && (e =? 191))%N.

(** [s.trim().length === 0] *)
Fixpoint blank (s : string) : bool :=
  match s with
  | EmptyString => true
  | String c r =>
      if ws1 c then blank r
      else match r with
           | EmptyString => false
           | String d r1 =>
               if ws2 c d then blank r1
               else match r1 with
                    | EmptyString => false
                    | String e r2 => if ws3 c d e then blank r2 else false
                    end
           end
  end.

(** [s.length], the number of UTF-16 code units: none for a continuation
    byte [80..BF], two for the first byte of a four-byte sequence, which is a
    code point above U+FFFF and so a surrogate pair, and one for every other
    byte, the first or only byte of a code point up to U+FFFF. *)
Fixpoint length (s : string) : nat :=
  match s with
  | EmptyString => 0
  | String c rest =>
      let n := N_of_ascii c in
      (if ((128 <=? n) && (n <=? 191))%N then 0
       else if (240 <=? n)%N then 2
       else 1) + length rest
  end.

End Js.

Abbreviation Return := Js.Return.
Abbreviation Throw := Js.Throw.
Abbreviation completion := Js.completion.

(* ===================================================================== *)
(** ** Hexadecimal encoding of buffers *)
(* ===================================================================== *)

Module Hex.

Definition digits : string := "0123456789abcdef".

Definition digit (n : N) : ascii :=
  match String.get (N.to_nat n) digits with
  | Some c => c
  | None => "0"%char
  end.

Definition of_byte (b : byte) : string :=
  String (digit (Byte.to_N b / 16)) (String (digit (Byte.to_N b mod 16)) EmptyString).

(** [buf.toString('hex')] *)
Fixpoint to_hex (bs : list byte) : string :=
  match bs with
  | [] => EmptyString
  | b :: rest => of_byte b +:+ to_hex rest
  end.

(** The value of a hexadecimal digit, in either case. *)
Definition value (c : ascii) : option N :=
  let n := N_of_ascii c in
  if ((48 <=? n) && (n <=? 57))%N then Some (n - 48)%N
  else if ((97 <=? n) && (n <=? 102))%N then Some (n - 87)%N
  else if ((65 <=? n) && (n <=? 70))%N then Some (n - 55)%N
  else None.

Definition is_digit (c : ascii) : bool :=
  match value c with Some _ => true | None => false end.

Definition pair (c d : ascii) : option byte :=
  match value c, value d with
  | Some h, Some l => Byte.of_N (16 * h + l)
  | _, _ => None
  end.

(** [Buffer.from(s, 'hex')]: one byte per pair of digits; decoding stops at
    the first pair that is not two hexadecimal digits, and a trailing single
    character is dropped. *)
Fixpoint from_hex (s : string) : list byte :=
  match s with
  | String c (String d rest) =>
      match pair c d with
      | Some b => b :: from_hex rest
      | None => []
      end
  | _ => []
  end.

End Hex.

(* ===================================================================== *)
(** ** The ['utf8'] encoding of strings *)
(* ===================================================================== *)

Module Utf8.

Definition between (lo hi : N) (b : byte) : bool :=
  ((lo <=? Byte.to_N b) && (Byte.to_N b <=? hi))%N.

(** A continuation byte, [10xxxxxx]. *)
Definition continuation (b : byte) : bool := between 0x80 0xBF b.

(** The second byte of a three-byte sequence that starts with [b1]: after
    [E0] the bytes of the overlong forms are left out, after [ED] those of
    the surrogates. *)
Definition second_of_three (b1 b2 : byte) : bool :=
  if Byte.eqb b1 xe0 then between 0xA0 0xBF b2
  else if Byte.eqb b1 xed then between 0x80 0x9F b2
  else continuation b2.

(** The second byte of a four-byte sequence that starts with [b1]: after
    [F0] the overlong forms are left out, after [F4] what lies above
    U+10FFFF. *)
Definition second_of_four (b1 b2 : byte) : bool :=
  if Byte.eqb b1 xf0 then between 0x90 0xBF b2
  else if Byte.eqb b1 xf4 then between 0x80 0x8F b2
  else continuation b2.

(** U+FFFD, the replacement character. *)
Definition replacement : list byte := [xef; xbf; xbd].

(** The bytes [ED A0..BF 80..BF] of a lone surrogate, U+D800 to U+DFFF. *)
Definition surrogate (b1 b2 b3 : byte) : bool :=
  Byte.eqb b1 xed && between 0xA0 0xBF b2 && continuation b3.

(** The UTF-8 encoder of Node on a string: a lone surrogate becomes U+FFFD,
    every other code point keeps its bytes. *)
Fixpoint encode_bytes (bs : list byte) : list byte :=
  match bs with
  | [] => []
  | b1 :: r1 =>
      match r1 with
      | b2 :: b3 :: r3 =>
          if surrogate b1 b2 b3 then replacement ++ encode_bytes r3
          else b1 :: encode_bytes r1
      | _ => b1 :: encode_bytes r1
      end
  end.

(** [Buffer.from(s, 'utf8')], and what [cipher.update(s, 'utf8')] reads. *)
Definition encode (s : string) : list byte :=
  encode_bytes (list_byte_of_string s).

(** The UTF-8 decoder: a sequence of one to four bytes that encodes a code
    point is kept; otherwise U+FFFD is put for the longest prefix of such a
    sequence found, or for the one byte that starts none, and decoding goes
    on with the byte after it. *)
Fixpoint decode_bytes (bs : list byte) : list byte :=
  match bs with
  | [] => []
  | b1 :: r1 =>
      if between 0x00 0x7F b1 then b1 :: decode_bytes r1
      else if between 0xC2 0xDF b1 then
        match r1 with
        | [] => replacement
        | b2 :: r2 =>
            if continuation b2 then b1 :: b2 :: decode_bytes r2
            else replacement ++ decode_bytes r1
        end
      else if between 0xE0 0xEF b1 then
        match r1 with
        | [] => replacement
        | b2 :: r2 =>
            if second_of_three b1 b2 then
              match r2 with
              | [] => replacement
              | b3 :: r3 =>
                  if continuation b3 then b1 :: b2 :: b3 :: decode_bytes r3
                  else replacement ++ decode_bytes r2
              end
            else replacement ++ decode_bytes r1
        end
      else if between 0xF0 0xF4 b1 then
        match r1 with
        | [] => replacement
        | b2 :: r2 =>
            if second_of_four b1 b2 then
              match r2 with
              | [] => replacement
              | b3 :: r3 =>
                  if continuation b3 then
                    match r3 with
                    | [] => replacement
                    | b4 :: r4 =>
                        if continuation b4
                        then b1 :: b2 :: b3 :: b4 :: decode_bytes r4
                        else replacement ++ decode_bytes r3
                    end
                  else replacement ++ decode_bytes r2
              end
            else replacement ++ decode_bytes r1
        end
      else replacement ++ decode_bytes r1
  end.

(** [buf.toString('utf8')], and what [decipher.update(.., .., 'utf8')]
    followed by [decipher.final('utf8')] gives for the bytes decrypted. *)
Definition decode (bs : list byte) : string :=
  string_of_list_byte (decode_bytes bs).

(** The byte sequences that are UTF-8. *)
Fixpoint valid (bs : list byte) : bool :=
  match bs with
  | [] => true
  | b1 :: r1 =>
      if between 0x00 0x7F b1 then valid r1
      else if between 0xC2 0xDF b1 then
        match r1 with
        | b2 :: r2 => continuation b2 && valid r2
        | _ => false
        end
      else if between 0xE0 0xEF b1 then
        match r1 with
        | b2 :: b3 :: r3 => second_of_three b1 b2 && continuation b3 && valid r3
        | _ => false
        end
      else if between 0xF0 0xF4 b1 then
        match r1 with
        | b2 :: b3 :: b4 :: r4 =>
            second_of_four b1 b2 && continuation b3 && continuation b4 && valid r4
        | _ => false
        end
      else false
  end.

(** [s.isWellFormed()]: the string has no lone surrogate. *)
Definition well_formed (s : string) : bool :=
  valid (list_byte_of_string s).

End Utf8.

(* ===================================================================== *)
(** ** utils/encryption.js *)
(* ===================================================================== *)

(** The part of [node:crypto] the module calls.  [createCipheriv alg key iv pt]
    stands for [createCipheriv(alg, key, iv)] followed by [update], [final]
    and [getAuthTag]: it yields the ciphertext and the authentication tag.
    [createDecipheriv alg key iv tag ct] stands for [createDecipheriv],
    [setAuthTag], [update] and [final]: it yields the plaintext or throws. *)
Record NodeCrypto : Type := {
  rng : Type;
  randomBytes : nat -> rng -> list byte * rng;
  pbkdf2Sync : string -> list byte -> N -> nat -> string -> list byte;
  createCipheriv : string -> list byte -> list byte -> list byte ->
                   completion (list byte * list byte);
  createDecipheriv : string -> list byte -> list byte -> list byte -> list byte ->
                     completion (list byte)
}.

Module Encryption.

Definition ALGORITHM : string := "aes-256-gcm".
Definition IV_LENGTH : nat := 16.
Definition SALT_LENGTH : nat := 64.
Definition TAG_LENGTH : nat := 16.
Definition KEY_LENGTH : nat := 32.
Definition ITERATIONS : N := 100000.

Section WithCrypto.
Variable L : NodeCrypto.
(** [process.env.ENCRYPTION_SECRET] *)
Variable ENCRYPTION_SECRET : option string.

Definition deriveKey (secret : string) (salt : list byte) : list byte :=
  pbkdf2Sync L secret salt ITERATIONS KEY_LENGTH "sha256".

(** The body of the [try] block of [encrypt]. *)
Definition encrypt_try (text : Js.value) (g : rng L) : completion string * rng L :=
  match text with
  | Js.Str s =>
      if String.eqb s EmptyString then (Throw "Invalid input for encryption", g)
      else if negb (Js.truthy (Js.of_field ENCRYPTION_SECRET))
      then (Throw "ENCRYPTION_SECRET is not set in environment variables", g)
      else
        let secret := Js.or_default ENCRYPTION_SECRET EmptyString in
        let '(salt, g1) := randomBytes L SALT_LENGTH g in
        let '(iv, g2) := randomBytes L IV_LENGTH g1 in
        let key := deriveKey secret salt in
        match createCipheriv L ALGORITHM key iv (Utf8.encode s) with
        | Throw m => (Throw m, g2)
        | Return (encrypted, authTag) =>
            (Return (Hex.to_hex salt +:+ ":" +:+ Hex.to_hex iv +:+ ":"
                     +:+ Hex.to_hex authTag +:+ ":" +:+ Hex.to_hex encrypted), g2)
        end
  | _ => (Throw "Invalid input for encryption", g)
  end.

Definition encrypt (text : Js.value) (g : rng L) : completion string * rng L :=
  let '(r, g') := encrypt_try text g in
  (Js.rethrow_as "Failed to encrypt data" r, g').

(** The body of the [try] block of [decrypt].  [decipher.update(encrypted,
    'hex', 'utf8')] throws on a string with an odd number of code units, and
    decodes any other as [Buffer.from(encrypted, 'hex')] does.  The [catch]
    replaces the message of every error, so that it is immaterial which of
    two errors of the body comes first. *)
Definition decrypt_try (encryptedText : Js.value) : completion string :=
  match encryptedText with
  | Js.Str s =>
      if String.eqb s EmptyString then Throw "Invalid input for decryption"
      else if negb (Js.truthy (Js.of_field ENCRYPTION_SECRET))
      then Throw "ENCRYPTION_SECRET is not set in environment variables"
      else
        let secret := Js.or_default ENCRYPTION_SECRET EmptyString in
        match Js.split ":" s with
        | [p0; p1; p2; p3] =>
            let salt := Hex.from_hex p0 in
            let iv := Hex.from_hex p1 in
            let authTag := Hex.from_hex p2 in
            let encrypted := p3 in
            let key := deriveKey secret salt in
            if Nat.odd (Js.length encrypted)
            then Throw ("The argument 'encoding' is invalid for data of length "
                        +:+ pretty (Js.length encrypted) +:+ ". Received 'hex'")
            else
              Js.bind (createDecipheriv L ALGORITHM key iv authTag (Hex.from_hex encrypted))
                      (fun decrypted => Return (Utf8.decode decrypted))
        | _ => Throw "Invalid encrypted data format"
        end
  | _ => Throw "Invalid input for decryption"
  end.

Definition decrypt (encryptedText : Js.value) : completion string :=
  Js.rethrow_as "Failed to decrypt data" (decrypt_try encryptedText).

Definition isEncrypted (text : Js.value) : bool :=
  match text with
  | Js.Str s => negb (String.eqb s EmptyString) && (length (Js.split ":" s) =? 4)%nat
  | _ => false
  end.

End WithCrypto.

End Encryption.

(* ===================================================================== *)
(** ** utils/aiHelper.js *)
(* ===================================================================== *)

(** What a call of [fetch] to the Groq endpoint, and the reading of the reply,
    can come to: the request or the reading of the body throws; the reply is
    not [ok], with the [error.message] of its body if it has one and its
    [statusText]; or the reply is [ok] and carries the message content. *)
Inductive FetchOutcome : Type :=
| FetchThrows (message : string)
| FetchNotOk (errorMessage : option string) (statusText : string)
| FetchOk (content : string).

(** The two outbound calls of the module.  [groqFetch apiKey model messages
    maxTokens] is the [fetch] of [callGroqAPI]; [generateContent apiKey model
    prompt] is [new GoogleGenerativeAI(apiKey).getGenerativeModel({ model })
    .generateContent(prompt)] up to [response.text()].

    A value of this type is what the providers answer while one request is
    handled; the handlers of the credential manager call a provider at most
    once in a request.  What a provider answers to the same call may change
    from one request to the next (a key is revoked, a quota runs out, the
    service is down): a property about several requests takes one value for
    each of them. *)
Record ProviderApi : Type := {
  groqFetch : string -> string -> list (string * string) -> nat -> FetchOutcome;
  generateContent : string -> string -> string -> completion string
}.

Module AiHelper.

Definition dquote : string := String (ascii_of_nat 34) EmptyString.

(** The properties every object literal inherits from [Object.prototype]:
    functions, and the prototype itself under [__proto__]. *)
Definition Object_prototype : list string :=
  [ "constructor"; "__defineGetter__"; "__defineSetter__"; "hasOwnProperty";
    "__lookupGetter__"; "__lookupSetter__"; "isPrototypeOf";
    "propertyIsEnumerable"; "toString"; "valueOf"; "__proto__";
    "toLocaleString" ].

(** What [getAvailableModels] returns: an array of model names, or the
    inherited property of that name, which is truthy and is no array. *)
Inductive Registered : Type :=
| Models (models : list string)
| Inherited (name : string).

(** The elements of an array of models; an inherited property has none. *)
Definition elements (r : Registered) : list string :=
  match r with
  | Models models => models
  | Inherited _ => []
  end.

(** The own properties of [AVAILABLE_MODELS], from provider to models. *)
Definition AVAILABLE_MODELS : gmap string (list string) :=
  <[ "gemini" := [ "gemini-2.5-flash-lite";
                   "gemini-2.5-flash-preview-09-2025";
                   "gemini-2.5-flash-lite-preview-09-2025";
                   "gemini-2.0-flash";
                   "gemini-2.0-flash-lite" ] ]>
  (<[ "grok" := [ "llama-3.3-70b-versatile";
                  "llama-3.1-8b-instant";
                  "meta-llama/llama-4-scout-17b-16e-instruct";
                  "openai/gpt-oss-120b" ] ]> ∅).

(** [AVAILABLE_MODELS[provider] || []]: the property is looked up on the
    object and then on its prototype; an array, empty or not, and an inherited
    property are truthy, and a name found on neither gives [undefined]. *)
Definition getAvailableModels (provider : string) : Registered :=
  match AVAILABLE_MODELS !! provider with
  | Some models => Models models
  | None =>
      if Js.array_includes Object_prototype provider then Inherited provider
      else Models []
  end.

Section WithProvider.
Variable P : ProviderApi.
(** [process.env.GEMINI_API_KEY] and [process.env.GROK_API_KEY] *)
Variables defaultGeminiKey defaultGrokKey : option string.

(** The object [{ apiKey, provider, model }]. *)
Record AIConfig : Type := { apiKey : string; provider : string; model : string }.

Definition getAIConfig (userApiKey : option string) (provider model : string)
  : completion AIConfig :=
  let apiKey :=
    match userApiKey with
    | Some k => if String.eqb k EmptyString
                then (if String.eqb provider "gemini" then defaultGeminiKey else defaultGrokKey)
                else Some k
    | None => if String.eqb provider "gemini" then defaultGeminiKey else defaultGrokKey
    end in
  if negb (Js.truthy (Js.of_field apiKey))
  then Throw ("No " +:+ provider
              +:+ " API key available. Please provide your API key in profile settings.")
  else Return {| apiKey := Js.or_default apiKey EmptyString;
                 provider := provider; model := model |}.

Definition callGroqAPI (apiKey model : string) (messages : list (string * string))
           (maxTokens : nat) : completion string :=
  match
    match groqFetch P apiKey model messages maxTokens with
    | FetchThrows m => Throw m
    | FetchNotOk errorMessage statusText =>
        Throw ("Groq API Error: " +:+ Js.or_default errorMessage statusText)
    | FetchOk content => Return content
    end
  with
  | Return content => Return content
  | Throw m => Throw ("Failed to call Groq API: " +:+ m)
  end.

(** The body of the [try] block of [validateApiKey]. *)
Definition validateApiKey_try (apiKey : Js.value) (provider model : string)
  : completion bool :=
  match apiKey with
  | Js.Str k =>
      if String.eqb k EmptyString || Js.blank k then Throw "API key is required"
      else if String.eqb provider "grok" then
        Js.bind (callGroqAPI k model [("user", "Say OK")] 10)
                (fun _ => Return true)
      else
        Js.bind (generateContent P k model ("Say " +:+ dquote +:+ "OK" +:+ dquote))
                (fun text => if (String.length text =? 0)%nat
                             then Throw "Invalid API response"
                             else Return true)
  | _ => Throw "API key is required"
  end.

Definition validateApiKey (apiKey : Js.value) (provider model : string)
  : completion bool :=
  match validateApiKey_try apiKey provider model with
  | Return b => Return b
  | Throw m =>
      if Js.includes "API_KEY_INVALID" m || Js.includes "invalid" m
         || Js.includes "401" m || Js.includes "403" m
      then Throw ("Invalid " +:+ provider +:+ " API key. Please check your API key.")
      else Throw ("API key validation failed: " +:+ m)
  end.

End WithProvider.

End AiHelper.

(* ===================================================================== *)
(** ** The user document *)
(* ===================================================================== *)

(** The four credential paths of [UserSchema] in [models/User.js], as a
    stored document has them.  [aiApiKey] and [geminiApiKey] are the current
    and the legacy encrypted secret: a string, or [None] for [null] and for a
    path the document does not have (their default is [null], and the
    handlers test them for truthiness only).  [aiProvider] and [aiModel] are
    a string, or [None] for a path the document does not have, as in a
    document written before the schema had them; [null] is not stored there
    by the schema or by a handler, and is not represented.  The other paths
    of the schema are not read or assigned by the handlers below. *)
Record User : Type := mkUser {
  aiApiKey : option string;
  geminiApiKey : option string;
  aiProvider : option string;
  aiModel : option string
}.

(** The defaults of the schema for [aiProvider] and [aiModel].  A document
    that [User.findById] has loaded has them on the paths the stored
    document lacks, and [save()] stores them together with the paths
    assigned.  [setAIConfig], [setApiKey] and [deleteAIConfig] assign both
    paths before they save, and the handlers that read them put the same
    values for a path that is missing or empty, so that the defaults show in
    what [deleteApiKey] stores only. *)
Definition with_defaults (user : User) : User :=
  {| aiApiKey := aiApiKey user;
     geminiApiKey := geminiApiKey user;
     aiProvider := Some (default "gemini" (aiProvider user));
     aiModel := Some (default "gemini-2.5-flash-lite" (aiModel user)) |}.

(** A secret field is present when it holds a non-empty string. *)
Definition present (f : option string) : Prop :=
  ∃ s, f = Some s ∧ s ≠ EmptyString.

(** The [users] collection as it is stored, by [_id].  [User.findById] is the
    lookup, [with_defaults] what the schema adds to the document loaded, and
    [user.save()] the update of the document under its id. *)
Abbreviation Users := (gmap string User).

(** The JSON body of a reply and the status it is sent with. *)
Inductive Data : Type :=
| NoData
| AvailableModels (availableModels : list string)
| SavedConfig (hasApiKey : bool) (provider model : string)
| HasApiKey (hasApiKey : bool)
| ConfigStatus (hasApiKey : bool) (provider model : string)
               (geminiModels grokModels : list string)
| ValidConfig (isValid : bool) (provider model : string).

Record Response : Type := mkResponse {
  status : nat;
  success : bool;
  message : option string;
  data : Data;
  error : option string
}.

(** The [TypeError] of V8 on a property access on [null]. *)
Definition read_of_null (prop : string) : string :=
  "Cannot read properties of null (reading '" +:+ prop +:+ "')".

Definition write_of_null (prop : string) : string :=
  "Cannot set properties of null (setting '" +:+ prop +:+ "')".

(* ===================================================================== *)
(** ** controllers/profileController.js *)
(* ===================================================================== *)

Module ProfileController.

(** [req.body] of the two requests that set a key. *)
Record ConfigBody : Type := { apiKey : Js.value; provider : Js.value; model : Js.value }.

Definition bad_request (m : string) : Response :=
  mkResponse 400 false (Some m) NoData None.

Section WithServices.
Variable L : NodeCrypto.
Variable ENCRYPTION_SECRET : option string.
Variable P : ProviderApi.

(** [!apiKey || typeof apiKey !== 'string' || apiKey.trim().length === 0] *)
Definition missing_key (apiKey : Js.value) : bool :=
  negb (Js.truthy apiKey) || negb (Js.is_string apiKey)
  || match apiKey with Js.Str k => Js.blank k | _ => true end.

(** [model || (provider === 'gemini' ? 'gemini-2.5-flash-lite'
                                      : 'llama-3.3-70b-versatile')] *)
Definition selectedModel (model : Js.value) (provider : string) : Js.value :=
  if Js.truthy model then model
  else Js.Str (if String.eqb provider "gemini"
               then "gemini-2.5-flash-lite" else "llama-3.3-70b-versatile").

(** The string a value becomes inside a template literal. *)
Definition to_string (v : Js.value) : string :=
  match v with
  | Js.Undefined => "undefined"
  | Js.Null => "null"
  | Js.Bool true => "true"
  | Js.Bool false => "false"
  | Js.Str s => s
  end.

Definition setAIConfig (db : Users) (g : rng L) (id : string) (body : ConfigBody)
  : Response * Users * rng L :=
  let apiKey := apiKey body in
  let provider := match provider body with Js.Undefined => Js.Str "gemini" | v => v end in
  let model := model body in
  if missing_key apiKey then (bad_request "Please provide a valid API key", db, g)
  else
    match provider with
    | Js.Str provider =>
        if negb (Js.array_includes ["gemini"; "grok"] provider)
        then (bad_request ("Provider must be either " +:+ AiHelper.dquote +:+ "gemini"
                           +:+ AiHelper.dquote +:+ " or " +:+ AiHelper.dquote +:+ "grok"
                           +:+ AiHelper.dquote), db, g)
        else
          let selected := selectedModel model provider in
          match AiHelper.getAvailableModels provider with
          | AiHelper.Inherited _ =>
              (mkResponse 500 false (Some "Failed to save AI configuration") NoData
                          (Some "availableModels.includes is not a function"), db, g)
          | AiHelper.Models availableModels =>
              match selected with
              | Js.Str selected =>
                  if negb (Js.array_includes availableModels selected)
                  then (mkResponse 400 false
                          (Some ("Model " +:+ AiHelper.dquote +:+ selected +:+ AiHelper.dquote
                                 +:+ " is not available for provider " +:+ AiHelper.dquote
                                 +:+ provider +:+ AiHelper.dquote))
                          (AvailableModels availableModels) None, db, g)
                  else
                    match AiHelper.validateApiKey P apiKey provider selected with
                    | Throw validationError => (bad_request validationError, db, g)
                    | Return _ =>
                        match Encryption.encrypt L ENCRYPTION_SECRET apiKey g with
                        | (Throw m, g') =>
                            (mkResponse 500 false (Some "Failed to save AI configuration")
                                        NoData (Some m), db, g')
                        | (Return encryptedKey, g') =>
                            match db !! id with
                            | None =>
                                (mkResponse 500 false
                                            (Some "Failed to save AI configuration")
                                            NoData (Some (write_of_null "aiApiKey")), db, g')
                            | Some user =>
                                let user :=
                                  {| aiApiKey := Some encryptedKey;
                                     geminiApiKey := geminiApiKey user;
                                     aiProvider := Some provider;
                                     aiModel := Some selected |} in
                                (mkResponse 200 true
                                            (Some "AI configuration saved successfully")
                                            (SavedConfig true provider selected) None,
                                 <[ id := user ]> db, g')
                            end
                        end
                    end
              | other =>
                  (mkResponse 400 false
                     (Some ("Model " +:+ AiHelper.dquote +:+ to_string other
                            +:+ AiHelper.dquote
                            +:+ " is not available for provider " +:+ AiHelper.dquote
                            +:+ provider +:+ AiHelper.dquote))
                     (AvailableModels availableModels) None, db, g)
              end
          end
    | _ =>
        (bad_request ("Provider must be either " +:+ AiHelper.dquote +:+ "gemini"
                      +:+ AiHelper.dquote +:+ " or " +:+ AiHelper.dquote +:+ "grok"
                      +:+ AiHelper.dquote), db, g)
    end.

(** The legacy endpoint; only [apiKey] of the body is read. *)
Definition setApiKey (db : Users) (g : rng L) (id : string) (body : ConfigBody)
  : Response * Users * rng L :=
  let apiKey := apiKey body in
  if missing_key apiKey then (bad_request "Please provide a valid API key", db, g)
  else
    let provider := "gemini" in
    let model := "gemini-2.5-flash-lite" in
    match AiHelper.validateApiKey P apiKey provider model with
    | Throw validationError => (bad_request validationError, db, g)
    | Return _ =>
        match Encryption.encrypt L ENCRYPTION_SECRET apiKey g with
        | (Throw m, g') =>
            (mkResponse 500 false (Some "Failed to save API key") NoData (Some m), db, g')
        | (Return encryptedKey, g') =>
            match db !! id with
            | None =>
                (mkResponse 500 false (Some "Failed to save API key")
                            NoData (Some (write_of_null "aiApiKey")), db, g')
            | Some user =>
                let user :=
                  {| aiApiKey := Some encryptedKey;
                     geminiApiKey := Some encryptedKey;
                     aiProvider := Some provider;
                     aiModel := Some model |} in
                (mkResponse 200 true (Some "API key saved successfully")
                            (HasApiKey true) None,
                 <[ id := user ]> db, g')
            end
        end
    end.

Definition getAIConfig (db : Users) (id : string) : Response :=
  match db !! id with
  | None => mkResponse 500 false (Some "Server error") NoData
                       (Some (read_of_null "aiApiKey"))
  | Some user =>
      mkResponse 200 true None
        (ConfigStatus
           (Js.truthy (Js.of_field (aiApiKey user))
            || Js.truthy (Js.of_field (geminiApiKey user)))
           (Js.or_default (aiProvider user) "gemini")
           (Js.or_default (aiModel user) "gemini-2.5-flash-lite")
           (AiHelper.elements (AiHelper.getAvailableModels "gemini"))
           (AiHelper.elements (AiHelper.getAvailableModels "grok")))
        None
  end.

Definition deleteAIConfig (db : Users) (id : string) : Response * Users :=
  match db !! id with
  | None => (mkResponse 500 false (Some "Failed to remove AI configuration") NoData
                        (Some (write_of_null "aiApiKey")), db)
  | Some user =>
      let user :=
        {| aiApiKey := None;
           geminiApiKey := None;
           aiProvider := Some "gemini";
           aiModel := Some "gemini-2.5-flash-lite" |} in
      (mkResponse 200 true (Some "AI configuration removed successfully")
                  (HasApiKey false) None,
       <[ id := user ]> db)
  end.

(** [user.aiApiKey ? decrypt(user.aiApiKey) : decrypt(user.geminiApiKey)] *)
Definition decryptedKey (user : User) : completion string :=
  if Js.truthy (Js.of_field (aiApiKey user))
  then Encryption.decrypt L ENCRYPTION_SECRET (Js.of_field (aiApiKey user))
  else Encryption.decrypt L ENCRYPTION_SECRET (Js.of_field (geminiApiKey user)).

Definition validateStoredAIConfig (db : Users) (id : string) : Response :=
  let failed (m : string) :=
    mkResponse 400 false (Some "AI configuration validation failed") NoData (Some m) in
  match db !! id with
  | None => failed (read_of_null "aiApiKey")
  | Some user =>
      if negb (Js.truthy (Js.of_field (aiApiKey user)))
         && negb (Js.truthy (Js.of_field (geminiApiKey user)))
      then mkResponse 404 false (Some "No API key configured") NoData None
      else
        match decryptedKey user with
        | Throw m => failed m
        | Return key =>
            let provider := Js.or_default (aiProvider user) "gemini" in
            let model := Js.or_default (aiModel user) "gemini-2.5-flash-lite" in
            match AiHelper.validateApiKey P (Js.Str key) provider model with
            | Throw m => failed m
            | Return _ =>
                mkResponse 200 true (Some "AI configuration is valid")
                           (ValidConfig true provider model) None
            end
        end
  end.

End WithServices.

End ProfileController.

(* ===================================================================== *)
(** ** controllers/recipeController.js *)
(* ===================================================================== *)

Module RecipeController.

Section WithServices.
Variable L : NodeCrypto.
Variable ENCRYPTION_SECRET : option string.
Variables defaultGeminiKey defaultGrokKey : option string.

(** The user's key as [generateRecipes], [generateSingleRecipe] and
    [detectIngredients] load it: [userApiKey] stays [null] when the user has
    neither field. *)
Definition userApiKey (user : User) : completion (option string) :=
  if Js.truthy (Js.of_field (aiApiKey user))
  then Js.bind (Encryption.decrypt L ENCRYPTION_SECRET (Js.of_field (aiApiKey user)))
               (fun k => Return (Some k))
  else if Js.truthy (Js.of_field (geminiApiKey user))
  then Js.bind (Encryption.decrypt L ENCRYPTION_SECRET (Js.of_field (geminiApiKey user)))
               (fun k => Return (Some k))
  else Return None.

(** The configuration the outbound call of a recipe request is made with:
    the handler loads the key, the provider and the model of the user and
    [generateRecipe] passes them to [getAIConfig] of [aiHelper.js]. *)
Definition generateRecipes_config (user : User) : completion AiHelper.AIConfig :=
  Js.bind (userApiKey user)
          (fun key =>
             let provider := Js.or_default (aiProvider user) "gemini" in
             let model := Js.or_default (aiModel user) "gemini-2.5-flash-lite" in
             match AiHelper.getAIConfig defaultGeminiKey defaultGrokKey key provider model with
             | Return c => Return c
             | Throw m => Throw ("Failed to generate recipe: " +:+ m)
             end).

End WithServices.

End RecipeController.

(* ===================================================================== *)
(** ** What is asked of [node:crypto] *)
(* ===================================================================== *)

(** [ys] is [xs] with exactly one byte replaced by another one. *)
Definition one_byte_changed (xs ys : list byte) : Prop :=
  ∃ pre b b' post, b ≠ b' ∧ xs = pre ++ b :: post ∧ ys = pre ++ b' :: post.

(** The functional behaviour of the library calls: buffers have the length
    asked for, and with a 32-byte key and a 16-byte nonce AES-256-GCM
    encrypts, and decrypts what it encrypted under the tag it produced. *)
Record CryptoLaws (L : NodeCrypto) : Prop := {
  randomBytes_length :
    ∀ n g, length (randomBytes L n g).1 = n;
  pbkdf2Sync_length :
    ∀ secret salt iterations keylen digest,
      length (pbkdf2Sync L secret salt iterations keylen digest) = keylen;
  gcm_roundtrip :
    ∀ key iv pt,
      length key = Encryption.KEY_LENGTH → length iv = Encryption.IV_LENGTH →
      ∃ ct tag,
        createCipheriv L Encryption.ALGORITHM key iv pt = Return (ct, tag)
        ∧ createDecipheriv L Encryption.ALGORITHM key iv tag ct = Return pt
}.

(** Authentication, as far as single-byte changes go: after an encryption
    under [key] and [iv], the same key and nonce accept neither the ciphertext
    with one byte changed under the tag produced, nor the ciphertext produced
    under that tag with one byte changed. *)
Definition GcmAuthentic (L : NodeCrypto) : Prop :=
  ∀ key iv pt ct tag ct' tag',
    createCipheriv L Encryption.ALGORITHM key iv pt = Return (ct, tag) →
    (one_byte_changed ct ct' ∧ tag' = tag) ∨ (ct' = ct ∧ one_byte_changed tag tag') →
    ∃ m, createDecipheriv L Encryption.ALGORITHM key iv tag' ct' = Throw m.

(* ===================================================================== *)
(** ** Predicates on strings used in the statements *)
(* ===================================================================== *)

Fixpoint all_chars (p : ascii -> bool) (s : string) : bool :=
  match s with
  | EmptyString => true
  | String c rest => p c && all_chars p rest
  end.

(** The character [c] does not occur in [s]. *)
Definition free_of (c : ascii) (s : string) : bool :=
  all_chars (fun d => negb (Ascii.eqb d c)) s.

(** [s] is made of hexadecimal digits only. *)
Definition hex_only (s : string) : bool := all_chars Hex.is_digit s.

(** [s] is made of characters up to U+007F and has no colon; [junk s] says
    moreover that decoding [s] as hexadecimal gives no byte: [s] has less than
    two characters or one of its first two is no hexadecimal digit. *)
Definition plain (s : string) : bool :=
  all_chars (fun c => (N_of_ascii c <? 128)%N && negb (Ascii.eqb c ":")) s.

Definition junk (s : string) : Prop :=
  plain s = true ∧ Hex.from_hex s = [].

(** [char_replaced c c' s s']: [s'] is [s] with one occurrence of the
    character [c] replaced by [c']. *)
Inductive char_replaced (c c' : ascii) : string -> string -> Prop :=
| char_replaced_at (pre post : string) :
    char_replaced c c' (pre +:+ String c post) (pre +:+ String c' post).

(** The four components of an encrypted secret, joined as [encrypt] does. *)
Definition joined (salt iv tag ct : string) : string :=
  salt +:+ ":" +:+ iv +:+ ":" +:+ tag +:+ ":" +:+ ct.

(* ===================================================================== *)
(** ** An executable instance of the interfaces *)
(* ===================================================================== *)

(** A small stand-in for [node:crypto] on which the model runs: a counter as
    random generator, a key read off the secret and the salt, a byte-wise
    involution as cipher and a 16-byte checksum of key, nonce and ciphertext
    as tag.  It has the laws above and nothing of the strength of the real
    primitives. *)
Module ToyCrypto.

Definition byte_of_N (n : N) : byte :=
  match Byte.of_N (n mod 256) with Some b => b | None => x00 end.

Definition randomBytes (n : nat) (g : nat) : list byte * nat :=
  (map (fun i => byte_of_N (N.of_nat i)) (seq g n), (g + n)%nat).

Definition pbkdf2Sync (secret : string) (salt : list byte) (iterations : N)
           (keylen : nat) (digest : string) : list byte :=
  map (fun i => nth i (list_byte_of_string secret ++ salt) x00) (seq 0 keylen).

Definition flip (b : byte) : byte := byte_of_N (255 - Byte.to_N b).

Definition total (bs : list byte) : N :=
  fold_right (fun b acc => (Byte.to_N b + acc)%N) 0%N bs.

Definition mac (key iv ct : list byte) : list byte :=
  byte_of_N (total key + total iv + total ct) :: repeat x00 15.

Fixpoint bytes_eqb (xs ys : list byte) : bool :=
  match xs, ys with
  | [], [] => true
  | x :: xs, y :: ys => Byte.eqb x y && bytes_eqb xs ys
  | _, _ => false
  end.

Definition createCipheriv (alg : string) (key iv pt : list byte)
  : completion (list byte * list byte) :=
  if negb (length key =? 32)%nat then Throw "Invalid key length"
  else if (length iv =? 0)%nat then Throw "Invalid initialization vector"
  else let ct := map flip pt in Return (ct, mac key iv ct).

Definition createDecipheriv (alg : string) (key iv tag ct : list byte)
  : completion (list byte) :=
  if negb (length key =? 32)%nat then Throw "Invalid key length"
  else if (length iv =? 0)%nat then Throw "Invalid initialization vector"
  else if bytes_eqb tag (mac key iv ct) then Return (map flip ct)
  else Throw "Unsupported state or unable to authenticate data".

Definition lib : NodeCrypto :=
  Build_NodeCrypto nat randomBytes pbkdf2Sync createCipheriv createDecipheriv.

(** A provider that answers every call, and one that refuses every key. *)
Definition accepting : ProviderApi :=
  {| groqFetch := fun _ _ _ _ => FetchOk "OK";
     generateContent := fun _ _ _ => Return "OK" |}.

Definition refusing : ProviderApi :=
  {| groqFetch := fun _ _ _ _ => FetchNotOk (Some "Invalid API Key") "Unauthorized";
     generateContent := fun _ _ _ => Throw "API key not valid. [API_KEY_INVALID]" |}.

(** The run used in the examples: the master secret, and the components of
    the encrypted secret that [encrypt] makes of ["sk-1"] from the generator
    state [0]. *)
Definition secret : option string := Some "master-secret".

Definition salt_hex : string :=
  "000102030405060708090a0b0c0d0e0f101112131415161718191a1b1c1d1e1f"
  +:+ "202122232425262728292a2b2c2d2e2f303132333435363738393a3b3c3d3e3f".
Definition iv_hex : string := "404142434445464748494a4b4c4d4e4f".
Definition tag_hex : string := "22000000000000000000000000000000".
Definition ct_hex : string := "8c94d2ce".

End ToyCrypto.

(** The users and requests of the examples. *)
Module Scenario.

Definition fresh : User := mkUser None None None None.

Definition legacy_only : User :=
  mkUser None
         (Some (joined ToyCrypto.salt_hex ToyCrypto.iv_hex
                       ToyCrypto.tag_hex ToyCrypto.ct_hex))
         None None.

Definition configured : User :=
  mkUser (Some (joined ToyCrypto.salt_hex ToyCrypto.iv_hex
                       ToyCrypto.tag_hex ToyCrypto.ct_hex))
         None (Some "grok") (Some "llama-3.1-8b-instant").

Definition users : Users :=
  <[ "u1" := fresh ]> (<[ "u2" := legacy_only ]> (<[ "u3" := configured ]> ∅)).

(** The string of the one code unit U+D800, a surrogate without its pair,
    and the string of the one code unit U+FFFD. *)
Definition lone_surrogate : string := string_of_list_byte [xed; xa0; x80].
Definition replacement_character : string := string_of_list_byte Utf8.replacement.

Definition request (key : string) (provider model : Js.value)
  : ProfileController.ConfigBody :=
  {| ProfileController.apiKey := Js.Str key;
     ProfileController.provider := provider;
     ProfileController.model := model |}.

End Scenario.

(* ===================================================================== *)
(** ** controllers/profileController.js: the legacy endpoints *)
(* ===================================================================== *)

(** A reply whose [data] is of type [D]. *)
Record Reply (D : Type) : Type := mkReply {
  reply_status : nat;
  reply_success : bool;
  reply_message : option string;
  reply_data : option D;
  reply_error : option string
}.
Arguments mkReply {D} _ _ _ _ _.
Arguments reply_status {D} _.
Arguments reply_success {D} _.
Arguments reply_message {D} _.
Arguments reply_data {D} _.
Arguments reply_error {D} _.

Module ProfileLegacy.

Section WithServices.
Variable L : NodeCrypto.
Variable ENCRYPTION_SECRET : option string.
Variable P : ProviderApi.

Definition getApiKeyStatus (db : Users) (id : string) : Response :=
  match db !! id with
  | None => mkResponse 500 false (Some "Server error") NoData
                       (Some (read_of_null "aiApiKey"))
  | Some user =>
      mkResponse 200 true None
        (HasApiKey (Js.truthy (Js.of_field (aiApiKey user))
                    || Js.truthy (Js.of_field (geminiApiKey user))))
        None
  end.

(** [aiProvider] and [aiModel] are not assigned: the document saved has what
    the document loaded has on these paths. *)
Definition deleteApiKey (db : Users) (id : string) : Response * Users :=
  match db !! id with
  | None => (mkResponse 500 false (Some "Failed to remove API key") NoData
                        (Some (write_of_null "aiApiKey")), db)
  | Some user =>
      let user := with_defaults user in
      let user :=
        {| aiApiKey := None;
           geminiApiKey := None;
           aiProvider := aiProvider user;
           aiModel := aiModel user |} in
      (mkResponse 200 true (Some "API key removed successfully") (HasApiKey false) None,
       <[ id := user ]> db)
  end.

(** The data of the reply is [{ isValid }]. *)
Definition validateStoredApiKey (db : Users) (id : string) : Reply bool :=
  let failed (m : string) :=
    mkReply 400 false (Some "API key validation failed") None (Some m) in
  match db !! id with
  | None => failed (read_of_null "aiApiKey")
  | Some user =>
      if negb (Js.truthy (Js.of_field (aiApiKey user)))
         && negb (Js.truthy (Js.of_field (geminiApiKey user)))
      then mkReply 404 false (Some "No API key configured") None None
      else
        match ProfileController.decryptedKey L ENCRYPTION_SECRET user with
        | Throw m => failed m
        | Return key =>
            let provider := Js.or_default (aiProvider user) "gemini" in
            let model := Js.or_default (aiModel user) "gemini-2.5-flash-lite" in
            match AiHelper.validateApiKey P (Js.Str key) provider model with
            | Throw m => failed m
            | Return _ => mkReply 200 true (Some "API key is valid") (Some true) None
            end
        end
  end.

End WithServices.

End ProfileLegacy.

(* ===================================================================== *)
(** ** The recipe requests: aiHelper.js and controllers/recipeController.js *)
(* ===================================================================== *)

Module RecipeEndpoints.

(** [req.body] of a recipe request.  [ingredients] is [None] for a value that
    is not an array and the items of the array otherwise; [parsedCount] is
    the value of [parseInt(count)], [None] for [NaN] ([count] is 3 when the
    field is left out, and [parseInt(3)] is 3). *)
Record RecipeBody : Type := {
  ingredients : option (list string);
  mode : Js.value;
  parsedCount : option Z
}.

(** [Math.min(Math.max(parseInt(count) || 3, 1), 5)] *)
Definition recipeCount (parsedCount : option Z) : Z :=
  Z.min (Z.max (match parsedCount with
                | Some n => if (n =? 0)%Z then 3 else n
                | None => 3
                end) 1) 5.

(** [!ingredients || !Array.isArray(ingredients) || ingredients.length === 0] *)
Definition no_ingredients (ingredients : option (list string)) : bool :=
  match ingredients with
  | Some (_ :: _) => false
  | _ => true
  end.

Section WithServices.
Variable L : NodeCrypto.
Variable ENCRYPTION_SECRET : option string.
Variables defaultGeminiKey defaultGrokKey : option string.
(** The recipe objects. *)
Variable Recipe : Type.
(** What [generateRecipe] does once it has its configuration: it builds the
    prompt from the ingredients, the profile and the mode, calls the provider
    and parses the answer.  [answer ingredients mode config i] is the outcome
    of this for the call number [i] of a request. *)
Variable answer : list string -> Js.value -> AiHelper.AIConfig -> nat -> completion Recipe.

(** [generateRecipe] of [aiHelper.js], as the call number [i] of a request. *)
Definition generateRecipe (ingredients : list string) (mode : Js.value)
           (userApiKey : option string) (provider model : string) (i : nat)
  : completion Recipe :=
  match
    Js.bind (AiHelper.getAIConfig defaultGeminiKey defaultGrokKey userApiKey provider model)
            (fun config => answer ingredients mode config i)
  with
  | Return recipe => Return recipe
  | Throw m => Throw ("Failed to generate recipe: " +:+ m)
  end.

(** The loop of [generateMultipleRecipes]: [todo] calls are left, [i] is the
    number of the next one and [recipes] holds the recipes pushed so far. *)
Fixpoint generate_from (ingredients : list string) (mode : Js.value)
         (userApiKey : option string) (provider model : string)
         (todo i : nat) (recipes : list Recipe) : completion (list Recipe) :=
  match todo with
  | O => Return recipes
  | S todo' =>
      match generateRecipe ingredients mode userApiKey provider model i with
      | Throw m => Throw m
      | Return recipe =>
          generate_from ingredients mode userApiKey provider model
                        todo' (S i) (recipes ++ [recipe])
      end
  end.

(** [generateMultipleRecipes] of [aiHelper.js]; the pause between two calls
    is not modelled. *)
Definition generateMultipleRecipes (ingredients : list string) (mode : Js.value)
           (count : nat) (userApiKey : option string) (provider model : string)
  : completion (list Recipe) :=
  generate_from ingredients mode userApiKey provider model count 0 [].

(** [generateRecipes] of [recipeController.js].  The data of the reply is the
    recipes and the mode; its [userPreferences], read off the profile of the
    user, are not modelled. *)
Definition generateRecipes (db : Users) (id : string) (body : RecipeBody)
  : Reply (list Recipe * string) :=
  let failed (m : string) :=
    mkReply 500 false (Some "Failed to generate recipes") None (Some m) in
  let ingredients := ingredients body in
  let mode := match mode body with Js.Undefined => Js.Str "cook_now" | v => v end in
  match ingredients with
  | Some (item :: items) =>
      match mode with
      | Js.Str mode =>
          if negb (Js.array_includes ["cook_now"; "gap_analysis"] mode)
          then mkReply 400 false
                 (Some ("Mode must be either " +:+ AiHelper.dquote +:+ "cook_now"
                        +:+ AiHelper.dquote +:+ " or " +:+ AiHelper.dquote
                        +:+ "gap_analysis" +:+ AiHelper.dquote)) None None
          else
            let recipeCount := recipeCount (parsedCount body) in
            match db !! id with
            | None => failed (read_of_null "aiApiKey")
            | Some user =>
                match RecipeController.userApiKey L ENCRYPTION_SECRET user with
                | Throw m => failed m
                | Return userApiKey =>
                    let provider := Js.or_default (aiProvider user) "gemini" in
                    let model := Js.or_default (aiModel user) "gemini-2.5-flash-lite" in
                    match generateMultipleRecipes (item :: items) (Js.Str mode)
                            (Z.to_nat recipeCount) userApiKey provider model with
                    | Throw m => failed m
                    | Return recipes =>
                        mkReply 200 true
                          (Some ("Generated " +:+ pretty (length recipes) +:+ " recipes"))
                          (Some (recipes, mode)) None
                    end
                end
            end
      | _ =>
          mkReply 400 false
            (Some ("Mode must be either " +:+ AiHelper.dquote +:+ "cook_now"
                   +:+ AiHelper.dquote +:+ " or " +:+ AiHelper.dquote
                   +:+ "gap_analysis" +:+ AiHelper.dquote)) None None
      end
  | _ => mkReply 400 false (Some "Please provide an array of ingredients") None None
  end.

(** [generateSingleRecipe] of [recipeController.js]: the mode is not checked
    and one recipe is asked for. *)
Definition generateSingleRecipe (db : Users) (id : string) (body : RecipeBody)
  : Reply Recipe :=
  let failed (m : string) :=
    mkReply 500 false (Some "Failed to generate recipe") None (Some m) in
  let ingredients := ingredients body in
  let mode := match mode body with Js.Undefined => Js.Str "cook_now" | v => v end in
  match ingredients with
  | Some (item :: items) =>
      match db !! id with
      | None => failed (read_of_null "aiApiKey")
      | Some user =>
          match RecipeController.userApiKey L ENCRYPTION_SECRET user with
          | Throw m => failed m
          | Return userApiKey =>
              let provider := Js.or_default (aiProvider user) "gemini" in
              let model := Js.or_default (aiModel user) "gemini-2.5-flash-lite" in
              match generateRecipe (item :: items) mode userApiKey provider model 0 with
              | Throw m => failed m
              | Return recipe =>
                  mkReply 200 true (Some "Recipe generated successfully")
                          (Some recipe) None
              end
          end
      end
  | _ => mkReply 400 false (Some "Please provide an array of ingredients") None None
  end.

End WithServices.

End RecipeEndpoints.

(* ===================================================================== *)
(** ** Predicates on the stored credentials *)
(* ===================================================================== *)

(** Whenever the current secret of a user is present, the stored model is one
    of the models of the stored provider. *)
Definition model_fits (u : User) : Prop :=
  present (aiApiKey u) →
  ∃ p m, aiProvider u = Some p ∧ aiModel u = Some m
         ∧ In m (AiHelper.elements (AiHelper.getAvailableModels p)).

Definition models_fit (db : Users) : Prop :=
  ∀ id u, db !! id = Some u → model_fits u.

(** The number of occurrences of [c] in [s]. *)
Fixpoint occurrences (c : ascii) (s : string) : nat :=
  match s with
  | EmptyString => 0
  | String d rest => (if Ascii.eqb d c then 1 else 0) + occurrences c rest
  end.

(** The outcomes of the recipe calls in the examples: the call number 2 of a
    request fails, the others answer with the key and the number. *)
Definition Scenario_answer (ingredients : list string) (mode : Js.value)
           (config : AiHelper.AIConfig) (i : nat) : completion string :=
  if (i =? 2)%nat then Throw "quota exceeded"
  else Return (AiHelper.apiKey config +:+ "/" +:+ pretty i).

(* ===================================================================== *)
(** * Properties *)
(* ===================================================================== *)

(** ** Strings, [split] and hexadecimal encoding *)

Section StringFacts.

Lemma append_nil (a : string) : EmptyString +:+ a = a.
Proof. reflexivity. Qed.

Lemma append_cons (x : ascii) (a b : string) :
  String x a +:+ b = String x (a +:+ b).
Proof. reflexivity. Qed.

Lemma append_empty_r (s : string) : s +:+ EmptyString = s.
Proof.
  induction s as [|x s IH]; [reflexivity|].
  rewrite append_cons. f_equal. exact IH.
Qed.

Lemma all_chars_app p (a b : string) :
  all_chars p (a +:+ b) = all_chars p a && all_chars p b.
Proof.
  induction a as [|x a IH]; [reflexivity|].
  rewrite append_cons. cbn [all_chars]. rewrite IH. now destruct (p x).
Qed.

Lemma all_chars_weaken (p q : ascii -> bool) (s : string) :
  (∀ c, p c = true → q c = true) → all_chars p s = true → all_chars q s = true.
Proof.
  intros Hpq. induction s as [|x s IH]; cbn [all_chars]; [reflexivity|].
  intros [Hx Hs]%andb_prop. rewrite (Hpq _ Hx), (IH Hs). reflexivity.
Qed.

Lemma split_free (sep : ascii) (a : string) :
  free_of sep a = true → Js.split sep a = [a].
Proof.
  unfold free_of.
  induction a as [|x a IH]; cbn [all_chars Js.split]; [reflexivity|].
  intros [Hx Ha]%andb_prop. apply negb_true_iff in Hx. rewrite Hx.
  now rewrite (IH Ha).
Qed.

Lemma split_app (sep : ascii) (a rest : string) :
  free_of sep a = true →
  Js.split sep (a +:+ String sep rest) = a :: Js.split sep rest.
Proof.
  unfold free_of. induction a as [|x a IH].
  - intros _. rewrite append_nil. cbn [Js.split]. now rewrite Ascii.eqb_refl.
  - rewrite append_cons. cbn [all_chars Js.split].
    intros [Hx Ha]%andb_prop. apply negb_true_iff in Hx. rewrite Hx.
    now rewrite (IH Ha).
Qed.

Lemma split_joined (s0 s1 s2 s3 : string) :
  free_of ":" s0 = true → free_of ":" s1 = true →
  free_of ":" s2 = true → free_of ":" s3 = true →
  Js.split ":" (joined s0 s1 s2 s3) = [s0; s1; s2; s3].
Proof.
  intros H0 H1 H2 H3. unfold joined.
  change (s0 +:+ ":" +:+ s1 +:+ ":" +:+ s2 +:+ ":" +:+ s3)
    with (s0 +:+ String ":" (s1 +:+ String ":" (s2 +:+ String ":" s3))).
  rewrite !split_app by assumption. now rewrite split_free.
Qed.

Lemma joined_nonempty (s0 s1 s2 s3 : string) :
  String.eqb (joined s0 s1 s2 s3) EmptyString = false.
Proof. unfold joined. destruct s0; reflexivity. Qed.

(** Induction on strings two characters at a time. *)
Lemma string_pair_ind (Q : string → Prop) :
  Q EmptyString →
  (∀ a, Q (String a EmptyString)) →
  (∀ a b s, Q s → Q (String a (String b s))) →
  ∀ s, Q s.
Proof.
  intros H0 H1 H2.
  assert (H : ∀ s, Q s ∧ ∀ a, Q (String a s)).
  { induction s as [|x s [IHs IHa]]; split; auto. }
  intros s. apply H.
Qed.

End StringFacts.

Section HexFacts.

Lemma pair_of_byte (b : byte) :
  Hex.pair (Hex.digit (Byte.to_N b / 16)) (Hex.digit (Byte.to_N b mod 16)) = Some b.
Proof. destruct b; vm_compute; reflexivity. Qed.

Lemma to_hex_cons (b : byte) (rest : list byte) :
  Hex.to_hex (b :: rest)
  = String (Hex.digit (Byte.to_N b / 16))
           (String (Hex.digit (Byte.to_N b mod 16)) (Hex.to_hex rest)).
Proof. reflexivity. Qed.

Lemma from_hex_pair (c d : ascii) (rest : string) :
  Hex.from_hex (String c (String d rest))
  = match Hex.pair c d with Some b => b :: Hex.from_hex rest | None => [] end.
Proof. reflexivity. Qed.

(** Decoding reads back what was encoded, and goes on with what follows. *)
Lemma from_hex_to_hex_app (bs : list byte) (s : string) :
  Hex.from_hex (Hex.to_hex bs +:+ s) = bs ++ Hex.from_hex s.
Proof.
  induction bs as [|b bs IH]; [reflexivity|].
  rewrite to_hex_cons, !append_cons.
  rewrite from_hex_pair, pair_of_byte, IH. reflexivity.
Qed.

Lemma from_hex_to_hex (bs : list byte) : Hex.from_hex (Hex.to_hex bs) = bs.
Proof.
  rewrite <- (append_empty_r (Hex.to_hex bs)), from_hex_to_hex_app.
  cbn. apply app_nil_r.
Qed.

Lemma of_byte_hex_only (b : byte) : hex_only (Hex.of_byte b) = true.
Proof. destruct b; vm_compute; reflexivity. Qed.

Lemma to_hex_hex_only (bs : list byte) : hex_only (Hex.to_hex bs) = true.
Proof.
  induction bs as [|b bs IH]; [reflexivity|].
  pose proof (of_byte_hex_only b) as Hb.
  unfold hex_only in *. cbn [Hex.to_hex].
  rewrite all_chars_app, IH, Hb. reflexivity.
Qed.

Lemma digit_not_colon (c : ascii) :
  Hex.is_digit c = true → negb (Ascii.eqb c ":") = true.
Proof.
  destruct c as [[] [] [] [] [] [] [] []]; vm_compute; intros H;
    first [reflexivity | discriminate H].
Qed.

Lemma hex_only_free (s : string) : hex_only s = true → free_of ":" s = true.
Proof. apply all_chars_weaken. exact digit_not_colon. Qed.

Lemma to_hex_free (bs : list byte) : free_of ":" (Hex.to_hex bs) = true.
Proof. apply hex_only_free, to_hex_hex_only. Qed.

Lemma value_bound (c : ascii) (v : N) : Hex.value c = Some v → (v < 16)%N.
Proof.
  unfold Hex.value.
  repeat match goal with
         | |- context [if ?b then _ else _] => destruct b eqn:?
         end; intros [= <-];
    repeat match goal with
           | H : (_ && _)%bool = true |- _ => apply andb_prop in H; destruct H
           | H : (_ <=? _)%N = true |- _ => apply N.leb_le in H
           end; lia.
Qed.

Lemma of_N_small (n : N) : (n < 256)%N → ∃ b, Byte.of_N n = Some b.
Proof.
  intros Hn. pose proof (Byte.to_of_N_option_map n) as H.
  destruct (Byte.of_N n) as [b|]; [eauto|].
  cbn in H. destruct (N.leb_spec n 255); [discriminate | lia].
Qed.

Lemma pair_some (c d : ascii) (v w : N) :
  Hex.value c = Some v → Hex.value d = Some w →
  ∃ b, Hex.pair c d = Some b ∧ Byte.to_N b = (16 * v + w)%N.
Proof.
  intros Hc Hd. unfold Hex.pair. rewrite Hc, Hd.
  pose proof (value_bound _ _ Hc). pose proof (value_bound _ _ Hd).
  destruct (of_N_small (16 * v + w)) as [b Hb]; [lia|].
  exists b. split; [assumption|]. now apply Byte.to_of_N.
Qed.

Lemma pair_values (c d : ascii) (b : byte) :
  Hex.pair c d = Some b →
  ∃ v w, Hex.value c = Some v ∧ Hex.value d = Some w
         ∧ Byte.to_N b = (16 * v + w)%N.
Proof.
  unfold Hex.pair. destruct (Hex.value c) as [v|], (Hex.value d) as [w|];
    try discriminate.
  intros H. exists v, w. repeat split. now apply Byte.to_of_N.
Qed.

End HexFacts.

(** ** The ['utf8'] encoding and the length of strings *)

Section Utf8Facts.

Lemma between_true (lo hi : N) (b : byte) :
  Utf8.between lo hi b = true → (lo <= Byte.to_N b <= hi)%N.
Proof.
  unfold Utf8.between. intros [H1 H2]%andb_prop.
  apply N.leb_le in H1, H2. lia.
Qed.

Lemma between_out (lo hi : N) (b : byte) :
  (Byte.to_N b < lo ∨ hi < Byte.to_N b)%N → Utf8.between lo hi b = false.
Proof.
  unfold Utf8.between. intros H. apply andb_false_iff.
  rewrite !N.leb_gt. lia.
Qed.

Lemma eqb_out (b c : byte) : Byte.to_N b ≠ Byte.to_N c → Byte.eqb b c = false.
Proof.
  intros H. destruct (Byte.eqb b c) eqn:E; [|reflexivity].
  apply Byte.byte_dec_bl in E. now subst.
Qed.

Lemma eqb_to_N (b c : byte) : Byte.eqb b c = true → Byte.to_N b = Byte.to_N c.
Proof. intros E. apply Byte.byte_dec_bl in E. now subst. Qed.

Lemma second_of_three_bounds (b1 b2 : byte) :
  Utf8.second_of_three b1 b2 = true →
  (0x80 <= Byte.to_N b2 <= 0xBF)%N
  ∧ (Byte.to_N b1 = 0xED → Byte.to_N b2 <= 0x9F)%N.
Proof.
  unfold Utf8.second_of_three, Utf8.continuation.
  destruct (Byte.eqb b1 xe0) eqn:E0.
  - apply eqb_to_N in E0. intros H%between_true.
    change (Byte.to_N xe0) with 0xE0%N in E0. lia.
  - destruct (Byte.eqb b1 xed) eqn:Ed.
    + intros H%between_true. lia.
    + intros H%between_true. split; [lia|]. intros Hb.
      destruct (Byte.eqb b1 xed) eqn:E; [discriminate|].
      exfalso. revert E. apply not_false_iff_true, Byte.byte_dec_lb.
      apply (f_equal Byte.of_N) in Hb. rewrite Byte.of_to_N in Hb.
      now injection Hb.
Qed.

Lemma second_of_four_bounds (b1 b2 : byte) :
  Utf8.second_of_four b1 b2 = true → (0x80 <= Byte.to_N b2 <= 0xBF)%N.
Proof.
  unfold Utf8.second_of_four, Utf8.continuation.
  destruct (Byte.eqb b1 xf0); [|destruct (Byte.eqb b1 xf4)];
    intros H%between_true; lia.
Qed.

(** Induction on a sequence that is UTF-8, one code point at a time. *)
Lemma valid_ind (Q : list byte → Prop) :
  Q [] →
  (∀ b1 r, Utf8.between 0x00 0x7F b1 = true → Q r → Q (b1 :: r)) →
  (∀ b1 b2 r,
      Utf8.between 0x00 0x7F b1 = false → Utf8.between 0xC2 0xDF b1 = true →
      Utf8.continuation b2 = true → Q r → Q (b1 :: b2 :: r)) →
  (∀ b1 b2 b3 r,
      Utf8.between 0x00 0x7F b1 = false → Utf8.between 0xC2 0xDF b1 = false →
      Utf8.between 0xE0 0xEF b1 = true →
      Utf8.second_of_three b1 b2 = true → Utf8.continuation b3 = true →
      Q r → Q (b1 :: b2 :: b3 :: r)) →
  (∀ b1 b2 b3 b4 r,
      Utf8.between 0x00 0x7F b1 = false → Utf8.between 0xC2 0xDF b1 = false →
      Utf8.between 0xE0 0xEF b1 = false → Utf8.between 0xF0 0xF4 b1 = true →
      Utf8.second_of_four b1 b2 = true → Utf8.continuation b3 = true →
      Utf8.continuation b4 = true →
      Q r → Q (b1 :: b2 :: b3 :: b4 :: r)) →
  ∀ bs, Utf8.valid bs = true → Q bs.
Proof.
  intros H0 H1 H2 H3 H4 bs.
  assert (H : ∀ n bs, length bs ≤ n → Utf8.valid bs = true → Q bs).
  { clear bs. induction n as [|n IH]; intros bs Hlen Hv.
    - destruct bs; [exact H0 | cbn in Hlen; lia].
    - destruct bs as [|b1 r1]; [exact H0|].
      cbn [length] in Hlen. cbn [Utf8.valid] in Hv.
      destruct (Utf8.between 0x00 0x7F b1) eqn:E1.
      { apply H1; [exact E1|]. apply IH; [lia | exact Hv]. }
      destruct (Utf8.between 0xC2 0xDF b1) eqn:E2.
      { destruct r1 as [|b2 r2]; [discriminate|].
        apply andb_prop in Hv as [Hc Hv]. cbn [length] in Hlen.
        apply H2; try assumption. apply IH; [lia | exact Hv]. }
      destruct (Utf8.between 0xE0 0xEF b1) eqn:E3.
      { destruct r1 as [|b2 [|b3 r3]]; try discriminate.
        apply andb_prop in Hv as [[Hs Hc]%andb_prop Hv]. cbn [length] in Hlen.
        apply H3; try assumption. apply IH; [lia | exact Hv]. }
      destruct (Utf8.between 0xF0 0xF4 b1) eqn:E4; [|discriminate].
      destruct r1 as [|b2 [|b3 [|b4 r4]]]; try discriminate.
      apply andb_prop in Hv as [[[Hs Hc3]%andb_prop Hc4]%andb_prop Hv].
      cbn [length] in Hlen.
      apply H4; try assumption. apply IH; [lia | exact Hv]. }
  apply (H (length bs)). lia.
Qed.

(** The decoder keeps what is UTF-8. *)
Lemma decode_bytes_valid (bs : list byte) :
  Utf8.valid bs = true → Utf8.decode_bytes bs = bs.
Proof.
  revert bs. apply (valid_ind (λ bs, Utf8.decode_bytes bs = bs)).
  - reflexivity.
  - intros b1 r E1 IH. cbn [Utf8.decode_bytes]. now rewrite E1, IH.
  - intros b1 b2 r E1 E2 Hc IH. cbn [Utf8.decode_bytes].
    now rewrite E1, E2, Hc, IH.
  - intros b1 b2 b3 r E1 E2 E3 Hs Hc IH. cbn [Utf8.decode_bytes].
    now rewrite E1, E2, E3, Hs, Hc, IH.
  - intros b1 b2 b3 b4 r E1 E2 E3 E4 Hs Hc3 Hc4 IH. cbn [Utf8.decode_bytes].
    now rewrite E1, E2, E3, E4, Hs, Hc3, Hc4, IH.
Qed.

Lemma encode_bytes_three (b1 b2 b3 : byte) (r3 : list byte) :
  Utf8.encode_bytes (b1 :: b2 :: b3 :: r3)
  = if Utf8.surrogate b1 b2 b3 then Utf8.replacement ++ Utf8.encode_bytes r3
    else b1 :: Utf8.encode_bytes (b2 :: b3 :: r3).
Proof. reflexivity. Qed.

(** The encoder keeps a byte that does not start a lone surrogate. *)
Lemma encode_bytes_keep (b1 : byte) (r1 : list byte) :
  (Byte.to_N b1 ≠ 0xED
   ∨ ∃ b2 r2, r1 = b2 :: r2 ∧ Byte.to_N b2 <= 0x9F)%N →
  Utf8.encode_bytes (b1 :: r1) = b1 :: Utf8.encode_bytes r1.
Proof.
  intros H. destruct r1 as [|b2 [|b3 r3]]; try reflexivity.
  rewrite encode_bytes_three. unfold Utf8.surrogate.
  destruct H as [H | (c2 & r2 & [= <- <-] & H)].
  - now rewrite eqb_out.
  - rewrite (between_out 0xA0 0xBF b2) by lia. now rewrite andb_false_r.
Qed.

(** The encoder keeps what is UTF-8. *)
Lemma encode_bytes_valid (bs : list byte) :
  Utf8.valid bs = true → Utf8.encode_bytes bs = bs.
Proof.
  revert bs. apply (valid_ind (λ bs, Utf8.encode_bytes bs = bs)).
  - reflexivity.
  - intros b1 r E1%between_true IH.
    rewrite encode_bytes_keep, IH; [reflexivity | left; lia].
  - intros b1 b2 r _ E2%between_true Hc%between_true IH.
    rewrite !encode_bytes_keep, IH; [reflexivity | left; lia | left; lia].
  - intros b1 b2 b3 r _ _ E3 [Hs Hed]%second_of_three_bounds Hc%between_true IH.
    rewrite (encode_bytes_keep b1).
    + rewrite !encode_bytes_keep, IH; [reflexivity | left; lia | left; lia].
    + destruct (N.eq_dec (Byte.to_N b1) 0xED%N) as [Hb|Hb]; [right | now left].
      exists b2, (b3 :: r). split; [reflexivity | now apply Hed].
  - intros b1 b2 b3 b4 r _ _ _ E4%between_true Hs%second_of_four_bounds
           Hc3%between_true Hc4%between_true IH.
    rewrite !encode_bytes_keep, IH;
      [reflexivity | left; lia | left; lia | left; lia | left; lia].
Qed.

(** A string without lone surrogate is read back from its encoding. *)
Lemma decode_encode (s : string) :
  Utf8.well_formed s = true → Utf8.decode (Utf8.encode s) = s.
Proof.
  unfold Utf8.well_formed, Utf8.decode, Utf8.encode. intros Hs.
  rewrite (encode_bytes_valid _ Hs), (decode_bytes_valid _ Hs).
  apply string_of_list_byte_of_string.
Qed.

Lemma units_app (a b : string) :
  Js.length (a +:+ b) = Js.length a + Js.length b.
Proof.
  induction a as [|x a IH]; [reflexivity|].
  rewrite append_cons. cbn [Js.length]. rewrite IH. lia.
Qed.

Lemma length_digit (c : ascii) (s : string) :
  Hex.is_digit c = true → Js.length (String c s) = S (Js.length s).
Proof.
  destruct c as [[] [] [] [] [] [] [] []]; intros H;
    first [reflexivity | vm_compute in H; discriminate H].
Qed.

Lemma length_hex_only (s : string) :
  hex_only s = true → Js.length s = String.length s.
Proof.
  unfold hex_only. induction s as [|c s IH]; [reflexivity|].
  cbn [all_chars]. intros [Hc Hs]%andb_prop.
  rewrite (length_digit _ _ Hc), (IH Hs). reflexivity.
Qed.

Lemma to_hex_length (bs : list byte) :
  String.length (Hex.to_hex bs) = 2 * length bs.
Proof.
  induction bs as [|b bs IH]; [reflexivity|].
  rewrite to_hex_cons. cbn [String.length length]. rewrite IH. lia.
Qed.

(** An encoding has an even number of code units. *)
Lemma to_hex_even (bs : list byte) : Nat.odd (Js.length (Hex.to_hex bs)) = false.
Proof.
  rewrite (length_hex_only _ (to_hex_hex_only bs)), to_hex_length.
  now rewrite Nat.odd_mul.
Qed.

End Utf8Facts.

(** ** The executable instance has the laws *)

Section ToyFacts.

Lemma to_N_byte_of_N (n : N) : Byte.to_N (ToyCrypto.byte_of_N n) = (n mod 256)%N.
Proof.
  unfold ToyCrypto.byte_of_N.
  destruct (of_N_small (n mod 256)) as [b Hb].
  { apply N.mod_upper_bound. discriminate. }
  rewrite Hb. now apply Byte.to_of_N.
Qed.

Lemma flip_flip (b : byte) : ToyCrypto.flip (ToyCrypto.flip b) = b.
Proof. destruct b; vm_compute; reflexivity. Qed.

Lemma bytes_eqb_eq (xs ys : list byte) :
  ToyCrypto.bytes_eqb xs ys = true ↔ xs = ys.
Proof.
  revert ys. induction xs as [|x xs IH]; intros [|y ys]; cbn; try easy.
  rewrite andb_true_iff, IH. split.
  - intros [Hxy ->]. now rewrite (Byte.byte_dec_bl _ _ Hxy).
  - intros [= -> ->]. split; [now apply Byte.byte_dec_lb | reflexivity].
Qed.

Lemma total_app (xs ys : list byte) :
  ToyCrypto.total (xs ++ ys) = (ToyCrypto.total xs + ToyCrypto.total ys)%N.
Proof.
  induction xs as [|x xs IH]; [reflexivity|].
  change (ToyCrypto.total ((x :: xs) ++ ys))
    with (Byte.to_N x + ToyCrypto.total (xs ++ ys))%N.
  change (ToyCrypto.total (x :: xs)) with (Byte.to_N x + ToyCrypto.total xs)%N.
  rewrite IH. lia.
Qed.

Lemma to_N_inj (b b' : byte) : Byte.to_N b = Byte.to_N b' → b = b'.
Proof.
  intros H. pose proof (Byte.of_to_N b) as Hb. rewrite H, Byte.of_to_N in Hb.
  now injection Hb.
Qed.

Lemma mac_detects (key iv ct ct' : list byte) :
  one_byte_changed ct ct' → ToyCrypto.mac key iv ct ≠ ToyCrypto.mac key iv ct'.
Proof.
  intros (pre & b & b' & post & Hbb & -> & ->). unfold ToyCrypto.mac.
  intros [= H]. apply (f_equal Byte.to_N) in H.
  rewrite !to_N_byte_of_N, !total_app in H.
  change (ToyCrypto.total (b :: post)) with (Byte.to_N b + ToyCrypto.total post)%N in H.
  change (ToyCrypto.total (b' :: post)) with (Byte.to_N b' + ToyCrypto.total post)%N in H.
  apply Hbb, to_N_inj.
  pose proof (Byte.to_N_bounded b). pose proof (Byte.to_N_bounded b').
  revert H.
  generalize (ToyCrypto.total key) (ToyCrypto.total iv) (ToyCrypto.total pre)
             (ToyCrypto.total post) (Byte.to_N b) (Byte.to_N b') H0 H1.
  clear. intros k i p q x y Hx Hy H.
  zify. Z.quot_rem_to_equations. lia.
Qed.

Lemma toy_laws : CryptoLaws ToyCrypto.lib.
Proof.
  split.
  - intros n g. cbn. now rewrite length_map, length_seq.
  - intros secret salt iterations keylen digest. cbn.
    unfold ToyCrypto.pbkdf2Sync. now rewrite length_map, length_seq.
  - intros key iv pt Hkey Hiv. cbn.
    unfold ToyCrypto.createCipheriv, ToyCrypto.createDecipheriv.
    rewrite Hkey, Hiv. cbn.
    eexists _, _. split; [reflexivity|].
    assert (ToyCrypto.bytes_eqb (ToyCrypto.mac key iv (map ToyCrypto.flip pt))
              (ToyCrypto.mac key iv (map ToyCrypto.flip pt)) = true) as ->
        by now apply bytes_eqb_eq.
    f_equal. rewrite map_map. induction pt as [|b pt IH]; cbn; [reflexivity|].
    now rewrite flip_flip, IH.
Qed.

Lemma toy_authentic : GcmAuthentic ToyCrypto.lib.
Proof.
  intros key iv pt ct tag ct' tag'. cbn.
  unfold ToyCrypto.createCipheriv, ToyCrypto.createDecipheriv.
  destruct (negb (length key =? 32)%nat); [discriminate|].
  destruct (length iv =? 0)%nat; [discriminate|].
  intros [= <- <-] Hchanged.
  destruct (ToyCrypto.bytes_eqb tag' _) eqn:Heq; [|eauto].
  apply bytes_eqb_eq in Heq. exfalso.
  destruct Hchanged as [[Hct ->] | [-> Htag]].
  - now apply (mac_detects key iv _ _ Hct).
  - destruct Htag as (pre & b & b' & post & Hbb & Ha & Hb).
    rewrite Hb, Ha in Heq.
    apply app_inv_head in Heq. injection Heq as ->. now apply Hbb.
Qed.

End ToyFacts.

(** ** The secret cipher *)

Section CipherFacts.
Variable L : NodeCrypto.

Lemma truthy_set (secret : string) :
  secret ≠ EmptyString → Js.truthy (Js.of_field (Some secret)) = true.
Proof. intros H%String.eqb_neq. cbn. now rewrite H. Qed.

Lemma or_default_set (secret d : string) :
  secret ≠ EmptyString → Js.or_default (Some secret) d = secret.
Proof. intros H%String.eqb_neq. cbn. now rewrite H. Qed.

(** What a call of [encrypt] that returns has done. *)
Lemma encrypt_returns_inv env text g tok g' :
  Encryption.encrypt L env text g = (Return tok, g') →
  ∃ s secret salt g1 iv ct tag,
    text = Js.Str s ∧ s ≠ EmptyString ∧ env = Some secret ∧ secret ≠ EmptyString
    ∧ randomBytes L Encryption.SALT_LENGTH g = (salt, g1)
    ∧ randomBytes L Encryption.IV_LENGTH g1 = (iv, g')
    ∧ createCipheriv L Encryption.ALGORITHM (Encryption.deriveKey L secret salt) iv
                     (Utf8.encode s) = Return (ct, tag)
    ∧ tok = joined (Hex.to_hex salt) (Hex.to_hex iv) (Hex.to_hex tag) (Hex.to_hex ct).
Proof.
  unfold Encryption.encrypt, Encryption.encrypt_try.
  destruct text as [| |b|s]; try discriminate.
  destruct (String.eqb s EmptyString) eqn:Hs; [discriminate|].
  destruct env as [secret|]; [|discriminate].
  cbn [Js.of_field Js.truthy Js.or_default].
  destruct (String.eqb secret EmptyString) eqn:Hsecret; [discriminate|].
  cbn [negb].
  destruct (randomBytes L Encryption.SALT_LENGTH g) as [salt g1] eqn:Hsalt.
  destruct (randomBytes L Encryption.IV_LENGTH g1) as [iv g2] eqn:Hiv.
  destruct (createCipheriv L _ _ _ _) as [[ct tag]|m] eqn:Hct; [|discriminate].
  cbn [Js.rethrow_as]. intros [= <- <-].
  exists s, secret, salt, g1, iv, ct, tag.
  apply String.eqb_neq in Hs, Hsecret. repeat split; assumption.
Qed.

(** With the secret set, a non-empty string is encrypted. *)
Lemma encrypt_returns (HL : CryptoLaws L) secret s g :
  secret ≠ EmptyString → s ≠ EmptyString →
  ∃ salt g1 iv g2 ct tag,
    randomBytes L Encryption.SALT_LENGTH g = (salt, g1)
    ∧ randomBytes L Encryption.IV_LENGTH g1 = (iv, g2)
    ∧ createCipheriv L Encryption.ALGORITHM (Encryption.deriveKey L secret salt) iv
                     (Utf8.encode s) = Return (ct, tag)
    ∧ createDecipheriv L Encryption.ALGORITHM (Encryption.deriveKey L secret salt) iv
                       tag ct = Return (Utf8.encode s)
    ∧ Encryption.encrypt L (Some secret) (Js.Str s) g
      = (Return (joined (Hex.to_hex salt) (Hex.to_hex iv)
                        (Hex.to_hex tag) (Hex.to_hex ct)), g2).
Proof.
  intros Hsecret Hs.
  destruct (randomBytes L Encryption.SALT_LENGTH g) as [salt g1] eqn:Hsalt.
  destruct (randomBytes L Encryption.IV_LENGTH g1) as [iv g2] eqn:Hiv.
  destruct (gcm_roundtrip L HL (Encryption.deriveKey L secret salt) iv
                          (Utf8.encode s)) as (ct & tag & Henc & Hdec).
  { apply (pbkdf2Sync_length L HL). }
  { pose proof (randomBytes_length L HL Encryption.IV_LENGTH g1) as Hlen.
    now rewrite Hiv in Hlen. }
  exists salt, g1, iv, g2, ct, tag. repeat split; try assumption.
  unfold Encryption.encrypt, Encryption.encrypt_try.
  apply String.eqb_neq in Hs. rewrite Hs.
  rewrite (truthy_set _ Hsecret), (or_default_set _ _ Hsecret). cbn [negb].
  rewrite Hsalt, Hiv, Henc. reflexivity.
Qed.

(** [decrypt] on four colon-free components, the last of even length, hands
    their decodings to the library. *)
Lemma decrypt_try_joined secret (p0 p1 p2 p3 : string) :
  secret ≠ EmptyString →
  free_of ":" p0 = true → free_of ":" p1 = true →
  free_of ":" p2 = true → free_of ":" p3 = true →
  Nat.odd (Js.length p3) = false →
  Encryption.decrypt_try L (Some secret) (Js.Str (joined p0 p1 p2 p3))
  = Js.bind (createDecipheriv L Encryption.ALGORITHM
               (Encryption.deriveKey L secret (Hex.from_hex p0))
               (Hex.from_hex p1) (Hex.from_hex p2) (Hex.from_hex p3))
            (fun decrypted => Return (Utf8.decode decrypted)).
Proof.
  intros Hsecret H0 H1 H2 H3 Heven. unfold Encryption.decrypt_try.
  rewrite joined_nonempty, (truthy_set _ Hsecret), (or_default_set _ _ Hsecret).
  cbn [negb]. rewrite split_joined by assumption. now rewrite Heven.
Qed.

(** [decrypt] refuses a last component of odd length. *)
Lemma decrypt_odd env (p0 p1 p2 p3 : string) :
  free_of ":" p0 = true → free_of ":" p1 = true →
  free_of ":" p2 = true → free_of ":" p3 = true →
  Nat.odd (Js.length p3) = true →
  Encryption.decrypt L env (Js.Str (joined p0 p1 p2 p3)) = Throw "Failed to decrypt data".
Proof.
  intros H0 H1 H2 H3 Hodd. unfold Encryption.decrypt, Encryption.decrypt_try.
  rewrite joined_nonempty.
  destruct (negb (Js.truthy (Js.of_field env))); [reflexivity|].
  rewrite split_joined by assumption. now rewrite Hodd.
Qed.

(** What [encrypt] returned, [decrypt] reads back as far as the encoding of
    the text goes: the bytes encrypted are the ones decrypted and decoded. *)
Lemma decrypt_encrypted (HL : CryptoLaws L) env text g tok g' :
  Encryption.encrypt L env text g = (Return tok, g') →
  ∃ s, text = Js.Str s
       ∧ Encryption.decrypt L env (Js.Str tok) = Return (Utf8.decode (Utf8.encode s)).
Proof.
  intros (s & secret & salt & g1 & iv & ct & tag & -> & Hs & -> & Hsecret
          & Hsalt & Hiv & Hct & ->)%encrypt_returns_inv.
  exists s. split; [reflexivity|].
  destruct (gcm_roundtrip L HL (Encryption.deriveKey L secret salt) iv
                          (Utf8.encode s)) as (ct' & tag' & Henc & Hdec).
  { apply (pbkdf2Sync_length L HL). }
  { pose proof (randomBytes_length L HL Encryption.IV_LENGTH g1) as Hlen.
    now rewrite Hiv in Hlen. }
  rewrite Hct in Henc. injection Henc as <- <-.
  unfold Encryption.decrypt.
  rewrite decrypt_try_joined
    by first [assumption | apply to_hex_free | apply to_hex_even].
  now rewrite !from_hex_to_hex, Hdec.
Qed.

(** Every failure of [decrypt] is the same error. *)
Lemma decrypt_throws_generic env v m :
  Encryption.decrypt L env v = Throw m → m = "Failed to decrypt data".
Proof.
  unfold Encryption.decrypt.
  destruct (Encryption.decrypt_try L env v); cbn; congruence.
Qed.

End CipherFacts.

(** C1, as the code has it. With the master secret set and fixed, encrypting
    a non-empty string succeeds, and decrypting the result gives the decoding
    of the UTF-8 encoding of the string: the string itself when it has no lone
    surrogate. *)
Theorem decrypt_encrypt_roundtrip (L : NodeCrypto) (HL : CryptoLaws L)
        (secret s : string) (g : rng L) :
  secret ≠ EmptyString → s ≠ EmptyString →
  ∃ tok g',
    Encryption.encrypt L (Some secret) (Js.Str s) g = (Return tok, g')
    ∧ Encryption.decrypt L (Some secret) (Js.Str tok)
      = Return (Utf8.decode (Utf8.encode s))
    ∧ (Utf8.well_formed s = true →
       Encryption.decrypt L (Some secret) (Js.Str tok) = Return s).
Proof.
  intros Hsecret Hs.
  destruct (encrypt_returns L HL secret s g Hsecret Hs)
    as (salt & g1 & iv & g2 & ct & tag & _ & _ & _ & _ & Henc).
  eexists _, _. split; [exact Henc|].
  destruct (decrypt_encrypted L HL _ _ _ _ _ Henc) as (s' & [= <-] & Hdec).
  split; [exact Hdec|].
  intros Hwf. now rewrite Hdec, decode_encode.
Qed.

Lemma decrypt_encrypt_roundtrip_witness :
  ∃ tok g',
    Encryption.encrypt ToyCrypto.lib (Some "master-secret") (Js.Str "sk-1") 0%nat
    = (Return tok, g')
    ∧ Encryption.decrypt ToyCrypto.lib (Some "master-secret") (Js.Str tok)
      = Return (Utf8.decode (Utf8.encode "sk-1"))
    ∧ (Utf8.well_formed "sk-1" = true →
       Encryption.decrypt ToyCrypto.lib (Some "master-secret") (Js.Str tok)
       = Return "sk-1").
Proof.
  apply (decrypt_encrypt_roundtrip ToyCrypto.lib toy_laws "master-secret" "sk-1" 0%nat);
    discriminate.
Defined.

(** C1, as stated, fails on the code.  In the run of the executable instance:
    the string of the one code unit U+D800 is not empty, [encrypt] returns a
    token for it, and [decrypt] reads the token back as the string of U+FFFD,
    which is another string. *)
Lemma lone_surrogate_not_read_back :
  Scenario.lone_surrogate ≠ EmptyString
  ∧ Js.length Scenario.lone_surrogate = 1
  ∧ Utf8.well_formed Scenario.lone_surrogate = false
  ∧ ∃ tok g',
      Encryption.encrypt ToyCrypto.lib ToyCrypto.secret
        (Js.Str Scenario.lone_surrogate) 0%nat = (Return tok, g')
      ∧ Encryption.decrypt ToyCrypto.lib ToyCrypto.secret (Js.Str tok)
        = Return Scenario.replacement_character
      ∧ Scenario.replacement_character ≠ Scenario.lone_surrogate.
Proof.
  split; [discriminate|]. split; [reflexivity|]. split; [reflexivity|].
  eexists _, _. split; [vm_compute; reflexivity|].
  split; [vm_compute; reflexivity | discriminate].
Qed.

(** C4. A call of [encrypt] that returns has drawn a salt of 64 bytes and then
    a nonce of 16 bytes from the random generator, has derived a 32-byte key
    from the master secret and that salt by PBKDF2 with 100000 iterations, and
    returns the hexadecimal encodings of salt, nonce, tag and ciphertext joined
    by colons; a colon never occurs in a hexadecimal encoding, so the result
    splits back into exactly these four components. *)
Theorem encrypt_output_shape (L : NodeCrypto) (HL : CryptoLaws L)
        (env : option string) (text : Js.value) (g g' : rng L) (tok : string) :
  Encryption.encrypt L env text g = (Return tok, g') →
  ∃ secret s salt g1 iv key ct tag,
    env = Some secret ∧ text = Js.Str s
    ∧ randomBytes L Encryption.SALT_LENGTH g = (salt, g1)
    ∧ randomBytes L Encryption.IV_LENGTH g1 = (iv, g')
    ∧ length salt = 64 ∧ 32 ≤ length salt ∧ length iv = 16
    ∧ key = pbkdf2Sync L secret salt Encryption.ITERATIONS Encryption.KEY_LENGTH "sha256"
    ∧ (100000 <= Encryption.ITERATIONS)%N ∧ 8 * length key = 256
    ∧ createCipheriv L "aes-256-gcm" key iv (Utf8.encode s) = Return (ct, tag)
    ∧ tok = Hex.to_hex salt +:+ ":" +:+ Hex.to_hex iv +:+ ":"
            +:+ Hex.to_hex tag +:+ ":" +:+ Hex.to_hex ct
    ∧ Js.split ":" tok = [Hex.to_hex salt; Hex.to_hex iv; Hex.to_hex tag; Hex.to_hex ct]
    ∧ Forall (λ part, hex_only part = true) (Js.split ":" tok)
    ∧ ∀ bs, free_of ":" (Hex.to_hex bs) = true.
Proof.
  intros (s & secret & salt & g1 & iv & ct & tag & -> & Hs & -> & Hsecret
          & Hsalt & Hiv & Hct & ->)%encrypt_returns_inv.
  pose proof (randomBytes_length L HL Encryption.SALT_LENGTH g) as Hlsalt.
  pose proof (randomBytes_length L HL Encryption.IV_LENGTH g1) as Hliv.
  rewrite Hsalt in Hlsalt. rewrite Hiv in Hliv. cbn [fst] in Hlsalt, Hliv.
  assert (Hsplit : Js.split ":" (joined (Hex.to_hex salt) (Hex.to_hex iv)
                                        (Hex.to_hex tag) (Hex.to_hex ct))
                   = [Hex.to_hex salt; Hex.to_hex iv; Hex.to_hex tag; Hex.to_hex ct])
    by (apply split_joined; apply to_hex_free).
  exists secret, s, salt, g1, iv, (Encryption.deriveKey L secret salt), ct, tag.
  repeat match goal with |- _ ∧ _ => split end;
    try reflexivity; try assumption.
  - rewrite Hlsalt. unfold Encryption.SALT_LENGTH. lia.
  - unfold Encryption.deriveKey. now rewrite (pbkdf2Sync_length L HL).
  - rewrite Hsplit. repeat constructor; apply to_hex_hex_only.
  - apply to_hex_free.
Qed.

Lemma encrypt_output_shape_witness :
  ∃ secret s salt g1 iv key ct tag,
    ToyCrypto.secret = Some secret ∧ Js.Str "sk-1" = Js.Str s
    ∧ randomBytes ToyCrypto.lib Encryption.SALT_LENGTH 0%nat = (salt, g1)
    ∧ randomBytes ToyCrypto.lib Encryption.IV_LENGTH g1 = (iv, 80%nat)
    ∧ length salt = 64 ∧ 32 ≤ length salt ∧ length iv = 16
    ∧ key = pbkdf2Sync ToyCrypto.lib secret salt Encryption.ITERATIONS
                       Encryption.KEY_LENGTH "sha256"
    ∧ (100000 <= Encryption.ITERATIONS)%N ∧ 8 * length key = 256
    ∧ createCipheriv ToyCrypto.lib "aes-256-gcm" key iv (Utf8.encode s)
      = Return (ct, tag)
    ∧ joined ToyCrypto.salt_hex ToyCrypto.iv_hex ToyCrypto.tag_hex ToyCrypto.ct_hex
      = Hex.to_hex salt +:+ ":" +:+ Hex.to_hex iv +:+ ":"
        +:+ Hex.to_hex tag +:+ ":" +:+ Hex.to_hex ct
    ∧ Js.split ":" (joined ToyCrypto.salt_hex ToyCrypto.iv_hex
                           ToyCrypto.tag_hex ToyCrypto.ct_hex)
      = [Hex.to_hex salt; Hex.to_hex iv; Hex.to_hex tag; Hex.to_hex ct]
    ∧ Forall (λ part, hex_only part = true)
             (Js.split ":" (joined ToyCrypto.salt_hex ToyCrypto.iv_hex
                                   ToyCrypto.tag_hex ToyCrypto.ct_hex))
    ∧ ∀ bs, free_of ":" (Hex.to_hex bs) = true.
Proof.
  apply (encrypt_output_shape ToyCrypto.lib toy_laws ToyCrypto.secret
                              (Js.Str "sk-1") 0%nat 80%nat).
  vm_compute. reflexivity.
Defined.

(** ** Tampering with an encrypted secret *)

Section Tampering.

Lemma is_digit_value (c : ascii) :
  Hex.is_digit c = true → ∃ v, Hex.value c = Some v.
Proof. unfold Hex.is_digit. destruct (Hex.value c); [eauto | discriminate]. Qed.

Lemma char_replaced_hex_only (c c' : ascii) (a x : string) :
  hex_only a = true → Hex.is_digit c' = true →
  char_replaced c c' a x → hex_only x = true.
Proof.
  intros Ha Hc' Hrep. revert Ha. destruct Hrep as [pre post]. intros Ha.
  unfold hex_only in *.
  rewrite all_chars_app in *. cbn [all_chars] in *.
  apply andb_prop in Ha as [Hpre [_ Hpost]%andb_prop].
  now rewrite Hpre, Hc', Hpost.
Qed.

Lemma one_byte_changed_cons (b : byte) (xs ys : list byte) :
  one_byte_changed xs ys → one_byte_changed (b :: xs) (b :: ys).
Proof.
  intros (pre & x & y & post & Hxy & -> & ->).
  exists (b :: pre), x, y, post. repeat split; assumption.
Qed.

(** Replacing one digit of an encoding by a digit of another value changes
    exactly one byte of what is decoded. *)
Lemma from_hex_replaced (c c' : ascii) (bs : list byte) :
  Hex.is_digit c' = true → Hex.value c' ≠ Hex.value c →
  ∀ pre post,
    Hex.to_hex bs = pre +:+ String c post →
    one_byte_changed bs (Hex.from_hex (pre +:+ String c' post)).
Proof.
  intros [v' Hv']%is_digit_value Hne.
  induction bs as [|b bs IH]; intros pre post Heq.
  { destruct pre; rewrite ?append_nil, ?append_cons in Heq; discriminate. }
  rewrite to_hex_cons in Heq.
  destruct (pair_values _ _ _ (pair_of_byte b)) as (vh & vl & Hh & Hl & Hb).
  destruct pre as [|p [|q pre]]; rewrite ?append_cons, ?append_nil in *.
  - injection Heq as Hc <-. rewrite (from_hex_pair c').
    destruct (pair_some c' _ _ _ Hv' Hl) as (b' & -> & Hb').
    rewrite from_hex_to_hex. exists [], b, b', bs. repeat split.
    intros <-. apply Hne. rewrite Hv', <- Hc, Hh. f_equal. lia.
  - injection Heq as <- Hc <-. rewrite (from_hex_pair _ c').
    destruct (pair_some _ c' _ _ Hh Hv') as (b' & -> & Hb').
    rewrite from_hex_to_hex. exists [], b, b', bs. repeat split.
    intros <-. apply Hne. rewrite Hv', <- Hc, Hl. f_equal. lia.
  - injection Heq as <- <- Heq. rewrite from_hex_pair, pair_of_byte.
    apply one_byte_changed_cons, IH. exact Heq.
Qed.

(** Replacing a digit by one of the same value, such as the same letter in
    the other case, changes nothing of what is decoded. *)
Lemma from_hex_same_value (c c' : ascii) :
  Hex.value c = Hex.value c' →
  ∀ pre post,
    Hex.from_hex (pre +:+ String c post) = Hex.from_hex (pre +:+ String c' post).
Proof.
  intros Hv pre.
  induction pre as [|a|a b pre IH] using string_pair_ind; intros post.
  - rewrite !append_nil. destruct post as [|d post]; [reflexivity|].
    rewrite (from_hex_pair c), (from_hex_pair c'). unfold Hex.pair.
    now rewrite Hv.
  - rewrite !append_cons, !append_nil.
    rewrite (from_hex_pair a c), (from_hex_pair a c'). unfold Hex.pair.
    now rewrite Hv.
  - rewrite !append_cons, !(from_hex_pair a b), IH. reflexivity.
Qed.

Lemma char_replaced_length (c c' : ascii) (a x : string) :
  char_replaced c c' a x → String.length x = String.length a.
Proof.
  intros [pre post]. induction pre as [|d pre IH]; [reflexivity|].
  rewrite !append_cons. cbn [String.length]. now rewrite IH.
Qed.

Lemma replaced_decodes_changed (c c' : ascii) (bs : list byte) (x : string) :
  Hex.is_digit c' = true → Hex.value c' ≠ Hex.value c →
  char_replaced c c' (Hex.to_hex bs) x →
  one_byte_changed bs (Hex.from_hex x) ∧ free_of ":" x = true
  ∧ Nat.odd (Js.length x) = false.
Proof.
  intros Hc' Hne Hrep.
  assert (Hx : hex_only x = true)
    by (apply (char_replaced_hex_only c c' (Hex.to_hex bs)); auto using to_hex_hex_only).
  split; [|split].
  - inversion Hrep as [pre post Heq Hpost]. now apply (from_hex_replaced c).
  - now apply hex_only_free.
  - rewrite (length_hex_only _ Hx), (char_replaced_length _ _ _ _ Hrep), to_hex_length.
    now rewrite Nat.odd_mul.
Qed.

End Tampering.

(** C2, as the code has it. Replacing any single character of the tag segment
    or of the ciphertext segment of an encrypted secret by a hexadecimal digit
    of another value makes [decrypt] throw, so that no plaintext is returned;
    what it throws is the one error ["Failed to decrypt data"] of all its
    failures. *)
Theorem tampered_secret_rejected (L : NodeCrypto) (HA : GcmAuthentic L)
        (secret : string) (text : Js.value) (g g' : rng L)
        (tok s0 s1 s2 s3 x t : string) (c c' : ascii) :
  Encryption.encrypt L (Some secret) text g = (Return tok, g') →
  Js.split ":" tok = [s0; s1; s2; s3] →
  Hex.is_digit c' = true → Hex.value c' ≠ Hex.value c →
  (char_replaced c c' s2 x ∧ t = joined s0 s1 x s3)
  ∨ (char_replaced c c' s3 x ∧ t = joined s0 s1 s2 x) →
  Encryption.decrypt L (Some secret) (Js.Str t) = Throw "Failed to decrypt data".
Proof.
  intros (s & secret' & salt & g1 & iv & ct & tag & -> & Hs & [= <-] & Hsecret
          & Hsalt & Hiv & Hct & ->)%encrypt_returns_inv Hsplit Hc' Hne Hrep.
  rewrite split_joined in Hsplit by apply to_hex_free.
  injection Hsplit as <- <- <- <-.
  destruct Hrep as [[Hrep ->] | [Hrep ->]];
    destruct (replaced_decodes_changed _ _ _ _ Hc' Hne Hrep) as (Hchanged & Hfree & Heven);
    unfold Encryption.decrypt;
    rewrite decrypt_try_joined
      by first [assumption | apply to_hex_free | apply to_hex_even];
    rewrite !from_hex_to_hex.
  - destruct (HA _ _ _ _ _ ct (Hex.from_hex x) Hct) as [m ->]; [|reflexivity].
    right. split; [reflexivity | assumption].
  - destruct (HA _ _ _ _ _ (Hex.from_hex x) tag Hct) as [m ->]; [|reflexivity].
    left. split; [assumption | reflexivity].
Qed.

Lemma tampered_secret_rejected_witness :
  Encryption.decrypt ToyCrypto.lib ToyCrypto.secret
    (Js.Str (joined ToyCrypto.salt_hex ToyCrypto.iv_hex
                    "32000000000000000000000000000000" ToyCrypto.ct_hex))
  = Throw "Failed to decrypt data"
  ∧ Encryption.decrypt ToyCrypto.lib ToyCrypto.secret
      (Js.Str (joined ToyCrypto.salt_hex ToyCrypto.iv_hex ToyCrypto.tag_hex "9c94d2ce"))
    = Throw "Failed to decrypt data".
Proof.
  split.
  - apply (tampered_secret_rejected
             ToyCrypto.lib toy_authentic "master-secret" (Js.Str "sk-1") 0%nat 80%nat
             (joined ToyCrypto.salt_hex ToyCrypto.iv_hex ToyCrypto.tag_hex ToyCrypto.ct_hex)
             ToyCrypto.salt_hex ToyCrypto.iv_hex ToyCrypto.tag_hex ToyCrypto.ct_hex
             "32000000000000000000000000000000" _ "2" "3").
    + vm_compute. reflexivity.
    + vm_compute. reflexivity.
    + reflexivity.
    + vm_compute. discriminate.
    + left. split; [|reflexivity].
      exact (char_replaced_at "2" "3" EmptyString "2000000000000000000000000000000").
  - apply (tampered_secret_rejected
             ToyCrypto.lib toy_authentic "master-secret" (Js.Str "sk-1") 0%nat 80%nat
             (joined ToyCrypto.salt_hex ToyCrypto.iv_hex ToyCrypto.tag_hex ToyCrypto.ct_hex)
             ToyCrypto.salt_hex ToyCrypto.iv_hex ToyCrypto.tag_hex ToyCrypto.ct_hex
             "9c94d2ce" _ "8" "9").
    + vm_compute. reflexivity.
    + vm_compute. reflexivity.
    + reflexivity.
    + vm_compute. discriminate.
    + right. split; [|reflexivity].
      exact (char_replaced_at "8" "9" EmptyString "c94d2ce").
Defined.

(** C2, as stated, fails on the code.  In the run of the executable instance:
    with a digit of the tag changed the body of [decrypt] fails on the tag, but
    [decrypt] throws the error it also throws for a string of one segment, so
    the caller cannot tell a failed authentication from malformed input; and
    with the digit [c] of the ciphertext replaced by [C], the same value in
    the other case, [decrypt] does not fail at all. *)
Lemma tampered_error_not_told_apart :
  Encryption.encrypt ToyCrypto.lib ToyCrypto.secret (Js.Str "sk-1") 0%nat
  = (Return (joined ToyCrypto.salt_hex ToyCrypto.iv_hex ToyCrypto.tag_hex ToyCrypto.ct_hex),
     80%nat)
  ∧ Encryption.decrypt_try ToyCrypto.lib ToyCrypto.secret
      (Js.Str (joined ToyCrypto.salt_hex ToyCrypto.iv_hex
                      "32000000000000000000000000000000" ToyCrypto.ct_hex))
    = Throw "Unsupported state or unable to authenticate data"
  ∧ Encryption.decrypt ToyCrypto.lib ToyCrypto.secret
      (Js.Str (joined ToyCrypto.salt_hex ToyCrypto.iv_hex
                      "32000000000000000000000000000000" ToyCrypto.ct_hex))
    = Encryption.decrypt ToyCrypto.lib ToyCrypto.secret (Js.Str "abc")
  ∧ Encryption.decrypt ToyCrypto.lib ToyCrypto.secret
      (Js.Str (joined ToyCrypto.salt_hex ToyCrypto.iv_hex ToyCrypto.tag_hex "8C94d2ce"))
    = Return "sk-1".
Proof. vm_compute. repeat split; reflexivity. Qed.

(** C3, as the code has it. A string that does not split on the colon into
    exactly four components makes [decrypt] throw ["Failed to decrypt data"];
    this is the only error [decrypt] throws, whatever the input and the cause.
    The segments are not validated as hexadecimal.  In the salt, the nonce
    and the tag segment, characters up to U+007F that follow the valid pairs
    and start with a pair that is not valid are dropped, and the string is
    decrypted as if they were not there.  A ciphertext segment with an odd
    number of code units makes [decrypt] throw that same error; in one with
    an even number such characters are dropped as well. *)
Theorem malformed_secret_rejected (L : NodeCrypto) (env : option string) (s : string) :
  length (Js.split ":" s) ≠ 4 →
  Encryption.decrypt L env (Js.Str s) = Throw "Failed to decrypt data"
  ∧ (∀ v m, Encryption.decrypt L env v = Throw m → m = "Failed to decrypt data")
  ∧ (∀ salt iv tag p3 j0 j1 j2,
        Forall junk [j0; j1; j2] →
        free_of ":" p3 = true →
        Encryption.decrypt L env
          (Js.Str (joined (Hex.to_hex salt +:+ j0) (Hex.to_hex iv +:+ j1)
                          (Hex.to_hex tag +:+ j2) p3))
        = Encryption.decrypt L env
            (Js.Str (joined (Hex.to_hex salt) (Hex.to_hex iv) (Hex.to_hex tag) p3)))
  ∧ (∀ p0 p1 p2 p3,
        Forall (λ part, free_of ":" part = true) [p0; p1; p2; p3] →
        Nat.odd (Js.length p3) = true →
        Encryption.decrypt L env (Js.Str (joined p0 p1 p2 p3))
        = Throw "Failed to decrypt data")
  ∧ (∀ p0 p1 p2 ct j,
        Forall (λ part, free_of ":" part = true) [p0; p1; p2] →
        junk j →
        Nat.even (Js.length j) = true →
        Encryption.decrypt L env (Js.Str (joined p0 p1 p2 (Hex.to_hex ct +:+ j)))
        = Encryption.decrypt L env (Js.Str (joined p0 p1 p2 (Hex.to_hex ct)))).
Proof.
  intros Hlen.
  assert (Hplain : ∀ j, plain j = true → free_of ":" j = true).
  { intros j. apply all_chars_weaken. now intros c [_ Hc]%andb_prop. }
  assert (Hfree : ∀ bs j, plain j = true →
                          free_of ":" (Hex.to_hex bs +:+ j) = true).
  { intros bs j Hj%Hplain. pose proof (to_hex_free bs) as Hbs.
    unfold free_of in *. now rewrite all_chars_app, Hj, Hbs. }
  split; [|split; [apply decrypt_throws_generic|split; [|split]]].
  - unfold Encryption.decrypt, Encryption.decrypt_try.
    destruct (String.eqb s EmptyString); [reflexivity|].
    destruct (negb (Js.truthy (Js.of_field env))); [reflexivity|].
    destruct (Js.split ":" s) as [|p0 [|p1 [|p2 [|p3 [|p4 rest]]]]];
      try reflexivity.
    now contradiction Hlen.
  - intros salt iv tag p3 j0 j1 j2 Hjunk H3.
    apply Forall_cons in Hjunk as [[F0 E0] Hjunk].
    apply Forall_cons in Hjunk as [[F1 E1] Hjunk].
    apply Forall_cons in Hjunk as [[F2 E2] _].
    unfold Encryption.decrypt, Encryption.decrypt_try.
    rewrite !joined_nonempty.
    destruct (negb (Js.truthy (Js.of_field env))); [reflexivity|].
    rewrite !split_joined
      by first [apply to_hex_free | apply Hfree; assumption | assumption].
    now rewrite !from_hex_to_hex_app, E0, E1, E2, !from_hex_to_hex, !app_nil_r.
  - intros p0 p1 p2 p3 Hparts Hodd.
    apply Forall_cons in Hparts as [F0 Hparts].
    apply Forall_cons in Hparts as [F1 Hparts].
    apply Forall_cons in Hparts as [F2 Hparts].
    apply Forall_cons in Hparts as [F3 _].
    now apply decrypt_odd.
  - intros p0 p1 p2 ct j Hparts [Fj Ej] Heven.
    apply Forall_cons in Hparts as [F0 Hparts].
    apply Forall_cons in Hparts as [F1 Hparts].
    apply Forall_cons in Hparts as [F2 _].
    unfold Encryption.decrypt, Encryption.decrypt_try.
    rewrite !joined_nonempty.
    destruct (negb (Js.truthy (Js.of_field env))); [reflexivity|].
    rewrite !split_joined
      by first [apply to_hex_free | apply Hfree; assumption | assumption].
    rewrite units_app, Nat.odd_add, to_hex_even.
    rewrite <- Nat.negb_even, Heven. cbn [negb xorb].
    now rewrite from_hex_to_hex_app, Ej, from_hex_to_hex, app_nil_r.
Qed.

Lemma malformed_secret_rejected_witness :
  Encryption.decrypt ToyCrypto.lib ToyCrypto.secret (Js.Str "abc")
  = Throw "Failed to decrypt data"
  ∧ (∀ v m, Encryption.decrypt ToyCrypto.lib ToyCrypto.secret v = Throw m
            → m = "Failed to decrypt data")
  ∧ (∀ salt iv tag p3 j0 j1 j2,
        Forall junk [j0; j1; j2] →
        free_of ":" p3 = true →
        Encryption.decrypt ToyCrypto.lib ToyCrypto.secret
          (Js.Str (joined (Hex.to_hex salt +:+ j0) (Hex.to_hex iv +:+ j1)
                          (Hex.to_hex tag +:+ j2) p3))
        = Encryption.decrypt ToyCrypto.lib ToyCrypto.secret
            (Js.Str (joined (Hex.to_hex salt) (Hex.to_hex iv) (Hex.to_hex tag) p3)))
  ∧ (∀ p0 p1 p2 p3,
        Forall (λ part, free_of ":" part = true) [p0; p1; p2; p3] →
        Nat.odd (Js.length p3) = true →
        Encryption.decrypt ToyCrypto.lib ToyCrypto.secret (Js.Str (joined p0 p1 p2 p3))
        = Throw "Failed to decrypt data")
  ∧ (∀ p0 p1 p2 ct j,
        Forall (λ part, free_of ":" part = true) [p0; p1; p2] →
        junk j →
        Nat.even (Js.length j) = true →
        Encryption.decrypt ToyCrypto.lib ToyCrypto.secret
          (Js.Str (joined p0 p1 p2 (Hex.to_hex ct +:+ j)))
        = Encryption.decrypt ToyCrypto.lib ToyCrypto.secret
            (Js.Str (joined p0 p1 p2 (Hex.to_hex ct)))).
Proof.
  apply (malformed_secret_rejected ToyCrypto.lib ToyCrypto.secret "abc").
  vm_compute. discriminate.
Defined.

(** C3, as stated, fails on the code.  In the run of the executable instance:
    the body of [decrypt] fails on the format of a string of one segment, but
    [decrypt] throws the error it also throws when the authentication of a
    changed ciphertext fails, and when the ciphertext segment has one
    character more; and a salt segment, or a ciphertext segment, followed by
    two characters that are not hexadecimal digits is decoded up to them and
    decrypted. *)
Lemma malformed_error_not_told_apart :
  Encryption.decrypt_try ToyCrypto.lib ToyCrypto.secret (Js.Str "abc")
  = Throw "Invalid encrypted data format"
  ∧ Encryption.decrypt_try ToyCrypto.lib ToyCrypto.secret
      (Js.Str (joined ToyCrypto.salt_hex ToyCrypto.iv_hex ToyCrypto.tag_hex "9c94d2ce"))
    = Throw "Unsupported state or unable to authenticate data"
  ∧ Encryption.decrypt ToyCrypto.lib ToyCrypto.secret (Js.Str "abc")
    = Encryption.decrypt ToyCrypto.lib ToyCrypto.secret
        (Js.Str (joined ToyCrypto.salt_hex ToyCrypto.iv_hex ToyCrypto.tag_hex "9c94d2ce"))
  ∧ Encryption.decrypt ToyCrypto.lib ToyCrypto.secret (Js.Str "abc")
    = Encryption.decrypt ToyCrypto.lib ToyCrypto.secret
        (Js.Str (joined ToyCrypto.salt_hex ToyCrypto.iv_hex ToyCrypto.tag_hex
                        (ToyCrypto.ct_hex +:+ "z")))
  ∧ Encryption.decrypt ToyCrypto.lib ToyCrypto.secret
      (Js.Str (joined (ToyCrypto.salt_hex +:+ "zz") ToyCrypto.iv_hex
                      ToyCrypto.tag_hex ToyCrypto.ct_hex))
    = Return "sk-1"
  ∧ Encryption.decrypt ToyCrypto.lib ToyCrypto.secret
      (Js.Str (joined ToyCrypto.salt_hex ToyCrypto.iv_hex ToyCrypto.tag_hex
                      (ToyCrypto.ct_hex +:+ "zz")))
    = Return "sk-1".
Proof. vm_compute. repeat split; reflexivity. Qed.

(** ** The credential manager *)

Section ManagerFacts.
Variable L : NodeCrypto.
Variable ENCRYPTION_SECRET : option string.
Variable P : ProviderApi.

(** Only a reply with status 200 goes with a write to the collection. *)
Lemma setAIConfig_failure_keeps_users db g id body resp db' g' :
  ProfileController.setAIConfig L ENCRYPTION_SECRET P db g id body = (resp, db', g') →
  status resp ≠ 200 → db' = db.
Proof.
  unfold ProfileController.setAIConfig, ProfileController.bad_request.
  intros H Hstatus. repeat case_match; simplify_eq; try reflexivity;
    try now contradiction Hstatus.
Qed.

Lemma setApiKey_failure_keeps_users db g id body resp db' g' :
  ProfileController.setApiKey L ENCRYPTION_SECRET P db g id body = (resp, db', g') →
  status resp ≠ 200 → db' = db.
Proof.
  unfold ProfileController.setApiKey, ProfileController.bad_request.
  intros H Hstatus. repeat case_match; simplify_eq; try reflexivity;
    try now contradiction Hstatus.
Qed.

Lemma array_includes_In (xs : list string) (x : string) :
  Js.array_includes xs x = true ↔ In x xs.
Proof.
  unfold Js.array_includes. rewrite existsb_exists. split.
  - intros (y & Hy & ->%String.eqb_eq). exact Hy.
  - intros Hx. exists x. split; [exact Hx | apply String.eqb_refl].
Qed.

(** For a provider [setAIConfig] accepts the registry has an array. *)
Lemma accepted_provider_models (p : string) :
  Js.array_includes ["gemini"; "grok"] p = true →
  AiHelper.getAvailableModels p
  = AiHelper.Models (AiHelper.elements (AiHelper.getAvailableModels p)).
Proof. intros [<- | [<- | []]]%array_includes_In; reflexivity. Qed.

End ManagerFacts.

(** C5. When the checks of the request pass and the validator rejects the
    key, [setAIConfig] answers 400 with the validator's message and writes
    nothing: the collection, hence the user's provider, model, current and
    legacy secret, is the one before the call, and [getAIConfig] answers what
    it answered before. *)
Theorem setAIConfig_rejected_key_not_persisted
        (L : NodeCrypto) (env : option string) (P : ProviderApi)
        (db : Users) (g : rng L) (id : string) (body : ProfileController.ConfigBody)
        (p m msg : string) :
  ProfileController.missing_key (ProfileController.apiKey body) = false →
  match ProfileController.provider body with
  | Js.Undefined => Js.Str "gemini"
  | v => v
  end = Js.Str p →
  In p ["gemini"; "grok"] →
  ProfileController.selectedModel (ProfileController.model body) p = Js.Str m →
  In m (AiHelper.elements (AiHelper.getAvailableModels p)) →
  AiHelper.validateApiKey P (ProfileController.apiKey body) p m = Throw msg →
  let r := ProfileController.setAIConfig L env P db g id body in
  r.1.1 = mkResponse 400 false (Some msg) NoData None
  ∧ r.1.2 = db
  ∧ r.1.2 !! id = db !! id
  ∧ ProfileController.getAIConfig r.1.2 id = ProfileController.getAIConfig db id.
Proof.
  intros Hkey Hprov Hp Hsel Hm Hval.
  apply array_includes_In in Hp, Hm.
  assert (ProfileController.setAIConfig L env P db g id body
          = (ProfileController.bad_request msg, db, g)) as ->.
  { unfold ProfileController.setAIConfig.
    rewrite Hkey, Hprov, Hp, (accepted_provider_models p Hp). cbn [negb].
    rewrite Hsel, Hm. cbn [negb]. now rewrite Hval. }
  repeat split.
Qed.

Lemma setAIConfig_rejected_key_not_persisted_witness :
  let r := ProfileController.setAIConfig ToyCrypto.lib ToyCrypto.secret ToyCrypto.refusing
             Scenario.users 0%nat "u1"
             (Scenario.request "bad-key" (Js.Str "gemini") Js.Undefined) in
  r.1.1 = mkResponse 400 false
            (Some "Invalid gemini API key. Please check your API key.") NoData None
  ∧ r.1.2 = Scenario.users
  ∧ r.1.2 !! "u1" = Scenario.users !! "u1"
  ∧ ProfileController.getAIConfig r.1.2 "u1"
    = ProfileController.getAIConfig Scenario.users "u1".
Proof.
  apply (setAIConfig_rejected_key_not_persisted
           ToyCrypto.lib ToyCrypto.secret ToyCrypto.refusing Scenario.users 0%nat "u1"
           (Scenario.request "bad-key" (Js.Str "gemini") Js.Undefined)
           "gemini" "gemini-2.5-flash-lite").
  - reflexivity.
  - reflexivity.
  - simpl. tauto.
  - reflexivity.
  - vm_compute. tauto.
  - vm_compute. reflexivity.
Defined.

(** C6. With a key and a known provider in the request: a model that is given
    and is not among the models of the provider makes [setAIConfig] answer 400
    and write nothing; with the model left out the default of the provider is
    selected, [gemini-2.5-flash-lite] for [gemini] and
    [llama-3.3-70b-versatile] for [grok], and it is the model validated with,
    stored and reported. *)
Theorem setAIConfig_model_checked
        (L : NodeCrypto) (env : option string) (P : ProviderApi)
        (db : Users) (g : rng L) (id : string) (body : ProfileController.ConfigBody)
        (p : string) :
  ProfileController.missing_key (ProfileController.apiKey body) = false →
  match ProfileController.provider body with
  | Js.Undefined => Js.Str "gemini"
  | v => v
  end = Js.Str p →
  In p ["gemini"; "grok"] →
  (Js.truthy (ProfileController.model body) = true →
   (∀ m, ProfileController.model body = Js.Str m →
         ¬ In m (AiHelper.elements (AiHelper.getAvailableModels p))) →
   ProfileController.setAIConfig L env P db g id body
   = (mkResponse 400 false
        (Some ("Model " +:+ AiHelper.dquote
               +:+ ProfileController.to_string (ProfileController.model body)
               +:+ AiHelper.dquote +:+ " is not available for provider "
               +:+ AiHelper.dquote +:+ p +:+ AiHelper.dquote))
        (AvailableModels (AiHelper.elements (AiHelper.getAvailableModels p))) None,
      db, g))
  ∧ (Js.truthy (ProfileController.model body) = false →
     let d := if String.eqb p "gemini"
              then "gemini-2.5-flash-lite" else "llama-3.3-70b-versatile" in
     (p = "gemini" → d = "gemini-2.5-flash-lite")
     ∧ (p = "grok" → d = "llama-3.3-70b-versatile")
     ∧ ProfileController.selectedModel (ProfileController.model body) p = Js.Str d
     ∧ In d (AiHelper.elements (AiHelper.getAvailableModels p))
     ∧ (∀ msg, AiHelper.validateApiKey P (ProfileController.apiKey body) p d = Throw msg →
               ProfileController.setAIConfig L env P db g id body
               = (mkResponse 400 false (Some msg) NoData None, db, g))
     ∧ (∀ b tok g' u,
           AiHelper.validateApiKey P (ProfileController.apiKey body) p d = Return b →
           Encryption.encrypt L env (ProfileController.apiKey body) g = (Return tok, g') →
           db !! id = Some u →
           ProfileController.setAIConfig L env P db g id body
           = (mkResponse 200 true (Some "AI configuration saved successfully")
                         (SavedConfig true p d) None,
              <[ id := mkUser (Some tok) (geminiApiKey u) (Some p) (Some d) ]> db,
              g'))).
Proof.
  intros Hkey Hprov Hp.
  assert (Hp' := Hp). apply array_includes_In in Hp'.
  split.
  - intros Hgiven Hnot. unfold ProfileController.setAIConfig.
    rewrite Hkey, Hprov, Hp', (accepted_provider_models p Hp'). cbn [negb].
    unfold ProfileController.selectedModel. rewrite Hgiven.
    cbn [AiHelper.elements].
    destruct (ProfileController.model body) as [| |b|m] eqn:Hmodel;
      try reflexivity.
    destruct (Js.array_includes (AiHelper.elements (AiHelper.getAvailableModels p)) m)
      eqn:Hin; [|reflexivity].
    apply array_includes_In in Hin. now contradiction (Hnot m).
  - intros Homitted.
    assert (Hsel : ProfileController.selectedModel (ProfileController.model body) p
                   = Js.Str (if String.eqb p "gemini"
                             then "gemini-2.5-flash-lite" else "llama-3.3-70b-versatile")).
    { unfold ProfileController.selectedModel. now rewrite Homitted. }
    assert (Hd : In (if String.eqb p "gemini"
                     then "gemini-2.5-flash-lite" else "llama-3.3-70b-versatile")
                    (AiHelper.elements (AiHelper.getAvailableModels p))).
    { destruct Hp as [<- | [<- | []]]; vm_compute; tauto. }
    assert (Hd' := Hd). apply array_includes_In in Hd'.
    cbv zeta. repeat match goal with |- _ ∧ _ => split end.
    + now intros ->.
    + now intros ->.
    + exact Hsel.
    + exact Hd.
    + intros msg Hval. unfold ProfileController.setAIConfig.
      rewrite Hkey, Hprov, Hp', (accepted_provider_models p Hp'). cbn [negb].
      rewrite Hsel, Hd'. cbn [negb]. now rewrite Hval.
    + intros b tok g' u Hval Henc Hu. unfold ProfileController.setAIConfig.
      rewrite Hkey, Hprov, Hp', (accepted_provider_models p Hp'). cbn [negb].
      rewrite Hsel, Hd'. cbn [negb]. now rewrite Hval, Henc, Hu.
Qed.

Lemma setAIConfig_model_checked_witness :
  ProfileController.setAIConfig ToyCrypto.lib ToyCrypto.secret ToyCrypto.accepting
    Scenario.users 0%nat "u1"
    (Scenario.request "sk-1" (Js.Str "gemini") (Js.Str "not-a-real-model"))
  = (mkResponse 400 false
       (Some ("Model " +:+ AiHelper.dquote +:+ "not-a-real-model" +:+ AiHelper.dquote
              +:+ " is not available for provider "
              +:+ AiHelper.dquote +:+ "gemini" +:+ AiHelper.dquote))
       (AvailableModels (AiHelper.elements (AiHelper.getAvailableModels "gemini"))) None,
     Scenario.users, 0%nat)
  ∧ ProfileController.setAIConfig ToyCrypto.lib ToyCrypto.secret ToyCrypto.accepting
      Scenario.users 0%nat "u1" (Scenario.request "sk-1" (Js.Str "grok") Js.Undefined)
    = (mkResponse 200 true (Some "AI configuration saved successfully")
                  (SavedConfig true "grok" "llama-3.3-70b-versatile") None,
       <[ "u1" := mkUser (Some (joined ToyCrypto.salt_hex ToyCrypto.iv_hex
                                       ToyCrypto.tag_hex ToyCrypto.ct_hex))
                         None (Some "grok") (Some "llama-3.3-70b-versatile") ]>
         Scenario.users,
       80%nat).
Proof.
  split.
  - apply (setAIConfig_model_checked
             ToyCrypto.lib ToyCrypto.secret ToyCrypto.accepting Scenario.users 0%nat "u1"
             (Scenario.request "sk-1" (Js.Str "gemini") (Js.Str "not-a-real-model"))
             "gemini").
    + reflexivity.
    + reflexivity.
    + simpl. tauto.
    + reflexivity.
    + intros m [= <-]. vm_compute. intuition discriminate.
  - apply (setAIConfig_model_checked
             ToyCrypto.lib ToyCrypto.secret ToyCrypto.accepting Scenario.users 0%nat "u1"
             (Scenario.request "sk-1" (Js.Str "grok") Js.Undefined)
             "grok" eq_refl eq_refl (or_intror (or_introl eq_refl)))
      with (b := true) (u := Scenario.fresh).
    + reflexivity.
    + vm_compute. reflexivity.
    + vm_compute. reflexivity.
    + vm_compute. reflexivity.
Defined.

Section StatusFacts.

Lemma truthy_present (f : option string) :
  Js.truthy (Js.of_field f) = true ↔ present f.
Proof.
  unfold present. destruct f as [s|]; cbn.
  - rewrite negb_true_iff, String.eqb_neq. split.
    + intros Hs. now exists s.
    + now intros (s' & [= <-] & Hs).
  - split; [discriminate | now intros (s & Hs & _)].
Qed.

Lemma truthy_same (f f' : option string) :
  (present f ↔ present f') → Js.truthy (Js.of_field f) = Js.truthy (Js.of_field f').
Proof.
  rewrite <- !truthy_present.
  destruct (Js.truthy (Js.of_field f)), (Js.truthy (Js.of_field f'));
    intuition congruence.
Qed.

Lemma absent_falsy (f : option string) :
  ¬ present f → Js.truthy (Js.of_field f) = false.
Proof. rewrite <- truthy_present. apply not_true_is_false. Qed.

(** What the handlers read of a document is the same with and without the
    defaults of the schema: the secrets are not touched, and the provider and
    the model are read with the same defaults. *)
Lemma with_defaults_read (u : User) :
  aiApiKey (with_defaults u) = aiApiKey u
  ∧ geminiApiKey (with_defaults u) = geminiApiKey u
  ∧ Js.or_default (aiProvider (with_defaults u)) "gemini"
    = Js.or_default (aiProvider u) "gemini"
  ∧ Js.or_default (aiModel (with_defaults u)) "gemini-2.5-flash-lite"
    = Js.or_default (aiModel u) "gemini-2.5-flash-lite".
Proof. destruct u as [k l [p|] [m|]]; repeat split. Qed.

End StatusFacts.

(** C7. For a stored user [getAIConfig] answers 200 with: [hasApiKey] true
    exactly when the current or the legacy secret is present; the stored
    provider and model, or [gemini] and [gemini-2.5-flash-lite] where they are
    absent; and the two model lists.  The reply is the same for any two users
    with the same provider and model and the same secrets present, whatever
    the secrets are: it carries none of them. *)
Theorem getAIConfig_reports_status (db : Users) (id : string) (u : User) :
  db !! id = Some u →
  ∃ configured provider model,
    ProfileController.getAIConfig db id
    = mkResponse 200 true None
        (ConfigStatus configured provider model
           (AiHelper.elements (AiHelper.getAvailableModels "gemini"))
           (AiHelper.elements (AiHelper.getAvailableModels "grok")))
        None
    ∧ (configured = true ↔ present (aiApiKey u) ∨ present (geminiApiKey u))
    ∧ provider = Js.or_default (aiProvider u) "gemini"
    ∧ model = Js.or_default (aiModel u) "gemini-2.5-flash-lite"
    ∧ (aiProvider u = None → provider = "gemini")
    ∧ (aiModel u = None → model = "gemini-2.5-flash-lite")
    ∧ ∀ db2 id2 u2,
        db2 !! id2 = Some u2 →
        (present (aiApiKey u2) ↔ present (aiApiKey u)) →
        (present (geminiApiKey u2) ↔ present (geminiApiKey u)) →
        aiProvider u2 = aiProvider u → aiModel u2 = aiModel u →
        ProfileController.getAIConfig db2 id2 = ProfileController.getAIConfig db id.
Proof.
  intros Hu. unfold ProfileController.getAIConfig. rewrite Hu.
  eexists _, _, _. split; [reflexivity|].
  repeat match goal with |- _ ∧ _ => split end; try reflexivity.
  - rewrite orb_true_iff, !truthy_present. reflexivity.
  - now intros ->.
  - now intros ->.
  - intros db2 id2 u2 -> Hcur Hleg -> ->.
    now rewrite (truthy_same _ _ Hcur), (truthy_same _ _ Hleg).
Qed.

Lemma getAIConfig_reports_status_witness :
  ∃ configured provider model,
    ProfileController.getAIConfig Scenario.users "u2"
    = mkResponse 200 true None
        (ConfigStatus configured provider model
           (AiHelper.elements (AiHelper.getAvailableModels "gemini"))
           (AiHelper.elements (AiHelper.getAvailableModels "grok")))
        None
    ∧ (configured = true ↔ present (aiApiKey Scenario.legacy_only)
                            ∨ present (geminiApiKey Scenario.legacy_only))
    ∧ provider = Js.or_default (aiProvider Scenario.legacy_only) "gemini"
    ∧ model = Js.or_default (aiModel Scenario.legacy_only) "gemini-2.5-flash-lite"
    ∧ (aiProvider Scenario.legacy_only = None → provider = "gemini")
    ∧ (aiModel Scenario.legacy_only = None → model = "gemini-2.5-flash-lite")
    ∧ ∀ db2 id2 u2,
        db2 !! id2 = Some u2 →
        (present (aiApiKey u2) ↔ present (aiApiKey Scenario.legacy_only)) →
        (present (geminiApiKey u2) ↔ present (geminiApiKey Scenario.legacy_only)) →
        aiProvider u2 = aiProvider Scenario.legacy_only →
        aiModel u2 = aiModel Scenario.legacy_only →
        ProfileController.getAIConfig db2 id2
        = ProfileController.getAIConfig Scenario.users "u2".
Proof.
  apply (getAIConfig_reports_status Scenario.users "u2" Scenario.legacy_only).
  vm_compute. reflexivity.
Defined.

(** C9. For a stored user [deleteAIConfig] answers 200 and leaves the user
    with no current secret, no legacy secret, provider [gemini] and model
    [gemini-2.5-flash-lite], whatever the user had; the other users are not
    touched; and deleting again answers the same and changes nothing. *)
Theorem deleteAIConfig_clears (db : Users) (id : string) (u : User) :
  db !! id = Some u →
  let cleared := mkUser None None (Some "gemini") (Some "gemini-2.5-flash-lite") in
  let r := ProfileController.deleteAIConfig db id in
  r.1 = mkResponse 200 true (Some "AI configuration removed successfully")
                   (HasApiKey false) None
  ∧ r.2 !! id = Some cleared
  ∧ (∀ j, j ≠ id → r.2 !! j = db !! j)
  ∧ ProfileController.deleteAIConfig r.2 id = r.
Proof.
  intros Hu. cbv zeta. unfold ProfileController.deleteAIConfig. rewrite Hu.
  cbn [fst snd]. rewrite lookup_insert_eq. repeat split.
  - intros j Hj. now rewrite lookup_insert_ne.
  - now rewrite insert_insert_eq.
Qed.

Lemma deleteAIConfig_clears_witness :
  let cleared := mkUser None None (Some "gemini") (Some "gemini-2.5-flash-lite") in
  let r := ProfileController.deleteAIConfig Scenario.users "u3" in
  r.1 = mkResponse 200 true (Some "AI configuration removed successfully")
                   (HasApiKey false) None
  ∧ r.2 !! "u3" = Some cleared
  ∧ (∀ j, j ≠ "u3" → r.2 !! j = Scenario.users !! j)
  ∧ ProfileController.deleteAIConfig r.2 "u3" = r.
Proof.
  apply (deleteAIConfig_clears Scenario.users "u3" Scenario.configured).
  vm_compute. reflexivity.
Defined.

(** C10. A call of the legacy [setApiKey] that answers 200 has encrypted the
    key once and stored that one ciphertext as the current and as the legacy
    secret of the user, with provider [gemini] and model
    [gemini-2.5-flash-lite]. *)
Theorem setApiKey_writes_both_fields
        (L : NodeCrypto) (env : option string) (P : ProviderApi)
        (db db' : Users) (g g' : rng L) (id : string)
        (body : ProfileController.ConfigBody) (resp : Response) :
  ProfileController.setApiKey L env P db g id body = (resp, db', g') →
  status resp = 200 →
  ∃ u tok,
    db !! id = Some u
    ∧ Encryption.encrypt L env (ProfileController.apiKey body) g = (Return tok, g')
    ∧ db' = <[ id := mkUser (Some tok) (Some tok) (Some "gemini")
                            (Some "gemini-2.5-flash-lite") ]> db
    ∧ ∃ u', db' !! id = Some u'
            ∧ aiApiKey u' = Some tok ∧ geminiApiKey u' = aiApiKey u'
            ∧ aiProvider u' = Some "gemini"
            ∧ aiModel u' = Some "gemini-2.5-flash-lite".
Proof.
  unfold ProfileController.setApiKey, ProfileController.bad_request.
  intros H Hstatus.
  destruct (ProfileController.missing_key _); [simplify_eq; discriminate|].
  destruct (AiHelper.validateApiKey _ _ _ _); [|simplify_eq; discriminate].
  destruct (Encryption.encrypt _ _ _ _) as [[tok|m] g2] eqn:Henc;
    [|simplify_eq; discriminate].
  destruct (db !! id) as [u|] eqn:Hu; [|simplify_eq; discriminate].
  injection H as <- <- <-.
  exists u, tok. repeat split.
  eexists. rewrite lookup_insert_eq. repeat split.
Qed.

Lemma setApiKey_writes_both_fields_witness :
  ∃ u tok,
    Scenario.users !! "u1" = Some u
    ∧ Encryption.encrypt ToyCrypto.lib ToyCrypto.secret (Js.Str "sk-1") 0%nat
      = (Return tok, 80%nat)
    ∧ <[ "u1" := mkUser (Some (joined ToyCrypto.salt_hex ToyCrypto.iv_hex
                                      ToyCrypto.tag_hex ToyCrypto.ct_hex))
                        (Some (joined ToyCrypto.salt_hex ToyCrypto.iv_hex
                                      ToyCrypto.tag_hex ToyCrypto.ct_hex))
                        (Some "gemini") (Some "gemini-2.5-flash-lite") ]> Scenario.users
      = <[ "u1" := mkUser (Some tok) (Some tok) (Some "gemini")
                          (Some "gemini-2.5-flash-lite") ]> Scenario.users
    ∧ ∃ u', <[ "u1" := mkUser (Some (joined ToyCrypto.salt_hex ToyCrypto.iv_hex
                                            ToyCrypto.tag_hex ToyCrypto.ct_hex))
                              (Some (joined ToyCrypto.salt_hex ToyCrypto.iv_hex
                                            ToyCrypto.tag_hex ToyCrypto.ct_hex))
                              (Some "gemini") (Some "gemini-2.5-flash-lite") ]>
              Scenario.users !! "u1" = Some u'
            ∧ aiApiKey u' = Some tok ∧ geminiApiKey u' = aiApiKey u'
            ∧ aiProvider u' = Some "gemini"
            ∧ aiModel u' = Some "gemini-2.5-flash-lite".
Proof.
  apply (setApiKey_writes_both_fields
           ToyCrypto.lib ToyCrypto.secret ToyCrypto.accepting Scenario.users _ 0%nat 80%nat
           "u1" (Scenario.request "sk-1" Js.Undefined Js.Undefined)
           (mkResponse 200 true (Some "API key saved successfully") (HasApiKey true) None)).
  - vm_compute. reflexivity.
  - reflexivity.
Defined.

(** C8, as the code has it. The key used for a user is the decryption of the
    current secret when it is present and otherwise the decryption of the
    legacy secret when that is present, in [validateStoredAIConfig] and in the
    recipe handlers alike; a legacy secret made by [encrypt] decrypts to what
    the UTF-8 encoding of the key it was made of decodes to, which is that key
    when it has no lone surrogate.  With neither secret,
    [validateStoredAIConfig] answers 404, whereas the recipe handlers load no
    key and the outbound call is configured with the key of the server for the
    provider, and fails only when the server has none. *)
Theorem stored_key_resolution
        (L : NodeCrypto) (env : option string) (P : ProviderApi)
        (defaultGeminiKey defaultGrokKey : option string)
        (db : Users) (id : string) (u : User) :
  db !! id = Some u →
  let current := Js.of_field (aiApiKey u) in
  let legacy := Js.of_field (geminiApiKey u) in
  let provider := Js.or_default (aiProvider u) "gemini" in
  let model := Js.or_default (aiModel u) "gemini-2.5-flash-lite" in
  let serverKey := if String.eqb provider "gemini" then defaultGeminiKey else defaultGrokKey in
  (present (aiApiKey u) →
   ProfileController.decryptedKey L env u = Encryption.decrypt L env current
   ∧ RecipeController.userApiKey L env u
     = Js.bind (Encryption.decrypt L env current) (λ k, Return (Some k)))
  ∧ (¬ present (aiApiKey u) → present (geminiApiKey u) →
     ProfileController.decryptedKey L env u = Encryption.decrypt L env legacy
     ∧ RecipeController.userApiKey L env u
       = Js.bind (Encryption.decrypt L env legacy) (λ k, Return (Some k)))
  ∧ (CryptoLaws L → ¬ present (aiApiKey u) →
     ∀ key g g' tok,
       Encryption.encrypt L env key g = (Return tok, g') →
       geminiApiKey u = Some tok →
       ∃ k, key = Js.Str k
            ∧ ProfileController.decryptedKey L env u
              = Return (Utf8.decode (Utf8.encode k))
            ∧ RecipeController.userApiKey L env u
              = Return (Some (Utf8.decode (Utf8.encode k)))
            ∧ (Utf8.well_formed k = true →
               ProfileController.decryptedKey L env u = Return k
               ∧ RecipeController.userApiKey L env u = Return (Some k)))
  ∧ (¬ present (aiApiKey u) → ¬ present (geminiApiKey u) →
     ProfileController.validateStoredAIConfig L env P db id
     = mkResponse 404 false (Some "No API key configured") NoData None
     ∧ RecipeController.userApiKey L env u = Return None
     ∧ (∀ k, serverKey = Some k → k ≠ EmptyString →
             RecipeController.generateRecipes_config
               L env defaultGeminiKey defaultGrokKey u
             = Return {| AiHelper.apiKey := k;
                         AiHelper.provider := provider;
                         AiHelper.model := model |})
     ∧ (¬ present serverKey →
        RecipeController.generateRecipes_config
          L env defaultGeminiKey defaultGrokKey u
        = Throw ("Failed to generate recipe: No " +:+ provider
                 +:+ " API key available. Please provide your API key in profile settings."))).
Proof.
  intros Hu. cbv zeta.
  unfold ProfileController.decryptedKey, RecipeController.userApiKey.
  repeat match goal with |- _ ∧ _ => split end.
  - intros Hcur%truthy_present. now rewrite Hcur.
  - intros Hcur%absent_falsy Hleg%truthy_present. now rewrite Hcur, Hleg.
  - intros HL Hcur%absent_falsy key g g' tok Henc Htok. rewrite Hcur.
    destruct (decrypt_encrypted L HL _ _ _ _ _ Henc) as (k & -> & Hdec).
    exists k. rewrite Htok. cbn [Js.of_field].
    assert (Js.truthy (Js.Str tok) = true) as ->.
    { apply encrypt_returns_inv in Henc
        as (? & ? & ? & ? & ? & ? & ? & _ & _ & _ & _ & _ & _ & _ & ->).
      cbn. now rewrite joined_nonempty. }
    rewrite Hdec. cbn [Js.bind].
    split; [reflexivity|]. split; [reflexivity|]. split; [reflexivity|].
    intros Hwf. rewrite (decode_encode _ Hwf). split; reflexivity.
  - intros Hcur%absent_falsy Hleg%absent_falsy.
    unfold ProfileController.validateStoredAIConfig,
      RecipeController.generateRecipes_config, RecipeController.userApiKey,
      AiHelper.getAIConfig.
    rewrite Hu, Hcur, Hleg. cbn [negb andb Js.bind].
    repeat match goal with |- _ ∧ _ => split end; try reflexivity.
    + intros k Hserver Hk.
      now rewrite Hserver, (truthy_set _ Hk), (or_default_set _ _ Hk).
    + intros Hserver%absent_falsy. now rewrite Hserver.
Qed.

Lemma stored_key_resolution_witness :
  ProfileController.decryptedKey ToyCrypto.lib ToyCrypto.secret Scenario.legacy_only
  = Return "sk-1"
  ∧ RecipeController.userApiKey ToyCrypto.lib ToyCrypto.secret Scenario.legacy_only
    = Return (Some "sk-1").
Proof.
  destruct (stored_key_resolution
              ToyCrypto.lib ToyCrypto.secret ToyCrypto.accepting None None
              Scenario.users "u2" Scenario.legacy_only)
    as (_ & _ & Hlegacy & _).
  - vm_compute. reflexivity.
  - destruct (Hlegacy toy_laws) with (key := Js.Str "sk-1") (g := 0%nat) (g' := 80%nat)
        (tok := joined ToyCrypto.salt_hex ToyCrypto.iv_hex ToyCrypto.tag_hex ToyCrypto.ct_hex)
      as (k & [= <-] & _ & _ & Hread).
    + intros (s & [=] & _).
    + vm_compute. reflexivity.
    + reflexivity.
    + apply Hread. reflexivity.
Defined.

(** C8, as stated, fails on the code: for a user with neither secret the
    recipe handlers load no key and do not fail, and with a key of the server
    in [GEMINI_API_KEY] the outbound call is configured with that key. *)
Lemma recipe_key_falls_back_to_server_key :
  RecipeController.userApiKey ToyCrypto.lib ToyCrypto.secret Scenario.fresh = Return None
  ∧ RecipeController.generateRecipes_config
      ToyCrypto.lib ToyCrypto.secret (Some "server-key") None Scenario.fresh
    = Return {| AiHelper.apiKey := "server-key";
                AiHelper.provider := "gemini";
                AiHelper.model := "gemini-2.5-flash-lite" |}.
Proof. vm_compute. split; reflexivity. Qed.

(** ** The scenario of the specification, run on the executable instance *)

(** A user without credential is reported as not configured; a key the
    provider refuses is answered 400 and the report does not change; a key the
    provider accepts, for [grok] and [llama-3.3-70b-versatile], is stored and
    reported; after [deleteAIConfig] the user is not configured again. *)
Example credential_lifecycle :
  let report db := data (ProfileController.getAIConfig db "u1") in
  let gemini := AiHelper.elements (AiHelper.getAvailableModels "gemini") in
  let grok := AiHelper.elements (AiHelper.getAvailableModels "grok") in
  let db0 := Scenario.users in
  let '(r1, db1, g1) :=
    ProfileController.setAIConfig ToyCrypto.lib ToyCrypto.secret ToyCrypto.refusing
      db0 0%nat "u1" (Scenario.request "bad-key" (Js.Str "gemini") Js.Undefined) in
  let '(r2, db2, g2) :=
    ProfileController.setAIConfig ToyCrypto.lib ToyCrypto.secret ToyCrypto.accepting
      db1 g1 "u1"
      (Scenario.request "good-key" (Js.Str "grok") (Js.Str "llama-3.3-70b-versatile")) in
  let '(r3, db3) := ProfileController.deleteAIConfig db2 "u1" in
  report db0 = ConfigStatus false "gemini" "gemini-2.5-flash-lite" gemini grok
  ∧ status r1 = 400 ∧ report db1 = report db0
  ∧ status r2 = 200
  ∧ report db2 = ConfigStatus true "grok" "llama-3.3-70b-versatile" gemini grok
  ∧ status r3 = 200
  ∧ report db3 = ConfigStatus false "gemini" "gemini-2.5-flash-lite" gemini grok.
Proof. vm_compute. repeat split; reflexivity. Qed.

(* ===================================================================== *)
(** * Further properties of the code *)
(* ===================================================================== *)

(** ** The secret cipher, continued *)

Section MoreCipherFacts.

Lemma split_length (sep : ascii) (s : string) :
  length (Js.split sep s) = S (occurrences sep s).
Proof.
  induction s as [|c s IH]; [reflexivity|].
  cbn [Js.split occurrences]. destruct (Ascii.eqb c sep).
  - cbn [length]. now rewrite IH.
  - destruct (Js.split sep s) as [|x xs]; [discriminate IH|].
    cbn [length] in *. exact IH.
Qed.

Lemma to_hex_inj (xs ys : list byte) : Hex.to_hex xs = Hex.to_hex ys → xs = ys.
Proof. intros H. now rewrite <- (from_hex_to_hex xs), H, from_hex_to_hex. Qed.

Lemma joined_hex_inj (a b c d a' b' c' d' : list byte) :
  joined (Hex.to_hex a) (Hex.to_hex b) (Hex.to_hex c) (Hex.to_hex d)
  = joined (Hex.to_hex a') (Hex.to_hex b') (Hex.to_hex c') (Hex.to_hex d') →
  a = a' ∧ b = b' ∧ c = c' ∧ d = d'.
Proof.
  intros H. apply (f_equal (Js.split ":")) in H.
  rewrite !split_joined in H by apply to_hex_free.
  injection H as Ha Hb Hc Hd. auto using to_hex_inj.
Qed.

Lemma isEncrypted_joined (s0 s1 s2 s3 : string) :
  free_of ":" s0 = true → free_of ":" s1 = true →
  free_of ":" s2 = true → free_of ":" s3 = true →
  Encryption.isEncrypted (Js.Str (joined s0 s1 s2 s3)) = true.
Proof.
  intros H0 H1 H2 H3. unfold Encryption.isEncrypted.
  now rewrite joined_nonempty, split_joined.
Qed.

End MoreCipherFacts.

(** X1. With a library that has the laws, [encrypt] has two outcomes only: it
    returns a token, exactly when the text is a non-empty string and the
    master secret is set; or it throws ["Failed to encrypt data"] and has
    drawn no random bytes. *)
Theorem encrypt_outcome (L : NodeCrypto) (HL : CryptoLaws L)
        (env : option string) (text : Js.value) (g : rng L) :
  let usable := ∃ s secret, text = Js.Str s ∧ s ≠ EmptyString
                            ∧ env = Some secret ∧ secret ≠ EmptyString in
  (usable ∧ ∃ tok g', Encryption.encrypt L env text g = (Return tok, g'))
  ∨ (¬ usable ∧ Encryption.encrypt L env text g = (Throw "Failed to encrypt data", g)).
Proof.
  cbv zeta.
  destruct text as [| |b|s];
    try (right; split; [intros (? & ? & [=] & _) | reflexivity]).
  destruct (String.eqb s EmptyString) eqn:Hs.
  { right. apply String.eqb_eq in Hs as ->. split.
    - now intros (? & ? & [= <-] & Hne & _).
    - reflexivity. }
  apply String.eqb_neq in Hs.
  destruct env as [secret|].
  2:{ right. split; [now intros (? & ? & _ & _ & [=] & _)|].
      unfold Encryption.encrypt, Encryption.encrypt_try.
      apply String.eqb_neq in Hs. now rewrite Hs. }
  destruct (String.eqb secret EmptyString) eqn:Hsecret.
  { right. apply String.eqb_eq in Hsecret as ->. split.
    - now intros (? & ? & _ & _ & [= <-] & Hne).
    - unfold Encryption.encrypt, Encryption.encrypt_try.
      apply String.eqb_neq in Hs. now rewrite Hs. }
  apply String.eqb_neq in Hsecret. left. split; [now exists s, secret|].
  destruct (encrypt_returns L HL secret s g Hsecret Hs)
    as (salt & g1 & iv & g2 & ct & tag & _ & _ & _ & _ & Henc).
  eauto.
Qed.

Lemma encrypt_outcome_witness :
  let usable := ∃ s secret, Js.Str EmptyString = Js.Str s ∧ s ≠ EmptyString
                            ∧ ToyCrypto.secret = Some secret ∧ secret ≠ EmptyString in
  (usable ∧ ∃ tok g', Encryption.encrypt ToyCrypto.lib ToyCrypto.secret
                        (Js.Str EmptyString) 7%nat = (Return tok, g'))
  ∨ (¬ usable ∧ Encryption.encrypt ToyCrypto.lib ToyCrypto.secret
                  (Js.Str EmptyString) 7%nat = (Throw "Failed to encrypt data", 7%nat)).
Proof.
  exact (encrypt_outcome ToyCrypto.lib toy_laws ToyCrypto.secret (Js.Str EmptyString) 7%nat).
Defined.

(** X2. [decrypt] returns a plaintext only for a string with exactly three
    colons, one that [isEncrypted] accepts, and only while the master secret
    is set. *)
Theorem decrypt_returns_only_for_shape (L : NodeCrypto) (env : option string)
        (v : Js.value) (plain : string) :
  Encryption.decrypt L env v = Return plain →
  ∃ s secret,
    v = Js.Str s ∧ occurrences ":" s = 3 ∧ Encryption.isEncrypted v = true
    ∧ env = Some secret ∧ secret ≠ EmptyString.
Proof.
  unfold Encryption.decrypt, Encryption.decrypt_try, Encryption.isEncrypted.
  destruct v as [| |b|s]; try discriminate.
  destruct (String.eqb s EmptyString) eqn:Hs; [discriminate|].
  destruct env as [secret|]; [|discriminate].
  cbn [Js.of_field Js.truthy].
  destruct (String.eqb secret EmptyString) eqn:Hsecret; [discriminate|].
  pose proof (split_length ":" s) as Hlen.
  destruct (Js.split ":" s) as [|p0 [|p1 [|p2 [|p3 [|p4 rest]]]]];
    try discriminate.
  intros _. exists s, secret. apply String.eqb_neq in Hsecret.
  cbn [length] in Hlen. repeat split; try assumption. lia.
Qed.

Lemma decrypt_returns_only_for_shape_witness :
  ∃ s secret,
    Js.Str (joined ToyCrypto.salt_hex ToyCrypto.iv_hex ToyCrypto.tag_hex ToyCrypto.ct_hex)
    = Js.Str s
    ∧ occurrences ":" s = 3
    ∧ Encryption.isEncrypted
        (Js.Str (joined ToyCrypto.salt_hex ToyCrypto.iv_hex
                        ToyCrypto.tag_hex ToyCrypto.ct_hex)) = true
    ∧ ToyCrypto.secret = Some secret ∧ secret ≠ EmptyString.
Proof.
  apply (decrypt_returns_only_for_shape ToyCrypto.lib ToyCrypto.secret _ "sk-1").
  vm_compute. reflexivity.
Defined.

(** X3. [isEncrypted] accepts exactly the strings with three colons, whatever
    stands between them, and no value that is not a string. *)
Theorem isEncrypted_counts_colons (v : Js.value) :
  Encryption.isEncrypted v = true ↔ ∃ s, v = Js.Str s ∧ occurrences ":" s = 3.
Proof.
  unfold Encryption.isEncrypted. split.
  - destruct v as [| |b|s]; try discriminate.
    intros [_ Hlen%Nat.eqb_eq]%andb_prop. rewrite split_length in Hlen.
    exists s. split; [reflexivity | lia].
  - intros (s & -> & Hs). rewrite split_length, Hs.
    destruct s; [discriminate Hs | reflexivity].
Qed.

(** X4. Every token that [encrypt] returns is accepted by [isEncrypted]. *)
Theorem isEncrypted_accepts_encrypted (L : NodeCrypto) (env : option string)
        (text : Js.value) (g g' : rng L) (tok : string) :
  Encryption.encrypt L env text g = (Return tok, g') →
  Encryption.isEncrypted (Js.Str tok) = true.
Proof.
  intros (s & secret & salt & g1 & iv & ct & tag & _ & _ & _ & _ & _ & _ & _ & ->)
         %encrypt_returns_inv.
  apply isEncrypted_joined; apply to_hex_free.
Qed.

Lemma isEncrypted_accepts_encrypted_witness :
  Encryption.isEncrypted
    (Js.Str (joined ToyCrypto.salt_hex ToyCrypto.iv_hex ToyCrypto.tag_hex ToyCrypto.ct_hex))
  = true.
Proof.
  apply (isEncrypted_accepts_encrypted ToyCrypto.lib ToyCrypto.secret
                                       (Js.Str "sk-1") 0%nat 80%nat).
  vm_compute. reflexivity.
Defined.

(** X5. A token determines the salt and the nonce it was made with: two calls
    of [encrypt] that return the same token have drawn the same salt and the
    same nonce, so calls that draw different ones return different tokens. *)
Theorem encrypt_token_fixes_salt_and_nonce (L : NodeCrypto)
        (env1 env2 : option string) (text1 text2 : Js.value)
        (g1 g1' g2 g2' : rng L) (tok : string) :
  Encryption.encrypt L env1 text1 g1 = (Return tok, g1') →
  Encryption.encrypt L env2 text2 g2 = (Return tok, g2') →
  (randomBytes L Encryption.SALT_LENGTH g1).1 = (randomBytes L Encryption.SALT_LENGTH g2).1
  ∧ (randomBytes L Encryption.IV_LENGTH (randomBytes L Encryption.SALT_LENGTH g1).2).1
    = (randomBytes L Encryption.IV_LENGTH (randomBytes L Encryption.SALT_LENGTH g2).2).1.
Proof.
  intros (s & secret & salt & h1 & iv & ct & tag & _ & _ & _ & _
          & Hsalt & Hiv & _ & ->)%encrypt_returns_inv
         (s' & secret' & salt' & h2 & iv' & ct' & tag' & _ & _ & _ & _
          & Hsalt' & Hiv' & _ & Heq)%encrypt_returns_inv.
  apply joined_hex_inj in Heq as (-> & -> & _ & _).
  rewrite Hsalt, Hsalt'. cbn [fst snd]. now rewrite Hiv, Hiv'.
Qed.

Lemma encrypt_token_fixes_salt_and_nonce_witness :
  (randomBytes ToyCrypto.lib Encryption.SALT_LENGTH 0%nat).1
  = (randomBytes ToyCrypto.lib Encryption.SALT_LENGTH 256%nat).1
  ∧ (randomBytes ToyCrypto.lib Encryption.IV_LENGTH
       (randomBytes ToyCrypto.lib Encryption.SALT_LENGTH 0%nat).2).1
    = (randomBytes ToyCrypto.lib Encryption.IV_LENGTH
         (randomBytes ToyCrypto.lib Encryption.SALT_LENGTH 256%nat).2).1.
Proof.
  apply (encrypt_token_fixes_salt_and_nonce
           ToyCrypto.lib ToyCrypto.secret ToyCrypto.secret (Js.Str "sk-1") (Js.Str "sk-1")
           0%nat 80%nat 256%nat 336%nat
           (joined ToyCrypto.salt_hex ToyCrypto.iv_hex ToyCrypto.tag_hex ToyCrypto.ct_hex)).
  - vm_compute. reflexivity.
  - vm_compute. reflexivity.
Defined.

(** ** The key validator and the model registry *)

Section ValidatorFacts.

Lemma includes_append (needle pre s : string) :
  Js.includes needle s = true → Js.includes needle (pre +:+ s) = true.
Proof.
  intros H. induction pre as [|c pre IH]; [exact H|].
  rewrite append_cons. cbn [Js.includes]. rewrite IH. apply orb_true_r.
Qed.

(** The markers [validateApiKey] looks for in the message of an error. *)
Lemma marked_invalid (m : string) :
  (∃ marker, In marker ["API_KEY_INVALID"; "invalid"; "401"; "403"]
             ∧ Js.includes marker m = true) →
  (Js.includes "API_KEY_INVALID" m || Js.includes "invalid" m
   || Js.includes "401" m || Js.includes "403" m) = true.
Proof.
  intros (marker & Hin & Hm). cbn [In] in Hin.
  destruct Hin as [<- | [<- | [<- | [<- | []]]]]; rewrite Hm;
    rewrite ?orb_true_r; reflexivity.
Qed.

Lemma missing_key_spec (v : Js.value) :
  ProfileController.missing_key v = false ↔
  ∃ k, v = Js.Str k ∧ Js.blank k = false.
Proof.
  unfold ProfileController.missing_key. split.
  - destruct v as [| |b|k]; cbn; rewrite ?orb_true_r; try discriminate.
    intros H. exists k. split; [reflexivity|].
    now destruct (Js.blank k); rewrite ?orb_true_r in H.
  - intros (k & -> & Hk). cbn. rewrite Hk.
    destruct k; [discriminate Hk | reflexivity].
Qed.

(** The registry has no own property but [gemini] and [grok]. *)
Lemma registry_other (p : string) :
  p ≠ "gemini" → p ≠ "grok" →
  AiHelper.getAvailableModels p
  = if Js.array_includes AiHelper.Object_prototype p
    then AiHelper.Inherited p else AiHelper.Models [].
Proof.
  intros Hg Hk. unfold AiHelper.getAvailableModels, AiHelper.AVAILABLE_MODELS.
  now rewrite lookup_insert_ne, lookup_insert_ne, lookup_empty by congruence.
Qed.

Lemma registry_lookup (p : string) :
  (∃ m ms, AiHelper.getAvailableModels p = AiHelper.Models (m :: ms))
  ↔ p = "gemini" ∨ p = "grok".
Proof.
  split.
  - intros (m & ms & H). destruct (decide (p = "gemini")) as [|Hg]; [now left|].
    destruct (decide (p = "grok")) as [|Hk]; [now right|].
    rewrite (registry_other p Hg Hk) in H.
    destruct (Js.array_includes AiHelper.Object_prototype p); discriminate H.
  - intros [-> | ->]; eexists _, _; reflexivity.
Qed.

End ValidatorFacts.

(** X6. A key that is not a string, or is empty or made of white space only,
    is refused by [validateApiKey] with the message
    ["API key validation failed: API key is required"], whatever the provider
    would answer. *)
Theorem validateApiKey_requires_key (P : ProviderApi) (v : Js.value)
        (provider model : string) :
  ProfileController.missing_key v = true →
  AiHelper.validateApiKey P v provider model
  = Throw "API key validation failed: API key is required".
Proof.
  intros Hv. unfold AiHelper.validateApiKey, AiHelper.validateApiKey_try.
  destruct v as [| |b|k]; try reflexivity.
  unfold ProfileController.missing_key in Hv. cbn in Hv.
  destruct (String.eqb k EmptyString) eqn:Hk; cbn in *; [reflexivity|].
  now rewrite Hv.
Qed.

Lemma validateApiKey_requires_key_witness :
  AiHelper.validateApiKey ToyCrypto.accepting (Js.Str "  ") "grok" "llama-3.1-8b-instant"
  = Throw "API key validation failed: API key is required".
Proof.
  apply (validateApiKey_requires_key ToyCrypto.accepting (Js.Str "  ")).
  reflexivity.
Defined.

(** X7. [validateApiKey] returns, and then returns [true], exactly when the
    key is a string with a character that is not white space and the call of
    the provider succeeds: for [grok] a reply that is [ok], whatever its
    content; for any other provider a reply of [generateContent] with a
    non-empty text. *)
Theorem validateApiKey_returns_iff (P : ProviderApi) (v : Js.value)
        (provider model : string) (b : bool) :
  AiHelper.validateApiKey P v provider model = Return b ↔
  b = true
  ∧ ∃ k, v = Js.Str k ∧ Js.blank k = false
         ∧ if String.eqb provider "grok"
           then ∃ content, groqFetch P k model [("user", "Say OK")] 10 = FetchOk content
           else ∃ text, generateContent P k model
                          ("Say " +:+ AiHelper.dquote +:+ "OK" +:+ AiHelper.dquote)
                        = Return text
                        ∧ text ≠ EmptyString.
Proof.
  unfold AiHelper.validateApiKey, AiHelper.validateApiKey_try, AiHelper.callGroqAPI.
  split.
  - destruct v as [| |c|k]; try (repeat case_match; discriminate).
    destruct (String.eqb k EmptyString) eqn:Hk; cbn [orb];
      [repeat case_match; discriminate|].
    destruct (Js.blank k) eqn:Hblank; [repeat case_match; discriminate|].
    destruct (String.eqb provider "grok").
    + destruct (groqFetch P k model _ 10) as [m|e st|content] eqn:Hfetch; cbn;
        try (repeat case_match; discriminate).
      intros [= <-]. split; [reflexivity|]. exists k. eauto.
    + destruct (generateContent P k model _) as [text|m] eqn:Hgen; cbn;
        [|repeat case_match; discriminate].
      destruct text as [|c text]; cbn; [repeat case_match; discriminate|].
      intros [= <-]. split; [reflexivity|]. exists k.
      split; [reflexivity|]. split; [assumption|].
      eexists. split; [exact Hgen | discriminate].
  - intros (-> & k & -> & Hblank & Hcall).
    assert (String.eqb k EmptyString = false) as ->
        by (destruct k; [discriminate Hblank | reflexivity]).
    rewrite Hblank. cbn [orb].
    destruct (String.eqb provider "grok").
    + destruct Hcall as [content ->]. reflexivity.
    + destruct Hcall as (text & -> & Htext). cbn.
      destruct text; [now contradiction Htext | reflexivity].
Qed.

(** X8. When the error of the provider mentions [API_KEY_INVALID], [invalid],
    [401] or [403], [validateApiKey] reports the key as invalid for the
    provider; this holds for the errors of [generateContent] and, through the
    messages [callGroqAPI] wraps them in, for a failed [fetch] and for a reply
    of Groq that is not [ok]. *)
Theorem validateApiKey_reports_invalid_key (P : ProviderApi) (k provider model e : string) :
  Js.blank k = false →
  (∃ marker, In marker ["API_KEY_INVALID"; "invalid"; "401"; "403"]
             ∧ Js.includes marker e = true) →
  (if String.eqb provider "grok"
   then groqFetch P k model [("user", "Say OK")] 10 = FetchThrows e
        ∨ (∃ statusText, groqFetch P k model [("user", "Say OK")] 10
                         = FetchNotOk (Some e) statusText)
        ∨ groqFetch P k model [("user", "Say OK")] 10 = FetchNotOk None e
   else generateContent P k model ("Say " +:+ AiHelper.dquote +:+ "OK" +:+ AiHelper.dquote)
        = Throw e) →
  AiHelper.validateApiKey P (Js.Str k) provider model
  = Throw ("Invalid " +:+ provider +:+ " API key. Please check your API key.").
Proof.
  intros Hblank Hmarked Hcall.
  assert (He : e ≠ EmptyString).
  { destruct Hmarked as (marker & Hin & Hm). intros ->. cbn [In] in Hin.
    destruct Hin as [<- | [<- | [<- | [<- | []]]]]; discriminate Hm. }
  unfold AiHelper.validateApiKey, AiHelper.validateApiKey_try, AiHelper.callGroqAPI.
  assert (String.eqb k EmptyString = false) as ->
      by (destruct k; [discriminate Hblank | reflexivity]).
  rewrite Hblank. cbn [orb].
  destruct Hmarked as (marker & Hin & Hm).
  destruct (String.eqb provider "grok").
  - destruct Hcall as [-> | [[statusText ->] | ->]]; cbn [Js.bind Js.or_default].
    + rewrite marked_invalid; [reflexivity|].
      exists marker. split; [assumption | now apply includes_append].
    + apply String.eqb_neq in He. rewrite He.
      rewrite marked_invalid; [reflexivity|].
      exists marker. split; [assumption|].
      now apply includes_append, (includes_append _ "Groq API Error: ").
    + rewrite marked_invalid; [reflexivity|].
      exists marker. split; [assumption|].
      now apply includes_append, (includes_append _ "Groq API Error: ").
  - rewrite Hcall. cbn [Js.bind]. rewrite marked_invalid; [reflexivity|].
    exists marker. split; assumption.
Qed.

Lemma validateApiKey_reports_invalid_key_witness :
  AiHelper.validateApiKey ToyCrypto.refusing (Js.Str "bad-key") "gemini" "gemini-2.0-flash"
  = Throw ("Invalid " +:+ "gemini" +:+ " API key. Please check your API key.").
Proof.
  apply (validateApiKey_reports_invalid_key
           ToyCrypto.refusing "bad-key" "gemini" "gemini-2.0-flash"
           "API key not valid. [API_KEY_INVALID]").
  - reflexivity.
  - exists "API_KEY_INVALID". split; [simpl; tauto | vm_compute; reflexivity].
  - reflexivity.
Defined.

(** X9. The configuration [getAIConfig] of [aiHelper.js] returns never has an
    empty key: it carries the key of the user when there is one, and
    otherwise the key of the server, [GEMINI_API_KEY] for the provider
    [gemini] and [GROK_API_KEY] for every other provider; provider and model
    are passed on as given. *)
Theorem getAIConfig_key (defaultGeminiKey defaultGrokKey userApiKey : option string)
        (provider model : string) (c : AiHelper.AIConfig) :
  AiHelper.getAIConfig defaultGeminiKey defaultGrokKey userApiKey provider model = Return c →
  AiHelper.apiKey c ≠ EmptyString
  ∧ AiHelper.provider c = provider ∧ AiHelper.model c = model
  ∧ (present userApiKey → userApiKey = Some (AiHelper.apiKey c))
  ∧ (¬ present userApiKey →
     (if String.eqb provider "gemini" then defaultGeminiKey else defaultGrokKey)
     = Some (AiHelper.apiKey c)).
Proof.
  unfold AiHelper.getAIConfig.
  set (server := if String.eqb provider "gemini" then defaultGeminiKey else defaultGrokKey).
  assert (Hor : ∀ f : option string,
             Js.truthy (Js.of_field f) = true →
             Js.or_default f EmptyString ≠ EmptyString
             ∧ f = Some (Js.or_default f EmptyString)).
  { intros [s|]; cbn; [|discriminate].
    destruct (String.eqb s EmptyString) eqn:Hs; [discriminate|].
    apply String.eqb_neq in Hs. auto. }
  destruct userApiKey as [k|].
  - destruct (String.eqb k EmptyString) eqn:Hk.
    + apply String.eqb_eq in Hk as ->.
      destruct (Js.truthy (Js.of_field server)) eqn:Hserver; [|discriminate].
      cbn [negb]. intros [= <-]. cbn.
      destruct (Hor _ Hserver) as [Hne Heq].
      split; [assumption|]. split; [reflexivity|]. split; [reflexivity|]. split.
      * intros (s & [= <-] & Hs). now contradiction Hs.
      * intros _. exact Heq.
    + cbn [Js.of_field Js.truthy]. rewrite Hk. cbn [negb].
      intros [= <-]. cbn. rewrite Hk. apply String.eqb_neq in Hk.
      split; [assumption|]. split; [reflexivity|]. split; [reflexivity|]. split.
      * intros _. reflexivity.
      * intros Habsent. contradiction Habsent. now exists k.
  - destruct (Js.truthy (Js.of_field server)) eqn:Hserver; [|discriminate].
    cbn [negb]. intros [= <-]. cbn.
    destruct (Hor _ Hserver) as [Hne Heq].
    split; [assumption|]. split; [reflexivity|]. split; [reflexivity|]. split.
    + intros (s & [=] & _).
    + intros _. exact Heq.
Qed.

Lemma getAIConfig_key_witness :
  AiHelper.apiKey (AiHelper.Build_AIConfig "server-grok" "mistral" "m1") ≠ EmptyString
  ∧ AiHelper.provider (AiHelper.Build_AIConfig "server-grok" "mistral" "m1") = "mistral"
  ∧ AiHelper.model (AiHelper.Build_AIConfig "server-grok" "mistral" "m1") = "m1"
  ∧ (present None →
     None = Some (AiHelper.apiKey (AiHelper.Build_AIConfig "server-grok" "mistral" "m1")))
  ∧ (¬ present None →
     (if String.eqb "mistral" "gemini" then Some "server-gemini" else Some "server-grok")
     = Some (AiHelper.apiKey (AiHelper.Build_AIConfig "server-grok" "mistral" "m1"))).
Proof.
  apply (getAIConfig_key (Some "server-gemini") (Some "server-grok") None "mistral" "m1").
  reflexivity.
Defined.

(** X10. The providers [setAIConfig] accepts are exactly the names for which
    [getAvailableModels] returns an array with a model in it.  For every other
    name it returns the empty array, or, for a name every object inherits a
    property of, that property, which is no array. *)
Theorem accepted_providers_have_models (p : string) :
  (Js.array_includes ["gemini"; "grok"] p = true
   ↔ ∃ m ms, AiHelper.getAvailableModels p = AiHelper.Models (m :: ms))
  ∧ (Js.array_includes ["gemini"; "grok"] p = false →
     AiHelper.getAvailableModels p
     = if Js.array_includes AiHelper.Object_prototype p
       then AiHelper.Inherited p else AiHelper.Models [])
  ∧ AiHelper.getAvailableModels "constructor" = AiHelper.Inherited "constructor"
  ∧ AiHelper.getAvailableModels "__proto__" = AiHelper.Inherited "__proto__"
  ∧ AiHelper.getAvailableModels "openai" = AiHelper.Models [].
Proof.
  split; [|split; [|repeat split]].
  - rewrite array_includes_In, registry_lookup. cbn [In]. intuition congruence.
  - intros Hp. apply registry_other; intros ->; discriminate Hp.
Qed.

(** ** The credential manager, continued *)

Section MoreManagerFacts.
Variable L : NodeCrypto.
Variable ENCRYPTION_SECRET : option string.
Variable P : ProviderApi.

(** The three ways a call of [setAIConfig] ends. *)
Lemma setAIConfig_cases db g id body resp db' g' :
  ProfileController.setAIConfig L ENCRYPTION_SECRET P db g id body = (resp, db', g') →
  (status resp = 400 ∧ db' = db ∧ g' = g)
  ∨ (status resp = 500 ∧ db' = db
     ∧ ProfileController.missing_key (ProfileController.apiKey body) = false
     ∧ ((∃ m, Encryption.encrypt L ENCRYPTION_SECRET (ProfileController.apiKey body) g
              = (Throw m, g'))
        ∨ db !! id = None))
  ∨ (∃ p m b tok u,
        match ProfileController.provider body with
        | Js.Undefined => Js.Str "gemini"
        | v => v
        end = Js.Str p
        ∧ In p ["gemini"; "grok"]
        ∧ ProfileController.selectedModel (ProfileController.model body) p = Js.Str m
        ∧ In m (AiHelper.elements (AiHelper.getAvailableModels p))
        ∧ ProfileController.missing_key (ProfileController.apiKey body) = false
        ∧ AiHelper.validateApiKey P (ProfileController.apiKey body) p m = Return b
        ∧ Encryption.encrypt L ENCRYPTION_SECRET (ProfileController.apiKey body) g
          = (Return tok, g')
        ∧ db !! id = Some u
        ∧ db' = <[ id := mkUser (Some tok) (geminiApiKey u) (Some p) (Some m) ]> db
        ∧ resp = mkResponse 200 true (Some "AI configuration saved successfully")
                            (SavedConfig true p m) None).
Proof.
  unfold ProfileController.setAIConfig, ProfileController.bad_request.
  destruct (ProfileController.missing_key _) eqn:Hkey;
    [intros [= <- <- <-]; left; auto|].
  destruct (match ProfileController.provider body with
            | Js.Undefined => Js.Str "gemini" | v => v end) as [| |c|p] eqn:Hprov;
    try (intros [= <- <- <-]; left; now auto).
  destruct (Js.array_includes ["gemini"; "grok"] p) eqn:Hp; cbn [negb];
    [|intros [= <- <- <-]; left; now auto].
  rewrite (accepted_provider_models p Hp).
  destruct (ProfileController.selectedModel _ p) as [| |c|m] eqn:Hsel;
    try (intros [= <- <- <-]; left; now auto).
  destruct (Js.array_includes (AiHelper.elements (AiHelper.getAvailableModels p)) m)
    eqn:Hm; cbn [negb]; [|intros [= <- <- <-]; left; now auto].
  destruct (AiHelper.validateApiKey P _ p m) as [b|e] eqn:Hval;
    [|intros [= <- <- <-]; left; now auto].
  destruct (Encryption.encrypt L ENCRYPTION_SECRET _ g) as [[tok|e] g2] eqn:Henc.
  - destruct (db !! id) as [u|] eqn:Hu; intros [= <- <- <-].
    + right. right. apply array_includes_In in Hp, Hm.
      exists p, m, b, tok, u. repeat split; assumption.
    + right. left. auto.
  - intros [= <- <- <-]. right. left. repeat split. left. now exists e.
Qed.

(** The three ways a call of [setApiKey] ends. *)
Lemma setApiKey_cases db g id body resp db' g' :
  ProfileController.setApiKey L ENCRYPTION_SECRET P db g id body = (resp, db', g') →
  (status resp = 400 ∧ db' = db ∧ g' = g)
  ∨ (status resp = 500 ∧ db' = db)
  ∨ (∃ b tok u,
        ProfileController.missing_key (ProfileController.apiKey body) = false
        ∧ AiHelper.validateApiKey P (ProfileController.apiKey body)
                                  "gemini" "gemini-2.5-flash-lite" = Return b
        ∧ Encryption.encrypt L ENCRYPTION_SECRET (ProfileController.apiKey body) g
          = (Return tok, g')
        ∧ db !! id = Some u
        ∧ db' = <[ id := mkUser (Some tok) (Some tok) (Some "gemini")
                                (Some "gemini-2.5-flash-lite") ]> db
        ∧ status resp = 200).
Proof.
  unfold ProfileController.setApiKey, ProfileController.bad_request.
  destruct (ProfileController.missing_key _) eqn:Hkey;
    [intros [= <- <- <-]; left; auto|].
  destruct (AiHelper.validateApiKey P _ _ _) as [b|e] eqn:Hval;
    [|intros [= <- <- <-]; left; now auto].
  destruct (Encryption.encrypt L ENCRYPTION_SECRET _ g) as [[tok|e] g2] eqn:Henc.
  - destruct (db !! id) as [u|] eqn:Hu; intros [= <- <- <-].
    + right. right. exists b, tok, u. repeat split; assumption.
    + right. left. auto.
  - intros [= <- <- <-]. right. left. auto.
Qed.

Lemma models_fit_insert db id u :
  models_fit db → model_fits u → models_fit (<[ id := u ]> db).
Proof.
  intros Hdb Hu j v. rewrite lookup_insert. case_decide.
  - now intros [= <-].
  - apply Hdb.
Qed.

Lemma model_fits_absent g p m : model_fits (mkUser None g p m).
Proof. intros (s & [=] & _). Qed.

Lemma decryptedKey_current (HL : CryptoLaws L) text g tok g' leg p m :
  Encryption.encrypt L ENCRYPTION_SECRET text g = (Return tok, g') →
  ∃ k, text = Js.Str k
       ∧ ProfileController.decryptedKey L ENCRYPTION_SECRET (mkUser (Some tok) leg p m)
         = Return (Utf8.decode (Utf8.encode k))
       ∧ RecipeController.userApiKey L ENCRYPTION_SECRET (mkUser (Some tok) leg p m)
         = Return (Some (Utf8.decode (Utf8.encode k))).
Proof.
  intros Henc.
  destruct (decrypt_encrypted L HL _ _ _ _ _ Henc) as (k & -> & Hdec).
  exists k. split; [reflexivity|].
  unfold ProfileController.decryptedKey, RecipeController.userApiKey.
  cbn [aiApiKey Js.of_field].
  assert (Js.truthy (Js.Str tok) = true) as ->.
  { apply encrypt_returns_inv in Henc
      as (? & ? & ? & ? & ? & ? & ? & _ & _ & _ & _ & _ & _ & _ & ->).
    cbn. now rewrite joined_nonempty. }
  now rewrite Hdec.
Qed.

End MoreManagerFacts.

(** X11. The four operations that write credentials keep the stored models
    fitting: if for every user with a current secret the stored model is one
    of the models of the stored provider, the same holds after [setAIConfig],
    [setApiKey], [deleteAIConfig] and [deleteApiKey], however they end. *)
Theorem writes_keep_models_fitting
        (L : NodeCrypto) (env : option string) (P : ProviderApi)
        (db : Users) (g : rng L) (id : string) (body : ProfileController.ConfigBody) :
  models_fit db →
  models_fit (ProfileController.setAIConfig L env P db g id body).1.2
  ∧ models_fit (ProfileController.setApiKey L env P db g id body).1.2
  ∧ models_fit (ProfileController.deleteAIConfig db id).2
  ∧ models_fit (ProfileLegacy.deleteApiKey db id).2.
Proof.
  intros Hdb. repeat split.
  - destruct (ProfileController.setAIConfig L env P db g id body)
      as [[resp db'] g'] eqn:Hset.
    apply setAIConfig_cases in Hset
      as [(_ & -> & _) | [(_ & -> & _) | (p & m & b & tok & u & _ & _ & _ & Hm & _ & _
                                          & _ & _ & -> & _)]];
      try exact Hdb.
    apply models_fit_insert; [exact Hdb|]. intros _. now exists p, m.
  - destruct (ProfileController.setApiKey L env P db g id body)
      as [[resp db'] g'] eqn:Hset.
    apply setApiKey_cases in Hset
      as [(_ & -> & _) | [(_ & ->) | (b & tok & u & _ & _ & _ & _ & -> & _)]];
      try exact Hdb.
    apply models_fit_insert; [exact Hdb|]. intros _.
    exists "gemini", "gemini-2.5-flash-lite". repeat split. vm_compute. tauto.
  - unfold ProfileController.deleteAIConfig.
    destruct (db !! id); [|exact Hdb].
    apply models_fit_insert; [exact Hdb | apply model_fits_absent].
  - unfold ProfileLegacy.deleteApiKey.
    destruct (db !! id); [|exact Hdb].
    apply models_fit_insert; [exact Hdb | apply model_fits_absent].
Qed.

Lemma writes_keep_models_fitting_witness :
  models_fit (ProfileController.setAIConfig ToyCrypto.lib ToyCrypto.secret ToyCrypto.accepting
                Scenario.users 0%nat "u1"
                (Scenario.request "sk-1" (Js.Str "grok") Js.Undefined)).1.2
  ∧ models_fit (ProfileController.setApiKey ToyCrypto.lib ToyCrypto.secret ToyCrypto.accepting
                  Scenario.users 0%nat "u1"
                  (Scenario.request "sk-1" (Js.Str "grok") Js.Undefined)).1.2
  ∧ models_fit (ProfileController.deleteAIConfig Scenario.users "u1").2
  ∧ models_fit (ProfileLegacy.deleteApiKey Scenario.users "u1").2.
Proof.
  apply (writes_keep_models_fitting ToyCrypto.lib ToyCrypto.secret ToyCrypto.accepting).
  unfold Scenario.users.
  repeat apply models_fit_insert.
  - intros j v. rewrite lookup_empty. discriminate.
  - intros _. exists "grok", "llama-3.1-8b-instant". repeat split. vm_compute. tauto.
  - intros (s & [=] & _).
  - intros (s & [=] & _).
Defined.

(** X12. A call of [setAIConfig], however it ends, leaves every other user as
    it was, adds no user, and leaves the legacy secret of the user of the
    request as it was. *)
Theorem setAIConfig_frame
        (L : NodeCrypto) (env : option string) (P : ProviderApi)
        (db : Users) (g : rng L) (id : string) (body : ProfileController.ConfigBody) :
  let db' := (ProfileController.setAIConfig L env P db g id body).1.2 in
  (∀ j, j ≠ id → db' !! j = db !! j)
  ∧ dom db' = dom db
  ∧ (∀ u', db' !! id = Some u' →
           ∃ u, db !! id = Some u ∧ geminiApiKey u' = geminiApiKey u).
Proof.
  cbv zeta.
  destruct (ProfileController.setAIConfig L env P db g id body)
    as [[resp db'] g'] eqn:Hset. cbn [fst snd].
  apply setAIConfig_cases in Hset
    as [(_ & -> & _) | [(_ & -> & _) | (p & m & b & tok & u & _ & _ & _ & _ & _ & _
                                        & _ & Hu & -> & _)]];
    try (repeat split; eauto; fail).
  repeat split.
  - intros j Hj. now rewrite lookup_insert_ne.
  - apply dom_insert_lookup_L. now exists u.
  - rewrite lookup_insert_eq. intros u' [= <-]. now exists u.
Qed.

(** X13. With the master secret set, a library that has the laws and the user
    of the request stored, [setAIConfig] never answers 500: it saves and
    answers 200, or it answers 400 and has written nothing and drawn no
    random bytes. *)
Theorem setAIConfig_saves_or_rejects
        (L : NodeCrypto) (HL : CryptoLaws L) (secret : string) (P : ProviderApi)
        (db : Users) (g : rng L) (id : string) (body : ProfileController.ConfigBody)
        (u : User) :
  secret ≠ EmptyString → db !! id = Some u →
  let r := ProfileController.setAIConfig L (Some secret) P db g id body in
  (status r.1.1 = 200 ∧ ∃ tok p m, r.1.2 !! id
                                   = Some (mkUser (Some tok) (geminiApiKey u) (Some p) (Some m)))
  ∨ (status r.1.1 = 400 ∧ r.1.2 = db ∧ r.2 = g).
Proof.
  intros Hsecret Hu. cbv zeta.
  destruct (ProfileController.setAIConfig L (Some secret) P db g id body)
    as [[resp db'] g'] eqn:Hset. cbn [fst snd].
  apply setAIConfig_cases in Hset
    as [H400 | [(_ & _ & Hkey & [[m Henc] | Hnone])
               | (p & m & b & tok & u' & _ & _ & _ & _ & _ & _ & _ & Hu' & -> & ->)]].
  - now right.
  - exfalso. apply missing_key_spec in Hkey as (k & Hk & Hblank).
    assert (Hne : k ≠ EmptyString) by (intros ->; discriminate Hblank).
    destruct (encrypt_returns L HL secret k g Hsecret Hne)
      as (salt & g1 & iv & g2 & ct & tag & _ & _ & _ & _ & Hret).
    rewrite Hk, Hret in Henc. discriminate.
  - congruence.
  - left. split; [reflexivity|]. rewrite Hu in Hu'. injection Hu' as <-.
    exists tok, p, m. now rewrite lookup_insert_eq.
Qed.

Lemma setAIConfig_saves_or_rejects_witness :
  let r := ProfileController.setAIConfig ToyCrypto.lib (Some "master-secret")
             ToyCrypto.accepting Scenario.users 0%nat "u2"
             (Scenario.request "sk-1" Js.Undefined Js.Undefined) in
  (status r.1.1 = 200
   ∧ ∃ tok p m, r.1.2 !! "u2"
                = Some (mkUser (Some tok) (geminiApiKey Scenario.legacy_only)
                               (Some p) (Some m)))
  ∨ (status r.1.1 = 400 ∧ r.1.2 = Scenario.users ∧ r.2 = 0%nat).
Proof.
  apply (setAIConfig_saves_or_rejects ToyCrypto.lib toy_laws "master-secret"
                                      ToyCrypto.accepting Scenario.users 0%nat "u2").
  - discriminate.
  - vm_compute. reflexivity.
Defined.

(** X14. What [setAIConfig] has saved is what is used afterwards.  After a
    call that answers 200, the key the controllers decrypt for the user is
    what the UTF-8 encoding of the key of the request decodes to, whatever
    legacy secret the user has, and this is the key of the request when it
    has no lone surrogate.  [validateStoredAIConfig] asks the provider again,
    about that key and with the provider and the model the call has reported,
    and answers 200 or 400 as the provider answers then; [getAIConfig]
    reports that provider and model. *)
Theorem setAIConfig_then_use
        (L : NodeCrypto) (HL : CryptoLaws L) (env : option string)
        (P P' : ProviderApi)
        (db db' : Users) (g g' : rng L) (id : string)
        (body : ProfileController.ConfigBody) (resp : Response) :
  ProfileController.setAIConfig L env P db g id body = (resp, db', g') →
  status resp = 200 →
  ∃ k p m u',
    ProfileController.apiKey body = Js.Str k
    ∧ data resp = SavedConfig true p m
    ∧ db' !! id = Some u'
    ∧ ProfileController.decryptedKey L env u' = Return (Utf8.decode (Utf8.encode k))
    ∧ RecipeController.userApiKey L env u' = Return (Some (Utf8.decode (Utf8.encode k)))
    ∧ (Utf8.well_formed k = true →
       ProfileController.decryptedKey L env u' = Return k
       ∧ RecipeController.userApiKey L env u' = Return (Some k))
    ∧ ProfileController.validateStoredAIConfig L env P' db' id
      = match AiHelper.validateApiKey P' (Js.Str (Utf8.decode (Utf8.encode k))) p m with
        | Return _ =>
            mkResponse 200 true (Some "AI configuration is valid")
                       (ValidConfig true p m) None
        | Throw e =>
            mkResponse 400 false (Some "AI configuration validation failed")
                       NoData (Some e)
        end
    ∧ ProfileController.getAIConfig db' id
      = mkResponse 200 true None
          (ConfigStatus true p m (AiHelper.elements (AiHelper.getAvailableModels "gemini"))
                        (AiHelper.elements (AiHelper.getAvailableModels "grok"))) None.
Proof.
  intros Hset Hstatus.
  apply setAIConfig_cases in Hset
    as [(H400 & _) | [(H500 & _) | (p & m & b & tok & u & _ & Hp & _ & Hm & _ & Hval
                                    & Henc & Hu & -> & ->)]];
    try congruence.
  destruct (decryptedKey_current L env HL _ _ _ _ (geminiApiKey u) (Some p) (Some m) Henc)
    as (k & Hk & Hdec & Hkey).
  assert (Hp' : p ≠ EmptyString) by (cbn in Hp; intuition (subst; discriminate)).
  assert (Hm' : m ≠ EmptyString).
  { intros ->. cbn in Hp. destruct Hp as [<- | [<- | []]]; vm_compute in Hm; intuition discriminate. }
  assert (Htok : Js.truthy (Js.Str tok) = true).
  { apply encrypt_returns_inv in Henc
      as (? & ? & ? & ? & ? & ? & ? & _ & _ & _ & _ & _ & _ & _ & ->).
    cbn. now rewrite joined_nonempty. }
  exists k, p, m, (mkUser (Some tok) (geminiApiKey u) (Some p) (Some m)).
  rewrite lookup_insert_eq.
  split; [exact Hk|]. split; [reflexivity|]. split; [reflexivity|].
  split; [exact Hdec|]. split; [exact Hkey|]. split; [|split].
  - intros Hwf. rewrite Hdec, Hkey, (decode_encode _ Hwf). split; reflexivity.
  - unfold ProfileController.validateStoredAIConfig.
    rewrite lookup_insert_eq. cbn [aiApiKey geminiApiKey aiProvider aiModel Js.of_field].
    rewrite Htok. cbn [negb andb]. rewrite Hdec.
    rewrite (or_default_set _ _ Hp'), (or_default_set _ _ Hm').
    now destruct (AiHelper.validateApiKey P' _ p m).
  - unfold ProfileController.getAIConfig.
    rewrite lookup_insert_eq. cbn [aiApiKey geminiApiKey aiProvider aiModel Js.of_field].
    rewrite Htok. cbn [orb].
    now rewrite (or_default_set _ _ Hp'), (or_default_set _ _ Hm').
Qed.

Lemma setAIConfig_then_use_witness :
  let db' := <[ "u2" := mkUser (Some (joined ToyCrypto.salt_hex ToyCrypto.iv_hex
                                             ToyCrypto.tag_hex ToyCrypto.ct_hex))
                               (geminiApiKey Scenario.legacy_only)
                               (Some "grok") (Some "llama-3.3-70b-versatile") ]>
               Scenario.users in
  ∃ k p m u',
    Js.Str "sk-1" = Js.Str k
    ∧ SavedConfig true "grok" "llama-3.3-70b-versatile" = SavedConfig true p m
    ∧ db' !! "u2" = Some u'
    ∧ ProfileController.decryptedKey ToyCrypto.lib ToyCrypto.secret u'
      = Return (Utf8.decode (Utf8.encode k))
    ∧ RecipeController.userApiKey ToyCrypto.lib ToyCrypto.secret u'
      = Return (Some (Utf8.decode (Utf8.encode k)))
    ∧ (Utf8.well_formed k = true →
       ProfileController.decryptedKey ToyCrypto.lib ToyCrypto.secret u' = Return k
       ∧ RecipeController.userApiKey ToyCrypto.lib ToyCrypto.secret u' = Return (Some k))
    ∧ ProfileController.validateStoredAIConfig ToyCrypto.lib ToyCrypto.secret
        ToyCrypto.refusing db' "u2"
      = match AiHelper.validateApiKey ToyCrypto.refusing
                (Js.Str (Utf8.decode (Utf8.encode k))) p m with
        | Return _ =>
            mkResponse 200 true (Some "AI configuration is valid")
                       (ValidConfig true p m) None
        | Throw e =>
            mkResponse 400 false (Some "AI configuration validation failed")
                       NoData (Some e)
        end
    ∧ ProfileController.getAIConfig db' "u2"
      = mkResponse 200 true None
          (ConfigStatus true p m (AiHelper.elements (AiHelper.getAvailableModels "gemini"))
                        (AiHelper.elements (AiHelper.getAvailableModels "grok"))) None.
Proof.
  cbv zeta.
  apply (setAIConfig_then_use
           ToyCrypto.lib toy_laws ToyCrypto.secret ToyCrypto.accepting ToyCrypto.refusing
           Scenario.users _ 0%nat 80%nat "u2"
           (Scenario.request "sk-1" (Js.Str "grok") Js.Undefined)
           (mkResponse 200 true (Some "AI configuration saved successfully")
                       (SavedConfig true "grok" "llama-3.3-70b-versatile") None)).
  - vm_compute. reflexivity.
  - reflexivity.
Defined.

(** X15. After a call of the legacy [setApiKey] that answers 200, the current
    and the legacy secret both decrypt to what the UTF-8 encoding of the key
    of the request decodes to, the key itself when it has no lone surrogate;
    the legacy [validateStoredApiKey] asks the provider again about that key,
    for [gemini] and [gemini-2.5-flash-lite], and answers 200 or 400 as the
    provider answers then. *)
Theorem setApiKey_then_use
        (L : NodeCrypto) (HL : CryptoLaws L) (env : option string)
        (P P' : ProviderApi)
        (db db' : Users) (g g' : rng L) (id : string)
        (body : ProfileController.ConfigBody) (resp : Response) :
  ProfileController.setApiKey L env P db g id body = (resp, db', g') →
  status resp = 200 →
  ∃ k u',
    ProfileController.apiKey body = Js.Str k
    ∧ db' !! id = Some u'
    ∧ Encryption.decrypt L env (Js.of_field (aiApiKey u'))
      = Return (Utf8.decode (Utf8.encode k))
    ∧ Encryption.decrypt L env (Js.of_field (geminiApiKey u'))
      = Return (Utf8.decode (Utf8.encode k))
    ∧ (Utf8.well_formed k = true →
       Encryption.decrypt L env (Js.of_field (aiApiKey u')) = Return k
       ∧ Encryption.decrypt L env (Js.of_field (geminiApiKey u')) = Return k)
    ∧ ProfileLegacy.validateStoredApiKey L env P' db' id
      = match AiHelper.validateApiKey P' (Js.Str (Utf8.decode (Utf8.encode k)))
                                      "gemini" "gemini-2.5-flash-lite" with
        | Return _ => mkReply 200 true (Some "API key is valid") (Some true) None
        | Throw e => mkReply 400 false (Some "API key validation failed") None (Some e)
        end.
Proof.
  intros Hset Hstatus.
  apply setApiKey_cases in Hset
    as [(H400 & _) | [(H500 & _) | (b & tok & u & _ & Hval & Henc & Hu & -> & _)]];
    try congruence.
  destruct (decryptedKey_current L env HL _ _ _ _ (Some tok) (Some "gemini")
                                 (Some "gemini-2.5-flash-lite") Henc)
    as (k & Hk & Hdec & _).
  destruct (decrypt_encrypted L HL _ _ _ _ _ Henc) as (k' & Hk' & Hdec').
  assert (k' = k) as -> by congruence.
  exists k, (mkUser (Some tok) (Some tok) (Some "gemini") (Some "gemini-2.5-flash-lite")).
  rewrite lookup_insert_eq. cbn [aiApiKey geminiApiKey Js.of_field].
  split; [exact Hk|]. split; [reflexivity|].
  split; [exact Hdec'|]. split; [exact Hdec'|]. split.
  - intros Hwf. rewrite Hdec', (decode_encode _ Hwf). split; reflexivity.
  - unfold ProfileLegacy.validateStoredApiKey. rewrite lookup_insert_eq, Hdec.
    cbn [aiApiKey geminiApiKey aiProvider aiModel Js.of_field].
    assert (Js.truthy (Js.Str tok) = true) as ->.
    { apply encrypt_returns_inv in Henc
        as (? & ? & ? & ? & ? & ? & ? & _ & _ & _ & _ & _ & _ & _ & ->).
      cbn. now rewrite joined_nonempty. }
    cbn [negb andb Js.or_default String.eqb Ascii.eqb Bool.eqb].
    now destruct (AiHelper.validateApiKey P' _ _ _).
Qed.

Lemma setApiKey_then_use_witness :
  let db' := <[ "u1" := mkUser (Some (joined ToyCrypto.salt_hex ToyCrypto.iv_hex
                                             ToyCrypto.tag_hex ToyCrypto.ct_hex))
                               (Some (joined ToyCrypto.salt_hex ToyCrypto.iv_hex
                                             ToyCrypto.tag_hex ToyCrypto.ct_hex))
                               (Some "gemini") (Some "gemini-2.5-flash-lite") ]>
               Scenario.users in
  ∃ k u',
    Js.Str "sk-1" = Js.Str k
    ∧ db' !! "u1" = Some u'
    ∧ Encryption.decrypt ToyCrypto.lib ToyCrypto.secret (Js.of_field (aiApiKey u'))
      = Return (Utf8.decode (Utf8.encode k))
    ∧ Encryption.decrypt ToyCrypto.lib ToyCrypto.secret (Js.of_field (geminiApiKey u'))
      = Return (Utf8.decode (Utf8.encode k))
    ∧ (Utf8.well_formed k = true →
       Encryption.decrypt ToyCrypto.lib ToyCrypto.secret (Js.of_field (aiApiKey u'))
       = Return k
       ∧ Encryption.decrypt ToyCrypto.lib ToyCrypto.secret (Js.of_field (geminiApiKey u'))
         = Return k)
    ∧ ProfileLegacy.validateStoredApiKey ToyCrypto.lib ToyCrypto.secret ToyCrypto.refusing
        db' "u1"
      = match AiHelper.validateApiKey ToyCrypto.refusing
                (Js.Str (Utf8.decode (Utf8.encode k)))
                "gemini" "gemini-2.5-flash-lite" with
        | Return _ => mkReply 200 true (Some "API key is valid") (Some true) None
        | Throw e => mkReply 400 false (Some "API key validation failed") None (Some e)
        end.
Proof.
  cbv zeta.
  apply (setApiKey_then_use
           ToyCrypto.lib toy_laws ToyCrypto.secret ToyCrypto.accepting ToyCrypto.refusing
           Scenario.users _ 0%nat 80%nat "u1"
           (Scenario.request "sk-1" Js.Undefined Js.Undefined)
           (mkResponse 200 true (Some "API key saved successfully") (HasApiKey true) None)).
  - vm_compute. reflexivity.
  - reflexivity.
Defined.

(** X16. For a stored user the legacy [deleteApiKey] answers 200 and clears
    the current and the legacy secret but, unlike [deleteAIConfig], does not
    reset the provider and the model: what is stored of them is kept, and
    where the stored document has none the default of the schema is stored,
    so that [getAIConfig] reports the provider and the model it reported
    before.  The other users are not touched, deleting again changes nothing,
    and [getApiKeyStatus] then reports no key. *)
Theorem deleteApiKey_clears_secrets_only (db : Users) (id : string) (u : User) :
  db !! id = Some u →
  let r := ProfileLegacy.deleteApiKey db id in
  r.1 = mkResponse 200 true (Some "API key removed successfully") (HasApiKey false) None
  ∧ r.2 !! id = Some (mkUser None None
                             (Some (default "gemini" (aiProvider u)))
                             (Some (default "gemini-2.5-flash-lite" (aiModel u))))
  ∧ (∀ p, aiProvider u = Some p → aiProvider <$> r.2 !! id = Some (Some p))
  ∧ (∀ m, aiModel u = Some m → aiModel <$> r.2 !! id = Some (Some m))
  ∧ data (ProfileController.getAIConfig r.2 id)
    = ConfigStatus false (Js.or_default (aiProvider u) "gemini")
                   (Js.or_default (aiModel u) "gemini-2.5-flash-lite")
                   (AiHelper.elements (AiHelper.getAvailableModels "gemini"))
                   (AiHelper.elements (AiHelper.getAvailableModels "grok"))
  ∧ (∀ j, j ≠ id → r.2 !! j = db !! j)
  ∧ ProfileLegacy.deleteApiKey r.2 id = r
  ∧ ProfileLegacy.getApiKeyStatus r.2 id = mkResponse 200 true None (HasApiKey false) None.
Proof.
  intros Hu. cbv zeta.
  unfold ProfileLegacy.deleteApiKey, ProfileLegacy.getApiKeyStatus,
    ProfileController.getAIConfig, with_defaults.
  rewrite Hu. cbn [fst snd aiProvider aiModel aiApiKey geminiApiKey].
  rewrite !lookup_insert_eq. cbn [aiProvider aiModel aiApiKey geminiApiKey].
  split; [reflexivity|]. split; [reflexivity|].
  split; [now intros p ->|]. split; [now intros m ->|].
  split; [|split; [|split]].
  - destruct (with_defaults_read u) as (_ & _ & Hp & Hm).
    cbn [with_defaults aiProvider aiModel] in Hp, Hm. now rewrite Hp, Hm.
  - intros j Hj. now rewrite lookup_insert_ne.
  - now rewrite insert_insert_eq.
  - reflexivity.
Qed.

Lemma deleteApiKey_clears_secrets_only_witness :
  let r := ProfileLegacy.deleteApiKey Scenario.users "u2" in
  r.1 = mkResponse 200 true (Some "API key removed successfully") (HasApiKey false) None
  ∧ r.2 !! "u2" = Some (mkUser None None (Some "gemini") (Some "gemini-2.5-flash-lite"))
  ∧ (∀ p, aiProvider Scenario.legacy_only = Some p →
          aiProvider <$> r.2 !! "u2" = Some (Some p))
  ∧ (∀ m, aiModel Scenario.legacy_only = Some m →
          aiModel <$> r.2 !! "u2" = Some (Some m))
  ∧ data (ProfileController.getAIConfig r.2 "u2")
    = ConfigStatus false "gemini" "gemini-2.5-flash-lite"
                   (AiHelper.elements (AiHelper.getAvailableModels "gemini"))
                   (AiHelper.elements (AiHelper.getAvailableModels "grok"))
  ∧ (∀ j, j ≠ "u2" → r.2 !! j = Scenario.users !! j)
  ∧ ProfileLegacy.deleteApiKey r.2 "u2" = r
  ∧ ProfileLegacy.getApiKeyStatus r.2 "u2"
    = mkResponse 200 true None (HasApiKey false) None.
Proof.
  apply (deleteApiKey_clears_secrets_only Scenario.users "u2" Scenario.legacy_only).
  vm_compute. reflexivity.
Defined.

(** X17. The endpoints agree on whether a stored user has a key: [hasApiKey]
    of [getApiKeyStatus] is that of [getAIConfig]; it is [false] exactly when
    [validateStoredAIConfig] answers 404, exactly when the legacy
    [validateStoredApiKey] answers 404, and exactly when the recipe handlers
    load no key for the user. *)
Theorem endpoints_agree_on_key
        (L : NodeCrypto) (env : option string) (P : ProviderApi)
        (db : Users) (id : string) (u : User) :
  db !! id = Some u →
  ∃ has p m,
    ProfileController.getAIConfig db id
    = mkResponse 200 true None
        (ConfigStatus has p m (AiHelper.elements (AiHelper.getAvailableModels "gemini"))
                      (AiHelper.elements (AiHelper.getAvailableModels "grok"))) None
    ∧ ProfileLegacy.getApiKeyStatus db id = mkResponse 200 true None (HasApiKey has) None
    ∧ (has = false ↔ status (ProfileController.validateStoredAIConfig L env P db id) = 404)
    ∧ (has = false ↔ reply_status (ProfileLegacy.validateStoredApiKey L env P db id) = 404)
    ∧ (has = false ↔ RecipeController.userApiKey L env u = Return None).
Proof.
  intros Hu.
  unfold ProfileController.getAIConfig, ProfileLegacy.getApiKeyStatus,
    ProfileController.validateStoredAIConfig, ProfileLegacy.validateStoredApiKey,
    RecipeController.userApiKey, ProfileController.decryptedKey.
  rewrite Hu. eexists _, _, _. split; [reflexivity|]. split; [reflexivity|].
  destruct (Js.truthy (Js.of_field (aiApiKey u)));
    destruct (Js.truthy (Js.of_field (geminiApiKey u))); cbn [orb negb andb];
    repeat split; try discriminate; try reflexivity;
    intros H; exfalso; revert H;
    repeat match goal with
           | |- context [Encryption.decrypt ?a ?b ?c] =>
               destruct (Encryption.decrypt a b c)
           | |- context [AiHelper.validateApiKey ?a ?b ?c ?d] =>
               destruct (AiHelper.validateApiKey a b c d)
           end; cbn; discriminate.
Qed.

Lemma endpoints_agree_on_key_witness :
  ∃ has p m,
    ProfileController.getAIConfig Scenario.users "u1"
    = mkResponse 200 true None
        (ConfigStatus has p m (AiHelper.elements (AiHelper.getAvailableModels "gemini"))
                      (AiHelper.elements (AiHelper.getAvailableModels "grok"))) None
    ∧ ProfileLegacy.getApiKeyStatus Scenario.users "u1"
      = mkResponse 200 true None (HasApiKey has) None
    ∧ (has = false ↔
       status (ProfileController.validateStoredAIConfig
                 ToyCrypto.lib ToyCrypto.secret ToyCrypto.accepting Scenario.users "u1")
       = 404)
    ∧ (has = false ↔
       reply_status (ProfileLegacy.validateStoredApiKey
                       ToyCrypto.lib ToyCrypto.secret ToyCrypto.accepting Scenario.users "u1")
       = 404)
    ∧ (has = false ↔
       RecipeController.userApiKey ToyCrypto.lib ToyCrypto.secret Scenario.fresh
       = Return None).
Proof.
  apply (endpoints_agree_on_key ToyCrypto.lib ToyCrypto.secret ToyCrypto.accepting
                                Scenario.users "u1" Scenario.fresh).
  vm_compute. reflexivity.
Defined.

(** X18. The current secret is never passed over: when it is present and
    does not decrypt, [validateStoredAIConfig] and [validateStoredApiKey]
    answer 400 with the error ["Failed to decrypt data"], whatever the legacy
    secret is and although it may decrypt; the provider is not asked. *)
Theorem corrupt_current_secret_is_not_passed_over
        (L : NodeCrypto) (env : option string) (P : ProviderApi)
        (db : Users) (id : string) (u : User) (m : string) :
  db !! id = Some u →
  present (aiApiKey u) →
  Encryption.decrypt L env (Js.of_field (aiApiKey u)) = Throw m →
  ProfileController.validateStoredAIConfig L env P db id
  = mkResponse 400 false (Some "AI configuration validation failed") NoData
               (Some "Failed to decrypt data")
  ∧ ProfileLegacy.validateStoredApiKey L env P db id
    = mkReply 400 false (Some "API key validation failed") None
              (Some "Failed to decrypt data")
  ∧ RecipeController.userApiKey L env u = Throw "Failed to decrypt data".
Proof.
  intros Hu Hcur%truthy_present Hdec.
  pose proof (decrypt_throws_generic L _ _ _ Hdec) as ->.
  unfold ProfileController.validateStoredAIConfig, ProfileLegacy.validateStoredApiKey,
    ProfileController.decryptedKey, RecipeController.userApiKey.
  rewrite Hu, Hcur, Hdec. cbn [negb andb Js.bind]. repeat split.
Qed.

Lemma corrupt_current_secret_is_not_passed_over_witness :
  let u := mkUser (Some "abc") (geminiApiKey Scenario.legacy_only) None None in
  ProfileController.validateStoredAIConfig ToyCrypto.lib ToyCrypto.secret ToyCrypto.accepting
    (<[ "u2" := u ]> Scenario.users) "u2"
  = mkResponse 400 false (Some "AI configuration validation failed") NoData
               (Some "Failed to decrypt data")
  ∧ ProfileLegacy.validateStoredApiKey ToyCrypto.lib ToyCrypto.secret ToyCrypto.accepting
      (<[ "u2" := u ]> Scenario.users) "u2"
    = mkReply 400 false (Some "API key validation failed") None
              (Some "Failed to decrypt data")
  ∧ RecipeController.userApiKey ToyCrypto.lib ToyCrypto.secret u
    = Throw "Failed to decrypt data".
Proof.
  cbv zeta.
  apply (corrupt_current_secret_is_not_passed_over
           ToyCrypto.lib ToyCrypto.secret ToyCrypto.accepting
           (<[ "u2" := mkUser (Some "abc") (geminiApiKey Scenario.legacy_only) None None ]>
              Scenario.users)
           "u2" (mkUser (Some "abc") (geminiApiKey Scenario.legacy_only) None None)
           "Failed to decrypt data").
  - vm_compute. reflexivity.
  - exists "abc". split; [reflexivity | discriminate].
  - vm_compute. reflexivity.
Defined.

(** X19. The legacy [validateStoredApiKey] and [validateStoredAIConfig]
    answer alike: the same status, the same [success] and the same error. *)
Theorem validate_endpoints_agree
        (L : NodeCrypto) (env : option string) (P : ProviderApi)
        (db : Users) (id : string) :
  reply_status (ProfileLegacy.validateStoredApiKey L env P db id)
  = status (ProfileController.validateStoredAIConfig L env P db id)
  ∧ reply_success (ProfileLegacy.validateStoredApiKey L env P db id)
    = success (ProfileController.validateStoredAIConfig L env P db id)
  ∧ reply_error (ProfileLegacy.validateStoredApiKey L env P db id)
    = error (ProfileController.validateStoredAIConfig L env P db id).
Proof.
  unfold ProfileLegacy.validateStoredApiKey, ProfileController.validateStoredAIConfig.
  repeat case_match; repeat split.
Qed.

(** ** The recipe requests *)

Section RecipeFacts.
Variable L : NodeCrypto.
Variable ENCRYPTION_SECRET : option string.
Variables defaultGeminiKey defaultGrokKey : option string.
Variable Recipe : Type.
Variable answer : list string -> Js.value -> AiHelper.AIConfig -> nat -> completion Recipe.

Lemma generateRecipe_configured ing mode key p m c i :
  AiHelper.getAIConfig defaultGeminiKey defaultGrokKey key p m = Return c →
  RecipeEndpoints.generateRecipe defaultGeminiKey defaultGrokKey Recipe answer
    ing mode key p m i
  = match answer ing mode c i with
    | Return r => Return r
    | Throw e => Throw ("Failed to generate recipe: " +:+ e)
    end.
Proof. intros Hc. unfold RecipeEndpoints.generateRecipe. now rewrite Hc. Qed.

Lemma generate_from_returns ing mode key p m c (f : nat → Recipe) :
  AiHelper.getAIConfig defaultGeminiKey defaultGrokKey key p m = Return c →
  ∀ todo i acc,
    (∀ j, i ≤ j < i + todo → answer ing mode c j = Return (f j)) →
    RecipeEndpoints.generate_from defaultGeminiKey defaultGrokKey Recipe answer
      ing mode key p m todo i acc
    = Return (acc ++ map f (seq i todo)).
Proof.
  intros Hc. induction todo as [|todo IH]; intros i acc Hall.
  - cbn. now rewrite app_nil_r.
  - cbn [RecipeEndpoints.generate_from].
    rewrite (generateRecipe_configured _ _ _ _ _ _ _ Hc), (Hall i) by lia.
    rewrite IH by (intros j Hj; apply Hall; lia).
    cbn [seq map]. now rewrite <- app_assoc.
Qed.

Lemma generate_from_throws ing mode key p m c e :
  AiHelper.getAIConfig defaultGeminiKey defaultGrokKey key p m = Return c →
  ∀ todo i acc k,
    i ≤ k < i + todo →
    (∀ j, i ≤ j < k → ∃ r, answer ing mode c j = Return r) →
    answer ing mode c k = Throw e →
    RecipeEndpoints.generate_from defaultGeminiKey defaultGrokKey Recipe answer
      ing mode key p m todo i acc
    = Throw ("Failed to generate recipe: " +:+ e).
Proof.
  intros Hc. induction todo as [|todo IH]; intros i acc k Hk Hbefore Hthrow; [lia|].
  cbn [RecipeEndpoints.generate_from].
  rewrite (generateRecipe_configured _ _ _ _ _ _ _ Hc).
  destruct (decide (k = i)) as [->|Hne].
  - now rewrite Hthrow.
  - destruct (Hbefore i) as [r ->]; [lia|].
    apply (IH (S i) _ k); [lia | | exact Hthrow].
    intros j Hj. apply Hbefore. lia.
Qed.

Lemma generate_from_length ing mode key p m :
  ∀ todo i acc recipes,
    RecipeEndpoints.generate_from defaultGeminiKey defaultGrokKey Recipe answer
      ing mode key p m todo i acc = Return recipes →
    length recipes = length acc + todo.
Proof.
  induction todo as [|todo IH]; intros i acc recipes.
  - cbn. intros [= <-]. lia.
  - cbn [RecipeEndpoints.generate_from].
    destruct (RecipeEndpoints.generateRecipe _ _ _ _ _ _ _ _ _ _) as [r|e];
      [|discriminate].
    intros H%IH. rewrite length_app in H. cbn in H. lia.
Qed.

End RecipeFacts.

Section CountFacts.

Lemma recipeCount_bounds (parsed : option Z) :
  (1 <= RecipeEndpoints.recipeCount parsed <= 5)%Z.
Proof. unfold RecipeEndpoints.recipeCount. lia. Qed.

End CountFacts.

(** X20. [generateMultipleRecipes] gives all the recipes or none.  With a
    usable key: when each of the [count] calls answers, the result is the
    answers in the order of the calls; when a call fails after the ones
    before it have answered, the result is the error of that call, prefixed
    by [generateRecipe], whatever the later calls would have answered. *)
Theorem generateMultipleRecipes_all_or_nothing
        (defaultGeminiKey defaultGrokKey : option string) (Recipe : Type)
        (answer : list string -> Js.value -> AiHelper.AIConfig -> nat -> completion Recipe)
        (ing : list string) (mode : Js.value) (key : option string) (p m : string)
        (c : AiHelper.AIConfig) (count : nat) :
  AiHelper.getAIConfig defaultGeminiKey defaultGrokKey key p m = Return c →
  (∀ f : nat → Recipe,
      (∀ j, j < count → answer ing mode c j = Return (f j)) →
      RecipeEndpoints.generateMultipleRecipes defaultGeminiKey defaultGrokKey Recipe answer
        ing mode count key p m
      = Return (map f (seq 0 count)))
  ∧ (∀ k e,
        k < count →
        (∀ j, j < k → ∃ r, answer ing mode c j = Return r) →
        answer ing mode c k = Throw e →
        RecipeEndpoints.generateMultipleRecipes defaultGeminiKey defaultGrokKey Recipe answer
          ing mode count key p m
        = Throw ("Failed to generate recipe: " +:+ e)).
Proof.
  intros Hc. unfold RecipeEndpoints.generateMultipleRecipes. split.
  - intros f Hall.
    rewrite (generate_from_returns _ _ _ _ _ _ _ _ _ c f Hc); [reflexivity|].
    intros j Hj. apply Hall. lia.
  - intros k e Hk Hbefore Hthrow.
    apply (generate_from_throws _ _ _ _ _ _ _ _ _ c e Hc count 0 [] k);
      [lia | | exact Hthrow].
    intros j Hj. apply Hbefore. lia.
Qed.

Lemma generateMultipleRecipes_all_or_nothing_witness :
  RecipeEndpoints.generateMultipleRecipes None None string Scenario_answer
    ["rice"] (Js.Str "cook_now") 2 (Some "sk-1") "grok" "llama-3.1-8b-instant"
  = Return ["sk-1/0"; "sk-1/1"]
  ∧ RecipeEndpoints.generateMultipleRecipes None None string Scenario_answer
      ["rice"] (Js.Str "cook_now") 5 (Some "sk-1") "grok" "llama-3.1-8b-instant"
    = Throw ("Failed to generate recipe: " +:+ "quota exceeded").
Proof.
  destruct (generateMultipleRecipes_all_or_nothing
              None None string Scenario_answer ["rice"] (Js.Str "cook_now")
              (Some "sk-1") "grok" "llama-3.1-8b-instant"
              (AiHelper.Build_AIConfig "sk-1" "grok" "llama-3.1-8b-instant") 2 eq_refl)
    as [Hall _].
  destruct (generateMultipleRecipes_all_or_nothing
              None None string Scenario_answer ["rice"] (Js.Str "cook_now")
              (Some "sk-1") "grok" "llama-3.1-8b-instant"
              (AiHelper.Build_AIConfig "sk-1" "grok" "llama-3.1-8b-instant") 5 eq_refl)
    as [_ Hfail].
  split.
  - rewrite (Hall (λ j, "sk-1/" +:+ pretty j)); [vm_compute; reflexivity|].
    intros [|[|j]] Hj; [reflexivity | reflexivity | lia].
  - apply (Hfail 2 "quota exceeded").
    + lia.
    + intros [|[|j]] Hj; [eexists; reflexivity | eexists; reflexivity | lia].
    + reflexivity.
Defined.

(** X21. A reply 200 of [generateRecipes] carries between one and five
    recipes: as many as [parseInt(count)] says when that is between 1 and 5,
    three when it is [NaN] or 0, one when it is negative and five when it is
    more than five; and the message names that number. *)
Theorem generateRecipes_count
        (L : NodeCrypto) (env defaultGeminiKey defaultGrokKey : option string)
        (Recipe : Type)
        (answer : list string -> Js.value -> AiHelper.AIConfig -> nat -> completion Recipe)
        (db : Users) (id : string) (body : RecipeEndpoints.RecipeBody) :
  reply_status (RecipeEndpoints.generateRecipes L env defaultGeminiKey defaultGrokKey
                  Recipe answer db id body) = 200 →
  ∃ recipes mode,
    reply_data (RecipeEndpoints.generateRecipes L env defaultGeminiKey defaultGrokKey
                  Recipe answer db id body) = Some (recipes, mode)
    ∧ reply_message (RecipeEndpoints.generateRecipes L env defaultGeminiKey defaultGrokKey
                       Recipe answer db id body)
      = Some ("Generated " +:+ pretty (length recipes) +:+ " recipes")
    ∧ 1 ≤ length recipes ≤ 5
    ∧ Z.of_nat (length recipes)
      = match RecipeEndpoints.parsedCount body with
        | None => 3
        | Some n => if (n =? 0) then 3 else if (n <? 1) then 1 else if (5 <? n) then 5 else n
        end%Z.
Proof.
  unfold RecipeEndpoints.generateRecipes, RecipeEndpoints.generateMultipleRecipes.
  destruct (RecipeEndpoints.ingredients body) as [[|item items]|]; try discriminate.
  destruct (match RecipeEndpoints.mode body with
            | Js.Undefined => Js.Str "cook_now" | v => v end) as [| |c|mode];
    try discriminate.
  destruct (negb _); [discriminate|].
  destruct (db !! id) as [u|]; [|discriminate].
  destruct (RecipeController.userApiKey L env u) as [key|e]; [|discriminate].
  destruct (RecipeEndpoints.generate_from _ _ _ _ _ _ _ _ _ _ _ _) as [recipes|e] eqn:Hgen;
    [|discriminate].
  intros _. apply generate_from_length in Hgen. cbn [length] in Hgen.
  pose proof (recipeCount_bounds (RecipeEndpoints.parsedCount body)) as Hb.
  exists recipes, mode. cbn [reply_data reply_message].
  split; [reflexivity|]. split; [reflexivity|]. split; [lia|].
  rewrite Hgen. unfold RecipeEndpoints.recipeCount in *.
  destruct (RecipeEndpoints.parsedCount body) as [n|]; [|reflexivity].
  destruct (Z.eqb_spec n 0), (Z.ltb_spec n 1), (Z.ltb_spec 5 n); lia.
Qed.

Lemma generateRecipes_count_witness :
  ∃ recipes mode,
    reply_data (RecipeEndpoints.generateRecipes ToyCrypto.lib ToyCrypto.secret None None
                  string Scenario_answer Scenario.users "u3"
                  (RecipeEndpoints.Build_RecipeBody (Some ["rice"; "egg"]) Js.Undefined
                                                    (Some (-4)%Z)))
    = Some (recipes, mode)
    ∧ reply_message (RecipeEndpoints.generateRecipes ToyCrypto.lib ToyCrypto.secret None None
                       string Scenario_answer Scenario.users "u3"
                       (RecipeEndpoints.Build_RecipeBody (Some ["rice"; "egg"]) Js.Undefined
                                                         (Some (-4)%Z)))
      = Some ("Generated " +:+ pretty (length recipes) +:+ " recipes")
    ∧ 1 ≤ length recipes ≤ 5
    ∧ Z.of_nat (length recipes)
      = (if (-4 =? 0) then 3 else if (-4 <? 1) then 1 else if (5 <? -4) then 5 else -4)%Z.
Proof.
  apply (generateRecipes_count ToyCrypto.lib ToyCrypto.secret None None string
                               Scenario_answer Scenario.users "u3"
                               (RecipeEndpoints.Build_RecipeBody
                                  (Some ["rice"; "egg"]) Js.Undefined (Some (-4)%Z))).
  vm_compute. reflexivity.
Defined.

(** X22. [generateRecipes] answers 400 exactly when the request has no
    non-empty array of ingredients or its mode is neither [cook_now] nor
    [gap_analysis] (a mode left out counts as [cook_now]), whoever the user is
    and whether or not the user is stored; [generateSingleRecipe] does not
    check the mode and answers 400 exactly when the ingredients are missing. *)
Theorem recipe_requests_checked
        (L : NodeCrypto) (env defaultGeminiKey defaultGrokKey : option string)
        (Recipe : Type)
        (answer : list string -> Js.value -> AiHelper.AIConfig -> nat -> completion Recipe)
        (db : Users) (id : string) (body : RecipeEndpoints.RecipeBody) :
  let mode := match RecipeEndpoints.mode body with
              | Js.Undefined => Js.Str "cook_now"
              | v => v
              end in
  (reply_status (RecipeEndpoints.generateRecipes L env defaultGeminiKey defaultGrokKey
                   Recipe answer db id body) = 400
   ↔ RecipeEndpoints.no_ingredients (RecipeEndpoints.ingredients body) = true
     ∨ mode ≠ Js.Str "cook_now" ∧ mode ≠ Js.Str "gap_analysis")
  ∧ (reply_status (RecipeEndpoints.generateSingleRecipe L env defaultGeminiKey defaultGrokKey
                     Recipe answer db id body) = 400
     ↔ RecipeEndpoints.no_ingredients (RecipeEndpoints.ingredients body) = true).
Proof.
  cbv zeta.
  unfold RecipeEndpoints.generateRecipes, RecipeEndpoints.generateSingleRecipe,
    RecipeEndpoints.no_ingredients.
  destruct (RecipeEndpoints.ingredients body) as [[|item items]|];
    try (split; split; intros; solve [reflexivity | now left]).
  split.
  - destruct (match RecipeEndpoints.mode body with
              | Js.Undefined => Js.Str "cook_now" | v => v end) as [| |c|mode];
      try (split; [intros _; right; split; discriminate | reflexivity]).
    destruct (Js.array_includes ["cook_now"; "gap_analysis"] mode) eqn:Hmode; cbn [negb].
    + apply array_includes_In in Hmode. split.
      * repeat case_match; cbn; discriminate.
      * intros [[=] | [H1 H2]]. cbn in Hmode.
        destruct Hmode as [<- | [<- | []]]; congruence.
    + split; [|reflexivity]. intros _. right.
      split; intros [= ->]; discriminate Hmode.
  - split; [|discriminate]. repeat case_match; cbn; discriminate.
Qed.

(** X23. A stored secret that does not decrypt stops a recipe request: when
    the secret the handlers load, the current one or else the legacy one,
    makes [decrypt] throw, [generateRecipes] and [generateSingleRecipe] answer
    500 with that error; the key of the server is not used instead and the
    provider is not asked. *)
Theorem recipe_request_stops_on_corrupt_secret
        (L : NodeCrypto) (env defaultGeminiKey defaultGrokKey : option string)
        (Recipe : Type)
        (answer : list string -> Js.value -> AiHelper.AIConfig -> nat -> completion Recipe)
        (db : Users) (id : string) (body : RecipeEndpoints.RecipeBody) (u : User)
        (e : string) :
  db !! id = Some u →
  RecipeEndpoints.no_ingredients (RecipeEndpoints.ingredients body) = false →
  RecipeEndpoints.mode body = Js.Str "cook_now"
  ∨ RecipeEndpoints.mode body = Js.Str "gap_analysis"
  ∨ RecipeEndpoints.mode body = Js.Undefined →
  (present (aiApiKey u)
   ∧ Encryption.decrypt L env (Js.of_field (aiApiKey u)) = Throw e)
  ∨ (¬ present (aiApiKey u) ∧ present (geminiApiKey u)
     ∧ Encryption.decrypt L env (Js.of_field (geminiApiKey u)) = Throw e) →
  RecipeEndpoints.generateRecipes L env defaultGeminiKey defaultGrokKey
    Recipe answer db id body
  = mkReply 500 false (Some "Failed to generate recipes") None
            (Some "Failed to decrypt data")
  ∧ RecipeEndpoints.generateSingleRecipe L env defaultGeminiKey defaultGrokKey
      Recipe answer db id body
    = mkReply 500 false (Some "Failed to generate recipe") None
              (Some "Failed to decrypt data").
Proof.
  intros Hu Hing Hmode Hcorrupt.
  assert (Hkey : RecipeController.userApiKey L env u = Throw "Failed to decrypt data").
  { unfold RecipeController.userApiKey.
    destruct Hcorrupt as [[Hcur%truthy_present Hdec]
                         | (Hcur%absent_falsy & Hleg%truthy_present & Hdec)];
      pose proof (decrypt_throws_generic L _ _ _ Hdec) as ->.
    - now rewrite Hcur, Hdec.
    - now rewrite Hcur, Hleg, Hdec. }
  unfold RecipeEndpoints.generateRecipes, RecipeEndpoints.generateSingleRecipe.
  unfold RecipeEndpoints.no_ingredients in Hing.
  destruct (RecipeEndpoints.ingredients body) as [[|item items]|]; try discriminate.
  rewrite Hu, Hkey.
  destruct Hmode as [-> | [-> | ->]]; split; reflexivity.
Qed.

Lemma recipe_request_stops_on_corrupt_secret_witness :
  let db := <[ "u2" := mkUser (Some "abc") (geminiApiKey Scenario.legacy_only) None None ]>
              Scenario.users in
  let body := RecipeEndpoints.Build_RecipeBody (Some ["rice"]) Js.Undefined None in
  RecipeEndpoints.generateRecipes ToyCrypto.lib ToyCrypto.secret (Some "server-key") None
    string Scenario_answer db "u2" body
  = mkReply 500 false (Some "Failed to generate recipes") None
            (Some "Failed to decrypt data")
  ∧ RecipeEndpoints.generateSingleRecipe ToyCrypto.lib ToyCrypto.secret (Some "server-key")
      None string Scenario_answer db "u2" body
    = mkReply 500 false (Some "Failed to generate recipe") None
              (Some "Failed to decrypt data").
Proof.
  cbv zeta.
  apply (recipe_request_stops_on_corrupt_secret
           ToyCrypto.lib ToyCrypto.secret (Some "server-key") None string Scenario_answer
           _ "u2" _ (mkUser (Some "abc") (geminiApiKey Scenario.legacy_only) None None)
           "Failed to decrypt data").
  - vm_compute. reflexivity.
  - reflexivity.
  - right. right. reflexivity.
  - left. split; [|vm_compute; reflexivity].
    exists "abc". split; [reflexivity | discriminate].
Defined.

(** X24. [generateSingleRecipe] answers as [generateRecipes] does for one
    recipe: for a request with ingredients and a mode [generateRecipes]
    accepts, the two have the same status and the same error, and the recipe
    of the one is the only recipe of the other. *)
Theorem single_recipe_is_one_of_many
        (L : NodeCrypto) (env defaultGeminiKey defaultGrokKey : option string)
        (Recipe : Type)
        (answer : list string -> Js.value -> AiHelper.AIConfig -> nat -> completion Recipe)
        (db : Users) (id : string) (ing : option (list string)) (mode : Js.value)
        (parsed : option Z) (m : string) :
  match mode with Js.Undefined => Js.Str "cook_now" | v => v end = Js.Str m →
  In m ["cook_now"; "gap_analysis"] →
  let one := RecipeEndpoints.generateSingleRecipe L env defaultGeminiKey defaultGrokKey
               Recipe answer db id (RecipeEndpoints.Build_RecipeBody ing mode parsed) in
  let many := RecipeEndpoints.generateRecipes L env defaultGeminiKey defaultGrokKey
                Recipe answer db id (RecipeEndpoints.Build_RecipeBody ing mode (Some 1%Z)) in
  reply_status one = reply_status many
  ∧ reply_error one = reply_error many
  ∧ ∀ r, reply_data one = Some r ↔ reply_data many = Some ([r], m).
Proof.
  intros Hmode Hm%array_includes_In. cbv zeta.
  unfold RecipeEndpoints.generateSingleRecipe, RecipeEndpoints.generateRecipes,
    RecipeEndpoints.generateMultipleRecipes.
  cbn [RecipeEndpoints.ingredients RecipeEndpoints.mode RecipeEndpoints.parsedCount].
  destruct mode as [| |c|m']; try discriminate Hmode; injection Hmode as <-;
    rewrite Hm; cbn [negb];
    (destruct ing as [[|item items]|]; try (repeat split; discriminate));
    (destruct (db !! id) as [u|]; [|repeat split; discriminate]);
    (destruct (RecipeController.userApiKey L env u) as [key|e];
     [|repeat split; discriminate]);
    change (Z.to_nat (RecipeEndpoints.recipeCount (Some 1%Z))) with 1;
    cbn [RecipeEndpoints.generate_from];
    (destruct (RecipeEndpoints.generateRecipe _ _ _ _ _ _ _ _ _ _) as [r|e]; cbn;
     [repeat split; intros [= ->]; reflexivity | repeat split; discriminate]).
Qed.

Lemma single_recipe_is_one_of_many_witness :
  let one := RecipeEndpoints.generateSingleRecipe ToyCrypto.lib ToyCrypto.secret None None
               string Scenario_answer Scenario.users "u3"
               (RecipeEndpoints.Build_RecipeBody (Some ["rice"]) Js.Undefined None) in
  let many := RecipeEndpoints.generateRecipes ToyCrypto.lib ToyCrypto.secret None None
                string Scenario_answer Scenario.users "u3"
                (RecipeEndpoints.Build_RecipeBody (Some ["rice"]) Js.Undefined (Some 1%Z)) in
  reply_status one = reply_status many
  ∧ reply_error one = reply_error many
  ∧ ∀ r, reply_data one = Some r ↔ reply_data many = Some ([r], "cook_now").
Proof.
  apply (single_recipe_is_one_of_many
           ToyCrypto.lib ToyCrypto.secret None None string Scenario_answer
           Scenario.users "u3" (Some ["rice"]) Js.Undefined None "cook_now").
  - reflexivity.
  - simpl. tauto.
Defined.

(** X25. The key of the user goes before the key of the server: when the
    handlers load a non-empty key for the user, the replies of
    [generateRecipes] and [generateSingleRecipe] are the same whatever
    [GEMINI_API_KEY] and [GROK_API_KEY] are, set or not. *)
Theorem recipe_request_uses_user_key
        (L : NodeCrypto) (env g1 k1 g2 k2 : option string) (Recipe : Type)
        (answer : list string -> Js.value -> AiHelper.AIConfig -> nat -> completion Recipe)
        (db : Users) (id : string) (body : RecipeEndpoints.RecipeBody)
        (u : User) (key : string) :
  db !! id = Some u →
  RecipeController.userApiKey L env u = Return (Some key) →
  key ≠ EmptyString →
  RecipeEndpoints.generateRecipes L env g1 k1 Recipe answer db id body
  = RecipeEndpoints.generateRecipes L env g2 k2 Recipe answer db id body
  ∧ RecipeEndpoints.generateSingleRecipe L env g1 k1 Recipe answer db id body
    = RecipeEndpoints.generateSingleRecipe L env g2 k2 Recipe answer db id body.
Proof.
  intros Hu Hkey Hne.
  assert (Hcfg : ∀ dg dk p m,
             AiHelper.getAIConfig dg dk (Some key) p m
             = Return (AiHelper.Build_AIConfig key p m)).
  { intros dg dk p m. unfold AiHelper.getAIConfig.
    apply String.eqb_neq in Hne. rewrite Hne. cbn. now rewrite Hne. }
  assert (Hone : ∀ dg dk ing mode p m i,
             RecipeEndpoints.generateRecipe dg dk Recipe answer ing mode (Some key) p m i
             = RecipeEndpoints.generateRecipe None None Recipe answer ing mode
                 (Some key) p m i).
  { intros. unfold RecipeEndpoints.generateRecipe. now rewrite !Hcfg. }
  assert (Hloop : ∀ dg dk ing mode p m todo i acc,
             RecipeEndpoints.generate_from dg dk Recipe answer ing mode (Some key) p m
               todo i acc
             = RecipeEndpoints.generate_from None None Recipe answer ing mode (Some key)
                 p m todo i acc).
  { intros dg dk ing mode p m todo.
    induction todo as [|todo IH]; intros i acc; [reflexivity|].
    cbn [RecipeEndpoints.generate_from]. rewrite Hone.
    destruct (RecipeEndpoints.generateRecipe None None _ _ _ _ _ _ _ _); [apply IH|reflexivity]. }
  unfold RecipeEndpoints.generateRecipes, RecipeEndpoints.generateSingleRecipe,
    RecipeEndpoints.generateMultipleRecipes.
  rewrite Hu, Hkey.
  destruct (RecipeEndpoints.ingredients body) as [[|item items]|];
    try (split; reflexivity).
  split.
  - destruct (match RecipeEndpoints.mode body with
              | Js.Undefined => Js.Str "cook_now" | v => v end) as [| |c|mode];
      try reflexivity.
    destruct (negb _); [reflexivity|].
    now rewrite (Hloop g1 k1), (Hloop g2 k2).
  - now rewrite (Hone g1 k1), (Hone g2 k2).
Qed.

Lemma recipe_request_uses_user_key_witness :
  let body := RecipeEndpoints.Build_RecipeBody (Some ["rice"]) Js.Undefined (Some 2%Z) in
  RecipeEndpoints.generateRecipes ToyCrypto.lib ToyCrypto.secret (Some "server-key") None
    string Scenario_answer Scenario.users "u3" body
  = RecipeEndpoints.generateRecipes ToyCrypto.lib ToyCrypto.secret None None
      string Scenario_answer Scenario.users "u3" body
  ∧ RecipeEndpoints.generateSingleRecipe ToyCrypto.lib ToyCrypto.secret (Some "server-key")
      None string Scenario_answer Scenario.users "u3" body
    = RecipeEndpoints.generateSingleRecipe ToyCrypto.lib ToyCrypto.secret None None
        string Scenario_answer Scenario.users "u3" body.
Proof.
  cbv zeta.
  apply (recipe_request_uses_user_key
           ToyCrypto.lib ToyCrypto.secret (Some "server-key") None None None string
           Scenario_answer Scenario.users "u3" _ Scenario.configured "sk-1").
  - vm_compute. reflexivity.
  - vm_compute. reflexivity.
  - discriminate.
Defined.
